(** * EduConnect backend: the student record engine and the voice query path

    A shallow embedding of [backend/main.py]: the attendance, grade, exam and
    fee mutations on the record store, the keyword intent classifier
    [detect_intent], the day resolver [get_day_from_text] and the query
    handler [process], followed by the properties the specification states
    about them; and the other handlers of the file that work on typed data
    (the student records themselves, the library, the courses, the notices,
    the timetable, the orders and the admin sessions), with the properties
    the code shows for them.

    Python values are modelled as the interpreter has them: [int] is [Z],
    [float] is IEEE-754 binary64 (the Standard Library's [SpecFloat] with
    precision 53 and [emax] 1024), [str] is the UTF-8 byte string, a [dict]
    whose iteration order the code observes is an insertion-ordered
    association list, and the [students] dict, only ever read by key, is a
    [gmap]. *)

From Stdlib Require Import ZArith String Ascii List Bool Lia DecimalString.
From Stdlib Require Import Floats.SpecFloat.
From stdpp Require Import base option gmap strings list.

Open Scope Z_scope.

(** ** Exceptions and results *)

(** The exceptions the modelled code can raise: the [HTTPException] of the
    handlers and the arithmetic errors of the interpreter. *)
Inductive exn :=
  | HTTPException (status_code : Z) (detail : string)
  | OverflowError
  | ZeroDivisionError
  | ValueError.

Inductive res (A : Type) :=
  | Ok (a : A)
  | Raise (e : exn).
Arguments Ok {A} a.
Arguments Raise {A} e.

(** [res] is a monad in stdpp's sense, so that [x ← c; k] sequences two
    computations and stops at the first exception. *)
#[global] Instance res_ret : MRet res := fun A a => Ok a.
#[global] Instance res_bind : MBind res := fun A B k r =>
  match r with
  | Ok a => k a
  | Raise e => Raise e
  end.

(** ** Python numbers *)

Module Py.

Definition prec : Z := 53.
Definition emax : Z := 1024.

(** A Python [float]. *)
Definition float := spec_float.

Definition is_zero (f : float) : bool :=
  match f with
  | S754_zero _ => true
  | _ => false
  end.

(** Conversion of an [int] to [float]: correctly rounded, [OverflowError]
    when the integer is too large. *)
Definition float_of_int (z : Z) : res float :=
  match binary_normalize prec emax z 0 false with
  | S754_infinity _ => Raise OverflowError
  | f => Ok f
  end.

(** [a / b] on two [int]s: the correctly rounded quotient of the exact
    integers, [ZeroDivisionError] for a zero divisor and [OverflowError]
    when the quotient is too large for a [float]. *)
Definition int_truediv (a b : Z) : res float :=
  if b =? 0 then Raise ZeroDivisionError
  else
    let s := xorb (a <? 0) (b <? 0) in
    if a =? 0 then Ok (S754_zero s)
    else
      let '(q, e, l) := SFdiv_core_binary prec emax (Z.abs a) 0 (Z.abs b) 0 in
      match binary_round_aux prec emax s q e l with
      | S754_infinity _ => Raise OverflowError
      | f => Ok f
      end.

(** [n / d] rounded to the nearest integer, ties to even ([0 < d]). *)
Definition div_half_even (n d : Z) : Z :=
  let q := n / d in
  match 2 * (n mod d) ?= d with
  | Lt => q
  | Gt => q + 1
  | Eq => if Z.even q then q else q + 1
  end.

(** The exact value of a finite float is [mant f * 2 ^ expo f]. *)
Definition signed (s : bool) (m : positive) : Z :=
  if s then Z.neg m else Z.pos m.

(** [round(x)] on a [float]: the nearest [int], ties to even. *)
Definition float_round (f : float) : res Z :=
  match f with
  | S754_zero _ => Ok 0
  | S754_infinity _ => Raise OverflowError
  | S754_nan => Raise ValueError
  | S754_finite s m e =>
      Ok (if 0 <=? e then signed s m * 2 ^ e
          else div_half_even (signed s m) (2 ^ (- e)))
  end.

(** [round(x, 2)] on a [float]: the exact value is rounded half-even to
    two decimals and the decimal is converted back, correctly rounded;
    infinities and NaN round to themselves and the sign of a zero result
    is that of [x]. *)
Definition float_round_2 (f : float) : res float :=
  match f with
  | S754_finite s m e =>
      let n :=
        if 0 <=? e then signed s m * 2 ^ e * 100
        else div_half_even (signed s m * 100) (2 ^ (- e)) in
      if n =? 0 then Ok (S754_zero s) else int_truediv n 100
  | _ => Ok f
  end.

(** A number as the arithmetic of the handlers sees it. *)
Inductive num :=
  | Int (z : Z)
  | Float (f : float).

Definition to_float (x : num) : res float :=
  match x with
  | Int z => float_of_int z
  | Float f => Ok f
  end.

(** [x * y] *)
Definition mul (x y : num) : res num :=
  match x, y with
  | Int a, Int b => Ok (Int (a * b))
  | _, _ =>
      fx ← to_float x;
      fy ← to_float y;
      Ok (Float (SFmul prec emax fx fy))
  end.

(** [x + y] *)
Definition add (x y : num) : res num :=
  match x, y with
  | Int a, Int b => Ok (Int (a + b))
  | _, _ =>
      fx ← to_float x;
      fy ← to_float y;
      Ok (Float (SFadd prec emax fx fy))
  end.

(** [x / y] *)
Definition truediv (x y : num) : res num :=
  match x, y with
  | Int a, Int b => f ← int_truediv a b; Ok (Float f)
  | _, _ =>
      fx ← to_float x;
      fy ← to_float y;
      if is_zero fy then Raise ZeroDivisionError
      else Ok (Float (SFdiv prec emax fx fy))
  end.

(** [round(x)] *)
Definition round (x : num) : res Z :=
  match x with
  | Int z => Ok z
  | Float f => float_round f
  end.

(** [round(x, 2)] *)
Definition round_2 (x : num) : res num :=
  match x with
  | Int z => Ok (Int z)
  | Float f => r ← float_round_2 f; Ok (Float r)
  end.

(** The float literals of the grade table, 8.5 and 6.5. *)
Definition f8_5 : float := Eval vm_compute in binary_normalize prec emax 17 (-1) false.
Definition f6_5 : float := Eval vm_compute in binary_normalize prec emax 13 (-1) false.

End Py.

(** ** Python strings *)

Module Str.

(** The line feed, written [\n] in the source. *)
Definition nl : string := String "010"%char EmptyString.

(** [w in t] on two strings: [w] occurs in [t] as a substring. On UTF-8
    the byte-wise test and the test on code points agree. *)
Fixpoint contains (w t : string) : bool :=
  String.prefix w t ||
  match t with
  | EmptyString => false
  | String _ t' => contains w t'
  end.

(** [any(word in t for word in words)] *)
Definition any_in (words : list string) (t : string) : bool :=
  existsb (fun word => contains word t) words.

(** [str(n)] and [f"{n}"] on an [int]. *)
Definition of_int (n : Z) : string :=
  NilZero.string_of_int (Z.to_int n).

Fixpoint zeros (n : nat) : string :=
  match n with
  | O => EmptyString
  | S n' => String "0"%char (zeros n')
  end.

(** [f"{n:0wd}"]: the decimal digits padded with zeros, after the sign,
    to a width of [w]. *)
Definition format_0d (w : nat) (n : Z) : string :=
  let digits := of_int (Z.abs n) in
  if n <? 0
  then "-" +:+ zeros (w - 1 - String.length digits) +:+ digits
  else zeros (w - String.length digits) +:+ digits.

(** ["\n".join(parts)] *)
Fixpoint join_nl (parts : list string) : string :=
  match parts with
  | [] => EmptyString
  | [p] => p
  | p :: rest => p +:+ nl +:+ join_nl rest
  end.

(** The ASCII part of [str.lower] and [str.upper]. *)
Definition lower_ascii (c : ascii) : ascii :=
  let n := nat_of_ascii c in
  if (65 <=? n)%nat && (n <=? 90)%nat then ascii_of_nat (n + 32) else c.

Definition upper_ascii (c : ascii) : ascii :=
  let n := nat_of_ascii c in
  if (97 <=? n)%nat && (n <=? 122)%nat then ascii_of_nat (n - 32) else c.

Fixpoint map_chars (f : ascii -> ascii) (s : string) : string :=
  match s with
  | EmptyString => EmptyString
  | String c s' => String (f c) (map_chars f s')
  end.

(** The string has ASCII characters only. *)
Fixpoint is_ascii (s : string) : bool :=
  match s with
  | EmptyString => true
  | String c s' => (nat_of_ascii c <? 128)%nat && is_ascii s'
  end.

(** [str.lower] on a string of ASCII characters; bytes of other
    characters are kept. *)
Definition ascii_lower (s : string) : string := map_chars lower_ascii s.

(** [str.capitalize] on a string of ASCII characters. *)
Definition capitalize (s : string) : string :=
  match s with
  | EmptyString => EmptyString
  | String c s' => String (upper_ascii c) (map_chars lower_ascii s')
  end.

End Str.

(** ** Python dicts with their insertion order *)

Module Dict.

Definition dict (V : Type) := list (string * V).

Section Ops.
Context {V : Type}.

(** [d.get(k)] *)
Fixpoint get (k : string) (d : dict V) : option V :=
  match d with
  | [] => None
  | (k', v) :: d' => if String.eqb k k' then Some v else get k d'
  end.

(** [k in d] *)
Definition mem (k : string) (d : dict V) : bool :=
  match get k d with
  | Some _ => true
  | None => false
  end.

(** [d[k] = v]: an existing key keeps its place, a new one goes last. *)
Fixpoint set (k : string) (v : V) (d : dict V) : dict V :=
  match d with
  | [] => [(k, v)]
  | (k', v') :: d' =>
      if String.eqb k k' then (k, v) :: d' else (k', v') :: set k v d'
  end.

(** [del d[k]] *)
Fixpoint del (k : string) (d : dict V) : dict V :=
  match d with
  | [] => []
  | (k', v') :: d' =>
      if String.eqb k k' then d' else (k', v') :: del k d'
  end.

(** [d.values()] *)
Definition values (d : dict V) : list V := map snd d.

End Ops.

End Dict.

Import Dict.

(** ** The record store *)

(** JSON values, for the parts of the store the modelled handlers carry
    along without looking inside. *)
#[warnings="-register-all"]
Inductive json :=
  | JNull
  | JBool (b : bool)
  | JNum (n : Py.num)
  | JStr (s : string)
  | JList (l : list json)
  | JDict (d : list (string * json)).

Module SubjectAttendance.
Record t := mk { present : Z; total : Z; percent : Z }.
End SubjectAttendance.

Module Attendance.
Record t := mk {
  overall_percent : Z;
  total_classes : Z;
  present : Z;
  absent : Z;
  subjects : dict SubjectAttendance.t
}.

Definition with_overall_percent (v : Z) (a : t) : t :=
  mk v (total_classes a) (present a) (absent a) (subjects a).
Definition with_total_classes (v : Z) (a : t) : t :=
  mk (overall_percent a) v (present a) (absent a) (subjects a).
Definition with_present (v : Z) (a : t) : t :=
  mk (overall_percent a) (total_classes a) v (absent a) (subjects a).
Definition with_absent (v : Z) (a : t) : t :=
  mk (overall_percent a) (total_classes a) (present a) v (subjects a).
Definition with_subjects (v : dict SubjectAttendance.t) (a : t) : t :=
  mk (overall_percent a) (total_classes a) (present a) (absent a) v.
End Attendance.

Module Grade.
Record t := mk { grade : string; marks : Z; credits : Z }.
End Grade.

Module Grades.
Record t := mk {
  current_semester : dict Grade.t;
  sgpa : Py.num;
  cgpa : Py.num;
  total_credits : Z;
  earned_credits : Z
}.

Definition with_current_semester (v : dict Grade.t) (g : t) : t :=
  mk v (sgpa g) (cgpa g) (total_credits g) (earned_credits g).
Definition with_sgpa (v : Py.num) (g : t) : t :=
  mk (current_semester g) v (cgpa g) (total_credits g) (earned_credits g).
Definition with_earned_credits (v : Z) (g : t) : t :=
  mk (current_semester g) (sgpa g) (cgpa g) (total_credits g) v.
End Grades.

Module Exam.
Record t := mk {
  subject : string;
  date : string;
  time : string;
  venue : string;
  type : string;
  days_left : Z
}.
End Exam.

Module Book.
Record t := mk {
  title : string;
  author : string;
  issue_date : string;
  due_date : string;
  fine : Z;
  status : string
}.
End Book.

Module Library.
Record t := mk {
  books_borrowed : list Book.t;
  total_borrowed : Z;
  total_fine : Z;
  max_books : Z
}.

Definition with_books_borrowed (v : list Book.t) (l : t) : t :=
  mk v (total_borrowed l) (total_fine l) (max_books l).
Definition with_total_borrowed (v : Z) (l : t) : t :=
  mk (books_borrowed l) v (total_fine l) (max_books l).
End Library.

Module Payment.
Record t := mk { date : string; amount : Z; mode : string; receipt : string }.
End Payment.

Module Fees.
Record t := mk {
  total_fee : Z;
  paid : Z;
  pending : Z;
  due_date : string;
  payment_history : list Payment.t;
  breakdown : dict json
}.

Definition with_total_fee (v : Z) (f : t) : t :=
  mk v (paid f) (pending f) (due_date f) (payment_history f) (breakdown f).
Definition with_paid (v : Z) (f : t) : t :=
  mk (total_fee f) v (pending f) (due_date f) (payment_history f) (breakdown f).
Definition with_pending (v : Z) (f : t) : t :=
  mk (total_fee f) (paid f) v (due_date f) (payment_history f) (breakdown f).
Definition with_due_date (v : string) (f : t) : t :=
  mk (total_fee f) (paid f) (pending f) v (payment_history f) (breakdown f).
Definition with_payment_history (v : list Payment.t) (f : t) : t :=
  mk (total_fee f) (paid f) (pending f) (due_date f) v (breakdown f).
End Fees.

Module Course.
Record t := mk {
  code : string;
  name : string;
  credits : Z;
  professor : string;
  schedule : string
}.
End Course.

Module Student.
Record t := mk {
  id : string;
  name : string;
  email : string;
  phone : string;
  course : string;
  year : string;
  semester : string;
  section : string;
  roll_no : string;
  dob : string;
  address : string;
  cgpa : Py.num;
  attendance : Attendance.t;
  grades : Grades.t;
  exams : list Exam.t;
  library : Library.t;
  fees : Fees.t;
  courses : list Course.t;
  faculty_appointments : option (list json);
  cafeteria_orders : option (list json)
}.

Definition with_attendance (v : Attendance.t) (s : t) : t :=
  mk (id s) (name s) (email s) (phone s) (course s) (year s) (semester s)
     (section s) (roll_no s) (dob s) (address s) (cgpa s) v (grades s)
     (exams s) (library s) (fees s) (courses s) (faculty_appointments s)
     (cafeteria_orders s).
Definition with_grades (v : Grades.t) (s : t) : t :=
  mk (id s) (name s) (email s) (phone s) (course s) (year s) (semester s)
     (section s) (roll_no s) (dob s) (address s) (cgpa s) (attendance s) v
     (exams s) (library s) (fees s) (courses s) (faculty_appointments s)
     (cafeteria_orders s).
Definition with_exams (v : list Exam.t) (s : t) : t :=
  mk (id s) (name s) (email s) (phone s) (course s) (year s) (semester s)
     (section s) (roll_no s) (dob s) (address s) (cgpa s) (attendance s)
     (grades s) v (library s) (fees s) (courses s) (faculty_appointments s)
     (cafeteria_orders s).
Definition with_fees (v : Fees.t) (s : t) : t :=
  mk (id s) (name s) (email s) (phone s) (course s) (year s) (semester s)
     (section s) (roll_no s) (dob s) (address s) (cgpa s) (attendance s)
     (grades s) (exams s) (library s) v (courses s) (faculty_appointments s)
     (cafeteria_orders s).
Definition with_library (v : Library.t) (s : t) : t :=
  mk (id s) (name s) (email s) (phone s) (course s) (year s) (semester s)
     (section s) (roll_no s) (dob s) (address s) (cgpa s) (attendance s)
     (grades s) (exams s) v (fees s) (courses s) (faculty_appointments s)
     (cafeteria_orders s).
Definition with_courses (v : list Course.t) (s : t) : t :=
  mk (id s) (name s) (email s) (phone s) (course s) (year s) (semester s)
     (section s) (roll_no s) (dob s) (address s) (cgpa s) (attendance s)
     (grades s) (exams s) (library s) (fees s) v (faculty_appointments s)
     (cafeteria_orders s).
Definition with_faculty_appointments (v : option (list json)) (s : t) : t :=
  mk (id s) (name s) (email s) (phone s) (course s) (year s) (semester s)
     (section s) (roll_no s) (dob s) (address s) (cgpa s) (attendance s)
     (grades s) (exams s) (library s) (fees s) (courses s) v
     (cafeteria_orders s).
Definition with_cafeteria_orders (v : option (list json)) (s : t) : t :=
  mk (id s) (name s) (email s) (phone s) (course s) (year s) (semester s)
     (section s) (roll_no s) (dob s) (address s) (cgpa s) (attendance s)
     (grades s) (exams s) (library s) (fees s) (courses s)
     (faculty_appointments s) v.
End Student.

Module ClassSlot.
Record t := mk {
  time : string;
  course : string;
  room : string;
  professor : string;
  type : string
}.
End ClassSlot.

(** The whole document of [student_data.json]. *)
Module Store.
Record t := mk {
  students : gmap string Student.t;
  notices : list json;
  timetable : dict (list ClassSlot.t);
  cafeteria : option json;
  placements : option json;
  events : option json;
  faculty : option json
}.

Definition with_students (v : gmap string Student.t) (d : t) : t :=
  mk v (notices d) (timetable d) (cafeteria d) (placements d) (events d)
     (faculty d).
Definition with_notices (v : list json) (d : t) : t :=
  mk (students d) v (timetable d) (cafeteria d) (placements d) (events d)
     (faculty d).
Definition with_timetable (v : dict (list ClassSlot.t)) (d : t) : t :=
  mk (students d) (notices d) v (cafeteria d) (placements d) (events d)
     (faculty d).
End Store.

(** ** Request models *)

Module UserQuery.
Record t := mk { text : string; user : string }.
End UserQuery.

Module StudentBasic.
Record t := mk {
  name : string;
  email : string;
  phone : string;
  course : string;
  year : string;
  semester : string;
  section : string;
  roll_no : string;
  dob : string;
  address : string;
  cgpa : Py.float
}.
End StudentBasic.

Module AttendanceUpdate.
Record t := mk { student_key : string; subject : string; present : Z; total : Z }.
End AttendanceUpdate.

Module GradeUpdate.
Record t := mk {
  student_key : string;
  subject : string;
  grade : string;
  marks : Z;
  credits : Z
}.
End GradeUpdate.

Module ExamUpdate.
Record t := mk {
  student_key : string;
  subject : string;
  date : string;
  time : string;
  venue : string;
  exam_type : string;
  days_left : Z
}.
End ExamUpdate.

Module FeeUpdate.
Record t := mk { student_key : string; total_fee : Z; paid : Z; due_date : string }.
End FeeUpdate.

Module NoticeCreate.
Record t := mk { title : string; content : string; notice_type : string; author : string }.
End NoticeCreate.

Module CourseCreate.
Record t := mk {
  code : string;
  name : string;
  credits : Z;
  professor : string;
  schedule : string
}.
End CourseCreate.

Module LibraryBookAdd.
Record t := mk {
  student_key : string;
  title : string;
  author : string;
  issue_date : string;
  due_date : string
}.
End LibraryBookAdd.

Module AppointmentBook.
Record t := mk {
  student_key : string;
  professor_name : string;
  date : string;
  time : string;
  purpose : string
}.
End AppointmentBook.

Module CafeteriaOrder.
Record t := mk { student_key : string; items : list string; total_amount : Z }.
End CafeteriaOrder.

Module AdminLogin.
Record t := mk { username : string; password : string }.
End AdminLogin.

Module OrderStatusUpdate.
Record t := mk { student_key : string; order_id : string; status : string }.
End OrderStatusUpdate.

(** ** Admin sessions *)

(** One entry of [admin_sessions]. *)
Module Session.
Record t := mk { username : string; login_time : string }.
End Session.

(** The reply of a successful [admin_login]. *)
Module LoginReply.
Record t := mk { success : bool; message : string; token : string; username : string }.
End LoginReply.

(** The reply of [verify_admin]: [{"valid": True, "username": ...}] or
    [{"valid": False}]. *)
Module Verified.
Inductive t :=
  | valid (username : string)
  | invalid.
End Verified.

(** ** The clock *)

Module Weekday.
Inductive t := Monday | Tuesday | Wednesday | Thursday | Friday | Saturday | Sunday.

(** [datetime.weekday()] *)
Definition index (d : t) : Z :=
  match d with
  | Monday => 0 | Tuesday => 1 | Wednesday => 2 | Thursday => 3
  | Friday => 4 | Saturday => 5 | Sunday => 6
  end.

(** [strftime("%A")], in the C locale. *)
Definition full_name (d : t) : string :=
  match d with
  | Monday => "Monday" | Tuesday => "Tuesday" | Wednesday => "Wednesday"
  | Thursday => "Thursday" | Friday => "Friday" | Saturday => "Saturday"
  | Sunday => "Sunday"
  end.

(** The day after. *)
Definition next (d : t) : t :=
  match d with
  | Monday => Tuesday | Tuesday => Wednesday | Wednesday => Thursday
  | Thursday => Friday | Friday => Saturday | Saturday => Sunday
  | Sunday => Monday
  end.

(** The name the timetable is keyed by. *)
Definition key (d : t) : string :=
  match d with
  | Monday => "monday" | Tuesday => "tuesday" | Wednesday => "wednesday"
  | Thursday => "thursday" | Friday => "friday" | Saturday => "saturday"
  | Sunday => "sunday"
  end.
End Weekday.

(** One reading of [datetime.now()]. *)
Module Clock.
Record t := mk {
  weekday : Weekday.t;
  hour : Z;
  (** [strftime("%d %b %Y")] *)
  date_d_b_Y : string;
  (** [strftime("%Y")] *)
  year_Y : string
}.
End Clock.

(** ** Intent tags *)

Module Intent.
Inductive t :=
  | attendance | timetable | exams | grades | library | fees | notices
  | courses | profile | help | greet | placements | events | faculty
  | cafeteria | cgpa_calc | unknown.

End Intent.

(** ** The process state and the handler monad *)

(** The global [DATA] and the document in [student_data.json]. *)
Record world := World { DATA : Store.t; file : Store.t }.

(** A handler runs on the world and returns a value or raises; what it
    assigned before raising stays assigned. *)
Definition handler (A : Type) : Type := world -> world * res A.

#[global] Instance handler_ret : MRet handler := fun A a w => (w, Ok a).
#[global] Instance handler_bind : MBind handler := fun A B k m w =>
  match m w with
  | (w', Ok a) => k a w'
  | (w', Raise e) => (w', Raise e)
  end.

Definition raise {A : Type} (e : exn) : handler A := fun w => (w, Raise e).

Definition lift {A : Type} (r : res A) : handler A := fun w => (w, r).

Definition read_DATA : handler Store.t := fun w => (w, Ok (DATA w)).

Definition write_DATA (d : Store.t) : handler unit :=
  fun w => (World d (file w), Ok tt).

(** [load_data()] *)
Definition load_data : handler Store.t := fun w => (w, Ok (file w)).

(** [save_data(DATA)] *)
Definition save_data : handler unit :=
  fun w => (World (DATA w) (DATA w), Ok tt).

(** [if key not in DATA["students"]: raise HTTPException(404, ...)] and
    the read [DATA["students"][key]] behind it. *)
Definition find_student (key : string) : handler Student.t :=
  d ← read_DATA;
  match Store.students d !! key with
  | Some student => mret student
  | None => raise (HTTPException 404 "Student not found")
  end.

(** An assignment through the reference [DATA["students"][key]]. *)
Definition update_student (key : string) (f : Student.t -> Student.t) : handler unit :=
  d ← read_DATA;
  write_DATA (Store.with_students (alter f key (Store.students d)) d).

Definition on_attendance (f : Attendance.t -> Attendance.t) (s : Student.t) : Student.t :=
  Student.with_attendance (f (Student.attendance s)) s.

Definition on_subjects
    (f : dict SubjectAttendance.t -> dict SubjectAttendance.t) : Student.t -> Student.t :=
  on_attendance (fun a => Attendance.with_subjects (f (Attendance.subjects a)) a).

Definition on_grades (f : Grades.t -> Grades.t) (s : Student.t) : Student.t :=
  Student.with_grades (f (Student.grades s)) s.

Definition on_current_semester
    (f : dict Grade.t -> dict Grade.t) : Student.t -> Student.t :=
  on_grades (fun g => Grades.with_current_semester (f (Grades.current_semester g)) g).

Definition on_fees (f : Fees.t -> Fees.t) (s : Student.t) : Student.t :=
  Student.with_fees (f (Student.fees s)) s.

Definition on_library (f : Library.t -> Library.t) (s : Student.t) : Student.t :=
  Student.with_library (f (Student.library s)) s.

Definition on_courses (f : list Course.t -> list Course.t) (s : Student.t) : Student.t :=
  Student.with_courses (f (Student.courses s)) s.

(** [sum(...)] over [int]s. *)
Definition py_sum (l : list Z) : Z := fold_left Z.add l 0.

(** [round((present / total) * 100) if total > 0 else 0], the expression of
    [update_attendance] for the percent of a subject and for the overall
    percent. *)
Definition percentage (present total : Z) : res Z :=
  if 0 <? total then
    q ← Py.truediv (Py.Int present) (Py.Int total);
    p ← Py.mul q (Py.Int 100);
    Py.round p
  else Ok 0.

(** [grades_map] of [update_grade]. *)
Definition grades_map : dict Py.num :=
  [("A+", Py.Int 10); ("A", Py.Int 9); ("A-", Py.Float Py.f8_5);
   ("B+", Py.Int 8); ("B", Py.Int 7); ("B-", Py.Float Py.f6_5);
   ("C+", Py.Int 6); ("C", Py.Int 5); ("D", Py.Int 4); ("F", Py.Int 0)].

(** The loop of [update_grade] over [current_semester.items()], from the
    running [total_points] and [total_credits]. *)
Fixpoint sgpa_loop (items : dict Grade.t) (total_points : Py.num) (total_credits : Z)
    : res (Py.num * Z) :=
  match items with
  | [] => Ok (total_points, total_credits)
  | (subj, data) :: rest =>
      let gp := default (Py.Int 0) (Dict.get (Grade.grade data) grades_map) in
      term ← Py.mul gp (Py.Int (Grade.credits data));
      total_points ← Py.add total_points term;
      sgpa_loop rest total_points (total_credits + Grade.credits data)
  end.

(** [round(total_points / total_credits, 2) if total_credits > 0 else 0] *)
Definition sgpa_of (total_points : Py.num) (total_credits : Z) : res Py.num :=
  if 0 <? total_credits then
    q ← Py.truediv total_points (Py.Int total_credits);
    Py.round_2 q
  else Ok (Py.Int 0).

(** *** The derived fields as the specification words them *)

(** [Σpresent] and [Σtotal] over the per-subject entries. *)
Definition sum_present (subjects : dict SubjectAttendance.t) : Z :=
  py_sum (map SubjectAttendance.present (Dict.values subjects)).

Definition sum_total (subjects : dict SubjectAttendance.t) : Z :=
  py_sum (map SubjectAttendance.total (Dict.values subjects)).

(** [round(present/total × 100)], 0 when [total == 0]: the percent as the
    specification states it. *)
Definition stated_percentage (present total : Z) : res Z :=
  if total =? 0 then Ok 0
  else
    q ← Py.truediv (Py.Int present) (Py.Int total);
    p ← Py.mul q (Py.Int 100);
    Py.round p.

(** [value] is [round(present/total × 100)] for a positive [total] and 0
    for any other. *)
Definition percent_is (present total value : Z) : Prop :=
  (0 < total -> stated_percentage present total = Ok value) /\
  (total <= 0 -> value = 0).

(** The four overall aggregates equal the sums and the ratio over the
    per-subject entries, as the specification states it. *)
Definition aggregates_as_stated (a : Attendance.t) : Prop :=
  Attendance.present a = sum_present (Attendance.subjects a) /\
  Attendance.total_classes a = sum_total (Attendance.subjects a) /\
  Attendance.absent a = Attendance.total_classes a - Attendance.present a /\
  stated_percentage (sum_present (Attendance.subjects a)) (sum_total (Attendance.subjects a))
    = Ok (Attendance.overall_percent a).

(** The same with an overall percent of 0 for any [Σtotal] that is not
    positive. *)
Definition aggregates_recomputed (a : Attendance.t) : Prop :=
  Attendance.present a = sum_present (Attendance.subjects a) /\
  Attendance.total_classes a = sum_total (Attendance.subjects a) /\
  Attendance.absent a = Attendance.total_classes a - Attendance.present a /\
  percent_is (sum_present (Attendance.subjects a)) (sum_total (Attendance.subjects a))
    (Attendance.overall_percent a).

(** The letter to point table, unknown letters at 0. *)
Definition grade_point (letter : string) : Py.num :=
  default (Py.Int 0) (Dict.get letter grades_map).

(** The letters of the table. *)
Definition letters : list string :=
  ["A+"; "A"; "A-"; "B+"; "B"; "B-"; "C+"; "C"; "D"; "F"].

(** [Σ(point(grade) × credits)], added up in the order of the mapping. *)
Fixpoint sum_points_from (acc : Py.num) (items : dict Grade.t) : res Py.num :=
  match items with
  | [] => Ok acc
  | (_, data) :: rest =>
      term ← Py.mul (grade_point (Grade.grade data)) (Py.Int (Grade.credits data));
      acc ← Py.add acc term;
      sum_points_from acc rest
  end.

Definition sum_points (items : dict Grade.t) : res Py.num :=
  sum_points_from (Py.Int 0) items.

(** [Σcredits] *)
Definition sum_credits (items : dict Grade.t) : Z :=
  py_sum (map Grade.credits (Dict.values items)).

(** [round(Σ(point × credits)/Σcredits, 2)], 0 when [Σcredits == 0]: the
    SGPA as the specification states it. *)
Definition stated_sgpa (items : dict Grade.t) : res Py.num :=
  if sum_credits items =? 0 then Ok (Py.Int 0)
  else
    points ← sum_points items;
    q ← Py.truediv points (Py.Int (sum_credits items));
    Py.round_2 q.

(** [value] is the stated SGPA for a positive [Σcredits] and 0 for any
    other. *)
Definition sgpa_is (items : dict Grade.t) (value : Py.num) : Prop :=
  (0 < sum_credits items -> stated_sgpa items = Ok value) /\
  (sum_credits items <= 0 -> value = Py.Int 0).

(** *** Magnitudes *)

(** A float that is a zero or finite, and below [2 ^ bound] in magnitude. *)
Definition float_below (bound : Z) (f : Py.float) : Prop :=
  match f with
  | S754_zero _ => True
  | S754_finite _ m e => e <= 971 /\ Zdigits2 (Z.pos m) + e <= bound
  | _ => False
  end.

(** A number below [2 ^ bound] in magnitude. *)
Definition num_below (bound : Z) (x : Py.num) : Prop :=
  match x with
  | Py.Int z => Z.abs z < 2 ^ bound
  | Py.Float f => float_below bound f
  end.

(** The classifier as the specification words it: an ordered list of
    keyword-set rules, the first rule with a keyword in the text wins. *)
Definition rules : list (list string * Intent.t) :=
  [(["attendance"; "present"; "absent"], Intent.attendance);
   (["timetable"; "schedule"; "class today"; "classes today"; "today's class"],
    Intent.timetable);
   (["exam"; "test"; "examination"; "mid-sem"; "end-sem"], Intent.exams);
   (["grade"; "result"; "marks"; "cgpa"; "sgpa"; "gpa"; "score"], Intent.grades);
   (["library"; "book"; "borrow"; "due"; "fine"], Intent.library);
   (["fee"; "payment"; "pay"; "dues"; "tuition"], Intent.fees);
   (["notice"; "announcement"; "news"; "update"; "circular"], Intent.notices);
   (["course"; "subject"; "credit"; "professor"; "teacher"], Intent.courses);
   (["profile"; "my info"; "my details"; "about me"; "student info"], Intent.profile);
   (["help"; "what can you"; "how to"; "assist"], Intent.help);
   (["hello"; "hi"; "hey"; "good morning"; "good afternoon"; "good evening"],
    Intent.greet);
   (["placement"; "job"; "internship"; "recruit"; "company"; "package"; "ctc"],
    Intent.placements);
   (["event"; "club"; "workshop"; "fest"; "seminar"; "hackathon"; "activity"],
    Intent.events);
   (["faculty"; "professor"; "teacher"; "appointment"; "cabin"; "meet sir"; "meet ma'am"],
    Intent.faculty);
   (["cafeteria"; "canteen"; "food"; "menu"; "order"; "eat"; "lunch"; "snack"],
    Intent.cafeteria);
   (["predict cgpa"; "calculate cgpa"; "target cgpa"; "gpa calculator"],
    Intent.cgpa_calc)].

Fixpoint first_match (rs : list (list string * Intent.t)) (t : string) : Intent.t :=
  match rs with
  | [] => Intent.unknown
  | (keywords, tag) :: rest =>
      if Str.any_in keywords t then tag else first_match rest t
  end.

(** The store with the record at [key] replaced, in memory. *)
Definition put_student (key : string) (s : Student.t) (w : world) : world :=
  World (Store.with_students (<[key := s]> (Store.students (DATA w))) (DATA w)) (file w).

(** The world once [DATA] is written to the file. *)
Definition saved (w : world) : world := World (DATA w) (DATA w).

(** The world once [DATA] is read again from the file. *)
Definition reloaded (w : world) : world := World (file w) (file w).

(** The counts of an entry are those of classes held and attended:
    [0 <= present <= total]. *)
Definition counts_in_order (entry : SubjectAttendance.t) : Prop :=
  0 <= SubjectAttendance.present entry <= SubjectAttendance.total entry.

(** The store with the record at [key] removed, in memory. *)
Definition drop_student (key : string) (w : world) : world :=
  World (Store.with_students (delete key (Store.students (DATA w))) (DATA w)) (file w).

(** The outcome of a handler on a key that has no record: the world as it
    was and the 404 of the source. *)
Definition not_found {A : Type} (w : world) : world * res A :=
  (w, Raise (HTTPException 404 "Student not found")).

(** *** What a run keeps *)

(** [R] relates every world to the world a run of [m] leaves it in,
    whatever the run returns or raises. *)
Definition always {A : Type} (R : world -> world -> Prop) (m : handler A) : Prop :=
  forall w, R w (m w).1.

(** [w'] has the records of [w] under the same keys, but for the record at
    [key], and the rest of the document of [w]. *)
Definition same_but (key : string) (w w' : world) : Prop :=
  (forall key', key' <> key ->
     Store.students (DATA w') !! key' = Store.students (DATA w) !! key') /\
  (forall key', is_Some (Store.students (DATA w') !! key')
                <-> is_Some (Store.students (DATA w) !! key')) /\
  Store.notices (DATA w') = Store.notices (DATA w) /\
  Store.timetable (DATA w') = Store.timetable (DATA w) /\
  Store.cafeteria (DATA w') = Store.cafeteria (DATA w) /\
  Store.placements (DATA w') = Store.placements (DATA w) /\
  Store.events (DATA w') = Store.events (DATA w) /\
  Store.faculty (DATA w') = Store.faculty (DATA w).

(** The file is as it was. *)
Definition file_kept (w w' : world) : Prop := file w' = file w.

(** A run of [m] that returns has written [DATA] to the file, and a run
    that raises has left the file as it was. *)
Definition written_on_success {A : Type} (m : handler A) : Prop :=
  forall w,
    match (m w).2 with
    | Ok _ => file (m w).1 = DATA (m w).1
    | Raise _ => file (m w).1 = file w
    end.

(** The same for a handler that may return without a change: it has then
    left the whole world as it was. *)
Definition written_if_changed {A : Type} (m : handler A) : Prop :=
  forall w,
    match (m w).2 with
    | Ok _ => file (m w).1 = DATA (m w).1 \/ (m w).1 = w
    | Raise _ => file (m w).1 = file w
    end.

(** The world after the calls [calls], made one after the other. *)
Definition after_calls {A : Type} (calls : list (handler A)) (w : world) : world :=
  fold_left (fun w call => (call w).1) calls w.

(** *** Sample data *)

Module Sample.

Definition clock : Clock.t := Clock.mk Weekday.Sunday 9 "04 Nov 2026" "2026".

(** A record as [create_student] builds it. *)
Definition fresh : Student.t :=
  Student.mk "CSE2026A01" "Ada Lovelace" "ada@example.edu" "5550100" "B.Tech CSE"
    "2" "4" "A" "CS-17" "10 Dec 2005" "12 St James Square"
    (Py.Float (S754_zero false))
    (Attendance.mk 0 0 0 0 [])
    (Grades.mk [] (Py.Float (S754_zero false)) (Py.Float (S754_zero false)) 0 0)
    []
    (Library.mk [] 0 0 5)
    (Fees.mk 0 0 0 "" [] [])
    [] None None.

(** The same record with 18 of 20 classes of Maths attended. *)
Definition with_maths : Student.t :=
  Student.with_attendance
    (Attendance.mk 90 20 18 2 [("Maths", SubjectAttendance.mk 18 20 90)]) fresh.

(** The same record at 80 percent. *)
Definition at_80 : Student.t :=
  Student.with_attendance
    (Attendance.mk 80 20 16 4 [("Maths", SubjectAttendance.mk 16 20 80)]) fresh.

(** The float 9.0. *)
Definition nine : Py.float := Eval vm_compute in binary_normalize Py.prec Py.emax 9 0 false.

(** The same record with one grade, an A on 4 credits, and its SGPA 9.0. *)
Definition with_dsa : Student.t :=
  Student.with_grades
    (Grades.mk [("DSA", Grade.mk "A" 90 4)] (Py.Float nine)
       (Py.Float (S754_zero false)) 0 4)
    fresh.

(** Two requests for new students. *)
Definition grace : StudentBasic.t :=
  StudentBasic.mk "Grace Hopper" "grace@example.edu" "5550101" "B.Tech CSE"
    "2" "4" "A" "CS-18" "09 Dec 2005" "1 Navy Yard" (S754_zero false).

Definition alan : StudentBasic.t :=
  StudentBasic.mk "Alan Turing" "alan@example.edu" "5550102" "B.Tech CSE"
    "2" "4" "B" "CS-19" "23 Jun 2005" "2 Bletchley Park" (S754_zero false).

Definition store_of (s : Student.t) : Store.t :=
  Store.mk {[ "ada lovelace" := s ]} [] [] None None None None.

Definition world_of (s : Student.t) : world := World (store_of s) (store_of s).

Definition no_render (tag : Intent.t) (d : Store.t) (s : Student.t) : res string :=
  Ok EmptyString.

Definition no_strip (s : string) : string := s.

End Sample.

(** *** Lookups in JSON values *)

(** The exceptions of a subscript on a JSON value; the typed handlers do
    not raise them. *)
Inductive json_exn :=
  | KeyError (key : string)
  | TypeError.

(** [x == z] for a [float] [x] and an [int] [z]: the exact values are
    compared. *)
Definition float_eq_int (f : Py.float) (z : Z) : bool :=
  match f with
  | S754_zero _ => z =? 0
  | S754_finite s m e =>
      if 0 <=? e then Py.signed s m * 2 ^ e =? z
      else z * 2 ^ (- e) =? Py.signed s m
  | _ => false
  end.

(** [v == z] for a JSON value [v] and an [int] [z]; [True] is 1 and
    [False] is 0, and a value that is no number is not equal. *)
Definition json_eq_int (v : json) (z : Z) : bool :=
  match v with
  | JNum (Py.Int a) => a =? z
  | JNum (Py.Float f) => float_eq_int f z
  | JBool b => (if b then 1 else 0) =? z
  | _ => false
  end.

(** [n["id"] != notice_id]: a dict without the key raises [KeyError], a
    value that is no dict raises [TypeError]. *)
Definition notice_id_differs (n : json) (notice_id : Z) : json_exn + bool :=
  match n with
  | JDict d =>
      match Dict.get "id" d with
      | Some v => inr (negb (json_eq_int v notice_id))
      | None => inl (KeyError "id")
      end
  | _ => inl TypeError
  end.

(** [[n for n in notices if n["id"] != notice_id]] *)
Fixpoint keep_notices (notice_id : Z) (notices : list json) : json_exn + list json :=
  match notices with
  | [] => inr []
  | n :: rest =>
      match notice_id_differs n notice_id with
      | inl e => inl e
      | inr keep =>
          match keep_notices notice_id rest with
          | inl e => inl e
          | inr kept => inr (if keep then n :: kept else kept)
          end
      end
  end.

(** [delete_notice]: the list is rebuilt before it is assigned, so a
    notice that raises leaves [DATA] and the file as they were. *)
Definition delete_notice (notice_id : Z) (w : world) : world * (json_exn + string) :=
  match keep_notices notice_id (Store.notices (DATA w)) with
  | inl e => (w, inl e)
  | inr kept =>
      (World (Store.with_notices kept (DATA w)) (Store.with_notices kept (DATA w)),
       inr "Notice deleted")
  end.

(** The id of a notice that [create_notice] made. *)
Definition notice_id (n : json) : option Z :=
  match n with
  | JDict d =>
      match Dict.get "id" d with
      | Some (JNum (Py.Int z)) => Some z
      | _ => None
      end
  | _ => None
  end.

(** [order["id"] == order_id] for a text [order_id]: a value that is no
    text is not equal; the subscript raises as for a notice. *)
Definition order_id_is (order : json) (order_id : string) : json_exn + bool :=
  match order with
  | JDict d =>
      match Dict.get "id" d with
      | Some (JStr s) => inr (String.eqb s order_id)
      | Some _ => inr false
      | None => inl (KeyError "id")
      end
  | _ => inl TypeError
  end.

(** The loop of [update_order_status]: the first order with the id gets
    the status, in place; [None] when the loop ends without one. *)
Fixpoint set_first_status (order_id status : string) (orders : list json)
    : json_exn + option (list json) :=
  match orders with
  | [] => inr None
  | order :: rest =>
      match order_id_is order order_id with
      | inl e => inl e
      | inr true =>
          match order with
          | JDict d => inr (Some (JDict (Dict.set "status" (JStr status) d) :: rest))
          | _ => inl TypeError
          end
      | inr false =>
          match set_first_status order_id status rest with
          | inl e => inl e
          | inr None => inr None
          | inr (Some rest') => inr (Some (order :: rest'))
          end
      end
  end.

(** *** Admin authentication *)

Definition ADMIN_CREDENTIALS : dict string := [("admin", "admin123")].

(** The dict [admin_sessions], from tokens to sessions; it is only ever
    read by key. *)
Definition admin_sessions : Type := gmap string Session.t.

(** [admin_login]: [token] is what [secrets.token_hex(16)] draws and
    [login_time] the [isoformat()] of the clock. *)
Definition admin_login (token login_time : string) (credentials : AdminLogin.t)
    (sessions : admin_sessions) : admin_sessions * res LoginReply.t :=
  match Dict.get (AdminLogin.username credentials) ADMIN_CREDENTIALS with
  | Some password =>
      if String.eqb password (AdminLogin.password credentials) then
        (<[token := Session.mk (AdminLogin.username credentials) login_time]> sessions,
         Ok (LoginReply.mk true "Login successful" token (AdminLogin.username credentials)))
      else (sessions, Raise (HTTPException 401 "Invalid username or password"))
  | None => (sessions, Raise (HTTPException 401 "Invalid username or password"))
  end.

(** [admin_logout]; the reply is [{"success": True, "message": ...}]. *)
Definition admin_logout (token : string) (sessions : admin_sessions)
    : admin_sessions * (bool * string) :=
  (match sessions !! token with
   | Some _ => delete token sessions
   | None => sessions
   end,
   (true, "Logged out successfully")).

Definition verify_admin (token : string) (sessions : admin_sessions) : Verified.t :=
  match sessions !! token with
  | Some session => Verified.valid (Session.username session)
  | None => Verified.invalid
  end.

Definition days : list string :=
  ["monday"; "tuesday"; "wednesday"; "thursday"; "friday"; "saturday"; "sunday"].

Section Backend.

(** [str.lower] and [str.strip]; their Unicode tables are left out, the
    handlers are modelled for any such functions. *)
Variable lower : string -> string.
Variable strip : string -> string.

(** On ASCII text [str.lower] changes the letters [A]-[Z] only. *)
Hypothesis lower_ascii :
  forall s, Str.is_ascii s = true -> lower s = Str.ascii_lower s.

(** The replies of [process] for the tags whose branch is not modelled
    (exams, grades, library, fees, notices, courses, profile, placements,
    events, faculty, cafeteria): a function of the tag, the store and the
    record of the caller, which may raise. *)
Variable render_other : Intent.t -> Store.t -> Student.t -> res string.

(** *** Student records *)

Definition create_student (now : Clock.t) (student : StudentBasic.t) : handler string :=
  let key := lower (StudentBasic.name student) in
  d ← read_DATA;
  match Store.students d !! key with
  | Some _ => raise (HTTPException 400 "Student already exists")
  | None =>
      let record :=
        Student.mk
          ("CSE" +:+ Clock.year_Y now +:+ "A" +:+
             Str.format_0d 2 (Z.of_nat (size (Store.students d)) + 1))
          (StudentBasic.name student) (StudentBasic.email student)
          (StudentBasic.phone student) (StudentBasic.course student)
          (StudentBasic.year student) (StudentBasic.semester student)
          (StudentBasic.section student) (StudentBasic.roll_no student)
          (StudentBasic.dob student) (StudentBasic.address student)
          (Py.Float (StudentBasic.cgpa student))
          (Attendance.mk 0 0 0 0 [])
          (Grades.mk [] (Py.Float (S754_zero false))
             (Py.Float (StudentBasic.cgpa student)) 0 0)
          []
          (Library.mk [] 0 0 5)
          (Fees.mk 0 0 0 "" [] [])
          [] None None in
      write_DATA (Store.with_students (<[key := record]> (Store.students d)) d);;
      save_data;;
      mret ("Student " +:+ StudentBasic.name student +:+ " added successfully")
  end.

Definition get_student (student_key : string) : handler (Student.t * string) :=
  let key := lower student_key in
  student ← find_student key;
  mret (student, key).

(** [update_student] of the source, the handler of
    [PUT /api/admin/student/{student_key}]: the [dict.update] of the eleven
    basic fields. *)
Definition update_student_basic (student_key : string) (student : StudentBasic.t)
    : handler string :=
  let key := lower student_key in
  _ ← find_student key;
  update_student key
    (fun s =>
       Student.mk (Student.id s)
         (StudentBasic.name student) (StudentBasic.email student)
         (StudentBasic.phone student) (StudentBasic.course student)
         (StudentBasic.year student) (StudentBasic.semester student)
         (StudentBasic.section student) (StudentBasic.roll_no student)
         (StudentBasic.dob student) (StudentBasic.address student)
         (Py.Float (StudentBasic.cgpa student))
         (Student.attendance s) (Student.grades s) (Student.exams s)
         (Student.library s) (Student.fees s) (Student.courses s)
         (Student.faculty_appointments s) (Student.cafeteria_orders s));;
  save_data;;
  mret ("Student " +:+ StudentBasic.name student +:+ " updated successfully").

Definition delete_student (student_key : string) : handler string :=
  let key := lower student_key in
  student ← find_student key;
  let name := Student.name student in
  d ← read_DATA;
  write_DATA (Store.with_students (delete key (Store.students d)) d);;
  save_data;;
  mret ("Student " +:+ name +:+ " deleted successfully").

(** *** Attendance *)

Definition update_attendance (att : AttendanceUpdate.t) : handler string :=
  let key := lower (AttendanceUpdate.student_key att) in
  _ ← find_student key;
  percent ← lift (percentage (AttendanceUpdate.present att) (AttendanceUpdate.total att));
  update_student key
    (on_subjects
       (Dict.set (AttendanceUpdate.subject att)
          (SubjectAttendance.mk (AttendanceUpdate.present att)
             (AttendanceUpdate.total att) percent)));;
  student ← find_student key;
  let subjects := Attendance.subjects (Student.attendance student) in
  let total_present := py_sum (map SubjectAttendance.present (Dict.values subjects)) in
  let total_classes := py_sum (map SubjectAttendance.total (Dict.values subjects)) in
  update_student key (on_attendance (Attendance.with_present total_present));;
  update_student key (on_attendance (Attendance.with_total_classes total_classes));;
  update_student key (on_attendance (Attendance.with_absent (total_classes - total_present)));;
  overall ← lift (percentage total_present total_classes);
  update_student key (on_attendance (Attendance.with_overall_percent overall));;
  save_data;;
  mret ("Attendance updated for " +:+ AttendanceUpdate.subject att).

Definition delete_attendance (student_key subject : string) : handler string :=
  let key := lower student_key in
  student ← find_student key;
  (if Dict.mem subject (Attendance.subjects (Student.attendance student))
   then update_student key (on_subjects (Dict.del subject));; save_data
   else mret tt);;
  mret ("Attendance deleted for " +:+ subject).

(** *** Grades *)

Definition update_grade (grade : GradeUpdate.t) : handler string :=
  let key := lower (GradeUpdate.student_key grade) in
  _ ← find_student key;
  update_student key
    (on_current_semester
       (Dict.set (GradeUpdate.subject grade)
          (Grade.mk (GradeUpdate.grade grade) (GradeUpdate.marks grade)
             (GradeUpdate.credits grade))));;
  student ← find_student key;
  totals ← lift (sgpa_loop (Grades.current_semester (Student.grades student)) (Py.Int 0) 0);
  let total_points := totals.1 in
  let total_credits := totals.2 in
  sgpa ← lift (sgpa_of total_points total_credits);
  update_student key (on_grades (Grades.with_sgpa sgpa));;
  update_student key (on_grades (Grades.with_earned_credits total_credits));;
  save_data;;
  mret ("Grade updated for " +:+ GradeUpdate.subject grade).

Definition delete_grade (student_key subject : string) : handler string :=
  let key := lower student_key in
  student ← find_student key;
  (if Dict.mem subject (Grades.current_semester (Student.grades student))
   then update_student key (on_current_semester (Dict.del subject));; save_data
   else mret tt);;
  mret ("Grade deleted for " +:+ subject).

(** *** Exams *)

Definition add_exam (exam : ExamUpdate.t) : handler string :=
  let key := lower (ExamUpdate.student_key exam) in
  _ ← find_student key;
  update_student key
    (fun s =>
       Student.with_exams
         (Student.exams s ++
            [Exam.mk (ExamUpdate.subject exam) (ExamUpdate.date exam)
               (ExamUpdate.time exam) (ExamUpdate.venue exam)
               (ExamUpdate.exam_type exam) (ExamUpdate.days_left exam)]) s);;
  save_data;;
  mret ("Exam added for " +:+ ExamUpdate.subject exam).

Definition delete_exam (student_key subject : string) : handler string :=
  let key := lower student_key in
  _ ← find_student key;
  update_student key
    (fun s =>
       Student.with_exams
         (List.filter (fun e => negb (String.eqb (Exam.subject e) subject))
            (Student.exams s)) s);;
  save_data;;
  mret ("Exam deleted for " +:+ subject).

(** *** Fees *)

Definition update_fees (fee : FeeUpdate.t) : handler string :=
  let key := lower (FeeUpdate.student_key fee) in
  _ ← find_student key;
  update_student key (on_fees (Fees.with_total_fee (FeeUpdate.total_fee fee)));;
  update_student key (on_fees (Fees.with_paid (FeeUpdate.paid fee)));;
  update_student key
    (on_fees (Fees.with_pending (FeeUpdate.total_fee fee - FeeUpdate.paid fee)));;
  update_student key (on_fees (Fees.with_due_date (FeeUpdate.due_date fee)));;
  save_data;;
  mret "Fees updated successfully".

Definition add_payment (now : Clock.t) (student_key : string) (amount : Z) (mode : string)
    : handler string :=
  let key := lower student_key in
  _ ← find_student key;
  update_student key (on_fees (fun f => Fees.with_paid (Fees.paid f + amount) f));;
  update_student key
    (on_fees (fun f => Fees.with_pending (Fees.total_fee f - Fees.paid f) f));;
  update_student key
    (on_fees
       (fun f =>
          Fees.with_payment_history
            (Fees.payment_history f ++
               [Payment.mk (Clock.date_d_b_Y now) amount mode
                  ("REC" +:+
                     Str.format_0d 3 (Z.of_nat (length (Fees.payment_history f)) + 1))])
            f));;
  save_data;;
  mret ("Payment of â‚¹" +:+ Str.of_int amount +:+ " recorded").

(** *** Library *)

Definition add_library_book (book : LibraryBookAdd.t) : handler string :=
  let key := lower (LibraryBookAdd.student_key book) in
  _ ← find_student key;
  update_student key
    (on_library
       (fun l =>
          Library.with_books_borrowed
            (Library.books_borrowed l ++
               [Book.mk (LibraryBookAdd.title book) (LibraryBookAdd.author book)
                  (LibraryBookAdd.issue_date book) (LibraryBookAdd.due_date book)
                  0 "Active"])
            l));;
  update_student key
    (on_library
       (fun l => Library.with_total_borrowed (Z.of_nat (length (Library.books_borrowed l))) l));;
  save_data;;
  mret ("Book '" +:+ LibraryBookAdd.title book +:+ "' added").

Definition return_book (student_key title : string) : handler string :=
  let key := lower student_key in
  _ ← find_student key;
  update_student key
    (on_library
       (fun l =>
          Library.with_books_borrowed
            (List.filter (fun b => negb (String.eqb (Book.title b) title))
               (Library.books_borrowed l))
            l));;
  update_student key
    (on_library
       (fun l => Library.with_total_borrowed (Z.of_nat (length (Library.books_borrowed l))) l));;
  save_data;;
  mret ("Book '" +:+ title +:+ "' returned").

(** *** Courses *)

Definition add_course_to_student (student_key : string) (course : CourseCreate.t)
    : handler string :=
  let key := lower student_key in
  _ ← find_student key;
  update_student key
    (on_courses
       (fun courses =>
          courses ++
            [Course.mk (CourseCreate.code course) (CourseCreate.name course)
               (CourseCreate.credits course) (CourseCreate.professor course)
               (CourseCreate.schedule course)]));;
  save_data;;
  mret ("Course " +:+ CourseCreate.name course +:+ " added").

Definition remove_course (student_key course_code : string) : handler string :=
  let key := lower student_key in
  _ ← find_student key;
  update_student key
    (on_courses (List.filter (fun c => negb (String.eqb (Course.code c) course_code))));;
  save_data;;
  mret ("Course " +:+ course_code +:+ " removed").

(** *** Notices and the timetable *)

Definition get_notices : handler (list json) :=
  d ← read_DATA;
  mret (Store.notices d).

(** [create_notice]; the reply carries the message and the new notice. *)
Definition create_notice (now : Clock.t) (notice : NoticeCreate.t) : handler (string * json) :=
  d ← read_DATA;
  let new_notice :=
    JDict
      [("id", JNum (Py.Int (Z.of_nat (length (Store.notices d)) + 1)));
       ("title", JStr (NoticeCreate.title notice));
       ("content", JStr (NoticeCreate.content notice));
       ("type", JStr (NoticeCreate.notice_type notice));
       ("date", JStr (Clock.date_d_b_Y now));
       ("author", JStr (NoticeCreate.author notice));
       ("time_ago", JStr "Just now")] in
  write_DATA (Store.with_notices (new_notice :: Store.notices d) d);;
  save_data;;
  mret ("Notice created", new_notice).

Definition get_timetable : handler (dict (list ClassSlot.t)) :=
  d ← read_DATA;
  mret (Store.timetable d).

(** [add_class]: the list of the day is created when the day has none, and
    the class is appended to it. *)
Definition add_class (day time course room professor class_type : string) : handler string :=
  let day := lower day in
  d ← read_DATA;
  (if Dict.mem day (Store.timetable d) then mret tt
   else write_DATA (Store.with_timetable (Dict.set day [] (Store.timetable d)) d));;
  d ← read_DATA;
  write_DATA
    (Store.with_timetable
       (Dict.set day
          (default [] (Dict.get day (Store.timetable d)) ++
             [ClassSlot.mk time course room professor class_type])
          (Store.timetable d))
       d);;
  save_data;;
  mret ("Class added to " +:+ day).

(** *** Orders and appointments *)

Definition get_my_orders (student_key : string) : handler (list json) :=
  let key := lower student_key in
  d ← read_DATA;
  match Store.students d !! key with
  | Some student => mret (default [] (Student.cafeteria_orders student))
  | None => mret []
  end.

(** [book_appointment]; the reply carries the message and the new
    appointment. *)
Definition book_appointment (appt : AppointmentBook.t) : handler (string * json) :=
  let key := lower (AppointmentBook.student_key appt) in
  _ ← find_student key;
  let new_appt :=
    JDict
      [("professor", JStr (AppointmentBook.professor_name appt));
       ("date", JStr (AppointmentBook.date appt));
       ("time", JStr (AppointmentBook.time appt));
       ("purpose", JStr (AppointmentBook.purpose appt));
       ("status", JStr "Pending Approval")] in
  student ← find_student key;
  (match Student.faculty_appointments student with
   | None => update_student key (Student.with_faculty_appointments (Some []))
   | Some _ => mret tt
   end);;
  update_student key
    (fun s =>
       Student.with_faculty_appointments
         (Some (default [] (Student.faculty_appointments s) ++ [new_appt])) s);;
  save_data;;
  mret ("Appointment request sent", new_appt).

(** [place_order]; [minute_second] is the [strftime('%M%S')] of the clock,
    and the reply carries the message and the new order. *)
Definition place_order (now : Clock.t) (minute_second : string) (order : CafeteriaOrder.t)
    : handler (string * json) :=
  let key := lower (CafeteriaOrder.student_key order) in
  _ ← find_student key;
  let new_order :=
    JDict
      [("id", JStr ("ORD" +:+ minute_second));
       ("items", JList (map JStr (CafeteriaOrder.items order)));
       ("total", JNum (Py.Int (CafeteriaOrder.total_amount order)));
       ("status", JStr "Preparing");
       ("date", JStr (Clock.date_d_b_Y now))] in
  student ← find_student key;
  (match Student.cafeteria_orders student with
   | None => update_student key (Student.with_cafeteria_orders (Some []))
   | Some _ => mret tt
   end);;
  update_student key
    (fun s =>
       Student.with_cafeteria_orders
         (Some (new_order :: default [] (Student.cafeteria_orders s))) s);;
  save_data;;
  mret ("Order placed successfully", new_order).

(** [update_order_status]: it returns or raises an [HTTPException], or a
    subscript on an order raises. *)
Definition update_order_status (update : OrderStatusUpdate.t) (w : world)
    : world * (json_exn + res string) :=
  let key := lower (OrderStatusUpdate.student_key update) in
  match Store.students (DATA w) !! key with
  | None => (w, inr (Raise (HTTPException 404 "Student not found")))
  | Some student =>
      match Student.cafeteria_orders student with
      | None => (w, inr (Raise (HTTPException 404 "Order not found")))
      | Some orders =>
          match
            set_first_status (OrderStatusUpdate.order_id update)
              (OrderStatusUpdate.status update) orders
          with
          | inl e => (w, inl e)
          | inr None => (w, inr (Raise (HTTPException 404 "Order not found")))
          | inr (Some orders') =>
              (saved (put_student key (Student.with_cafeteria_orders (Some orders') student) w),
               inr (Ok "Order status updated"))
          end
      end
  end.

(** *** The voice query path *)

Definition detect_intent (text : string) : Intent.t :=
  let t := lower text in
  if Str.any_in ["attendance"; "present"; "absent"] t then Intent.attendance
  else if Str.any_in ["timetable"; "schedule"; "class today"; "classes today"; "today's class"] t
  then Intent.timetable
  else if Str.any_in ["exam"; "test"; "examination"; "mid-sem"; "end-sem"] t
  then Intent.exams
  else if Str.any_in ["grade"; "result"; "marks"; "cgpa"; "sgpa"; "gpa"; "score"] t
  then Intent.grades
  else if Str.any_in ["library"; "book"; "borrow"; "due"; "fine"] t
  then Intent.library
  else if Str.any_in ["fee"; "payment"; "pay"; "dues"; "tuition"] t
  then Intent.fees
  else if Str.any_in ["notice"; "announcement"; "news"; "update"; "circular"] t
  then Intent.notices
  else if Str.any_in ["course"; "subject"; "credit"; "professor"; "teacher"] t
  then Intent.courses
  else if Str.any_in ["profile"; "my info"; "my details"; "about me"; "student info"] t
  then Intent.profile
  else if Str.any_in ["help"; "what can you"; "how to"; "assist"] t
  then Intent.help
  else if Str.any_in ["hello"; "hi"; "hey"; "good morning"; "good afternoon"; "good evening"] t
  then Intent.greet
  else if Str.any_in ["placement"; "job"; "internship"; "recruit"; "company"; "package"; "ctc"] t
  then Intent.placements
  else if Str.any_in ["event"; "club"; "workshop"; "fest"; "seminar"; "hackathon"; "activity"] t
  then Intent.events
  else if Str.any_in ["faculty"; "professor"; "teacher"; "appointment"; "cabin"; "meet sir"; "meet ma'am"] t
  then Intent.faculty
  else if Str.any_in ["cafeteria"; "canteen"; "food"; "menu"; "order"; "eat"; "lunch"; "snack"] t
  then Intent.cafeteria
  else if Str.any_in ["predict cgpa"; "calculate cgpa"; "target cgpa"; "gpa calculator"] t
  then Intent.cgpa_calc
  else Intent.unknown.

Definition get_day_from_text (now : Clock.t) (text : string) : string :=
  let t := lower text in
  if Str.contains "today" t then lower (Weekday.full_name (Clock.weekday now))
  else if Str.contains "tomorrow" t then
    let day_index := Weekday.index (Clock.weekday now) in
    nth (Z.to_nat ((day_index + 1) mod 7)) days ""
  else
    match List.find (fun day => Str.contains day t) days with
    | Some day => day
    | None => lower (Weekday.full_name (Clock.weekday now))
    end.

(** The reply of the attendance branch before its closing remark. *)
Definition attendance_summary (student : Student.t) : string :=
  let att := Student.attendance student in
  let overall := Attendance.overall_percent att in
  let present := Attendance.present att in
  let absent := Attendance.absent att in
  let total := Attendance.total_classes att in
  let subjects := Attendance.subjects att in
  let subject_details :=
    map (fun item => item.1 +:+ ": " +:+ Str.of_int (SubjectAttendance.percent item.2) +:+ "%")
      subjects in
  let reply := "ğŸ“Š Your overall attendance is " +:+ Str.of_int overall +:+ "%." +:+ Str.nl in
  let reply :=
    reply +:+ "Classes attended: " +:+ Str.of_int present +:+ "/" +:+ Str.of_int total +:+
      " (Absent: " +:+ Str.of_int absent +:+ ")" +:+ Str.nl +:+ Str.nl in
  reply +:+ ("Subject-wise breakdown:" +:+ Str.nl +:+
               Str.join_nl (map (fun s => "â€¢ " +:+ s) subject_details)).

Definition low_attendance_warning : string :=
  Str.nl +:+ Str.nl +:+ "âš ï¸ Warning: Your attendance is below 75%. Please attend more classes!".

Definition commendation : string :=
  Str.nl +:+ Str.nl +:+ "ğŸŒŸ Excellent attendance! Keep it up!".

Definition apology (user : string) : string :=
  "Sorry, I couldn't find data for " +:+ user +:+ ". Please check your credentials.".

Definition fallback_reply : string :=
  "I didn't understand. Try asking about attendance, timetable, exams, fees, library, placements, events, faculty, or cafeteria!".

Definition process (now : Clock.t) (query : UserQuery.t) : handler string :=
  d ← load_data;
  write_DATA d;;
  let text := lower (UserQuery.text query) in
  let intent := detect_intent text in
  let user_key := lower (UserQuery.user query) in
  d ← read_DATA;
  match Store.students d !! user_key with
  | None => mret (apology (UserQuery.user query))
  | Some student =>
      match intent with
      | Intent.attendance =>
          let overall := Attendance.overall_percent (Student.attendance student) in
          let reply := attendance_summary student in
          let reply :=
            if overall <? 75 then reply +:+ low_attendance_warning
            else if 90 <=? overall then reply +:+ commendation
            else reply in
          mret reply
      | Intent.timetable =>
          let day := get_day_from_text now text in
          match Dict.get day (Store.timetable d) with
          | None =>
              mret ("ğŸ“… No classes scheduled for " +:+ Str.capitalize day +:+ ".")
          | Some classes =>
              let reply := "ğŸ“… Timetable for " +:+ Str.capitalize day +:+ ":" +:+ Str.nl +:+ Str.nl in
              let reply :=
                fold_left
                  (fun reply c =>
                     let reply :=
                       reply +:+ "ğŸ• " +:+ ClassSlot.time c +:+ " - " +:+
                         ClassSlot.course c +:+ Str.nl in
                     reply +:+ "   ğŸ“ " +:+ ClassSlot.room c +:+ " | ğŸ‘¨â€ğŸ« " +:+
                       ClassSlot.professor c +:+ " | ğŸ“š " +:+ ClassSlot.type c +:+
                       Str.nl +:+ Str.nl)
                  classes reply in
              mret (strip reply)
          end
      | Intent.help =>
          let reply := "ğŸ¤– I can help you with:" +:+ Str.nl +:+ Str.nl in
          let reply := reply +:+ "ğŸ“Š Attendance | ğŸ“… Timetable | ğŸ“ Exams" +:+ Str.nl in
          let reply := reply +:+ "ğŸ“ Grades | ğŸ“š Library | ğŸ’° Fees" +:+ Str.nl in
          let reply := reply +:+ "ğŸ“¢ Notices | ğŸ“– Courses | ğŸ‘¤ Profile" in
          mret reply
      | Intent.greet =>
          let hour := Clock.hour now in
          let greeting :=
            if hour <? 12 then "Good morning"
            else if hour <? 17 then "Good afternoon"
            else "Good evening" in
          mret (greeting +:+ ", " +:+ Student.name student +:+ "! ğŸ‘‹ How can I help you today?")
      | Intent.cgpa_calc => mret "ğŸ”¢ To calculate your target CGPA, please use the 'CGPA Predictor' tool in the dashboard menu. It allows you to simulate your future grades!"
      | Intent.unknown => mret fallback_reply
      | _ => lift (render_other intent d student)
      end
  end.

(** The reply of the timetable branch of [process] for a day that has the
    list [classes], before the [strip]. *)
Definition timetable_listing (day : string) (classes : list ClassSlot.t) : string :=
  fold_left
    (fun reply c =>
       let reply :=
         reply +:+ "ğŸ• " +:+ ClassSlot.time c +:+ " - " +:+
           ClassSlot.course c +:+ Str.nl in
       reply +:+ "   ğŸ“ " +:+ ClassSlot.room c +:+ " | ğŸ‘¨â€ğŸ« " +:+
         ClassSlot.professor c +:+ " | ğŸ“š " +:+ ClassSlot.type c +:+
         Str.nl +:+ Str.nl)
    classes
    ("ğŸ“… Timetable for " +:+ Str.capitalize day +:+ ":" +:+ Str.nl +:+ Str.nl).

(** *** The claims on the mutations, as stated *)

(** After an attendance upsert the entry of the subject carries the stated
    percent and the aggregates are the stated ones. *)
Definition attendance_upsert_as_stated (w : world) (att : AttendanceUpdate.t) : Prop :=
  forall w' msg,
    update_attendance att w = (w', Ok msg) ->
    exists student' entry,
      Store.students (DATA w') !! lower (AttendanceUpdate.student_key att) = Some student' /\
      Dict.get (AttendanceUpdate.subject att)
        (Attendance.subjects (Student.attendance student')) = Some entry /\
      stated_percentage (AttendanceUpdate.present att) (AttendanceUpdate.total att)
        = Ok (SubjectAttendance.percent entry) /\
      aggregates_as_stated (Student.attendance student').

(** After a grade upsert the SGPA is the stated one and the earned credits
    are [Σcredits], over the current-term mapping. *)
Definition grade_upsert_as_stated (w : world) (grade : GradeUpdate.t) : Prop :=
  forall w' msg,
    update_grade grade w = (w', Ok msg) ->
    exists student',
      Store.students (DATA w') !! lower (GradeUpdate.student_key grade) = Some student' /\
      stated_sgpa (Grades.current_semester (Student.grades student'))
        = Ok (Grades.sgpa (Student.grades student')) /\
      Grades.earned_credits (Student.grades student')
        = sum_credits (Grades.current_semester (Student.grades student')).

(** * Properties *)

(** ** Running handlers *)

Lemma run_bind {A B : Type} (m : handler A) (k : A -> handler B) w w' a :
  m w = (w', Ok a) -> (m ≫= k) w = k a w'.
Proof. intros H. unfold mbind, handler_bind. now rewrite H. Qed.

Lemma run_bind_raise {A B : Type} (m : handler A) (k : A -> handler B) w w' e :
  m w = (w', Raise e) -> (m ≫= k) w = (w', Raise e).
Proof. intros H. unfold mbind, handler_bind. now rewrite H. Qed.

Lemma run_lift {A : Type} (r : res A) w : lift r w = (w, r).
Proof. reflexivity. Qed.

Lemma run_save_data w : save_data w = (saved w, Ok tt).
Proof. reflexivity. Qed.

Lemma find_student_found key w s :
  Store.students (DATA w) !! key = Some s -> find_student key w = (w, Ok s).
Proof.
  intros H. unfold find_student.
  rewrite (run_bind _ _ w w (DATA w)) by reflexivity.
  now rewrite H.
Qed.

Lemma find_student_missing key w :
  Store.students (DATA w) !! key = None ->
  find_student key w = (w, Raise (HTTPException 404 "Student not found")).
Proof.
  intros H. unfold find_student.
  rewrite (run_bind _ _ w w (DATA w)) by reflexivity.
  now rewrite H.
Qed.

Lemma update_student_found key f w s :
  Store.students (DATA w) !! key = Some s ->
  update_student key f w = (put_student key (f s) w, Ok tt).
Proof.
  intros H. unfold update_student.
  rewrite (run_bind _ _ w w (DATA w)) by reflexivity.
  unfold write_DATA, put_student. now rewrite (alter_alt_Some _ _ _ _ H).
Qed.

Lemma lookup_put_student key s w :
  Store.students (DATA (put_student key s w)) !! key = Some s.
Proof. unfold put_student. simpl. apply lookup_insert_eq. Qed.

Lemma lookup_put_student_ne key key' s w :
  key <> key' ->
  Store.students (DATA (put_student key s w)) !! key'
  = Store.students (DATA w) !! key'.
Proof. intros H. unfold put_student. simpl. now apply lookup_insert_ne. Qed.

Lemma put_student_twice key s1 s2 w :
  put_student key s2 (put_student key s1 w) = put_student key s2 w.
Proof.
  unfold put_student. simpl. unfold Store.with_students. simpl.
  now rewrite insert_insert_eq.
Qed.

Lemma put_student_same key s w :
  Store.students (DATA w) !! key = Some s -> put_student key s w = w.
Proof.
  intros H. destruct w as [[st no ti ca pl ev fa] f]. unfold put_student. simpl in *.
  unfold Store.with_students. simpl. now rewrite (insert_id _ _ _ H).
Qed.

Lemma file_put_student key s w : file (put_student key s w) = file w.
Proof. reflexivity. Qed.

(** Run the next statement of a handler whose record is known. *)
Ltac step :=
  first
    [ erewrite run_bind by (apply find_student_found; first [eassumption | apply lookup_put_student])
    | erewrite run_bind by (apply update_student_found; first [eassumption | apply lookup_put_student])
    | erewrite run_bind by apply run_save_data
    | erewrite run_bind by (rewrite run_lift; f_equal; eassumption) ];
  rewrite ?put_student_twice.
(** ** Binary64 arithmetic within range *)

(** The number of binary digits of a mantissa bounds its magnitude; the
    lemmas below follow the digits and the exponent through the rounding
    of [SpecFloat] to show that the operations of [Py] neither overflow
    nor produce a NaN on operands of bounded magnitude. *)

(** *** Binary digits *)

Lemma digits2_pos_size p : digits2_pos p = Pos.size p.
Proof. induction p; simpl; congruence. Qed.

Lemma digits_bounds m :
  0 < m -> 2 ^ (Zdigits2 m - 1) <= m < 2 ^ Zdigits2 m.
Proof.
  destruct m as [|p|p]; try lia. intros _. simpl. rewrite digits2_pos_size.
  split.
  - pose proof (Pos.size_le p) as H.
    assert (H' : 2 ^ Z.pos (Pos.size p) <= 2 * Z.pos p).
    { rewrite <- Pos2Z.inj_pow. change (2 * Z.pos p) with (Z.pos p~0). lia. }
    replace (Z.pos (Pos.size p)) with (Z.pos (Pos.size p) - 1 + 1) in H' by lia.
    rewrite Z.pow_add_r in H' by lia. lia.
  - pose proof (Pos.size_gt p) as H. rewrite <- Pos2Z.inj_pow. lia.
Qed.

Lemma digits_nonneg m : 0 <= Zdigits2 m.
Proof. destruct m; simpl; lia. Qed.

Lemma digits_le m d : 0 <= m -> 0 <= d -> m < 2 ^ d -> Zdigits2 m <= d.
Proof.
  intros Hm Hd Hlt. destruct (Z.eq_dec m 0) as [->|Hne]; [simpl; lia|].
  destruct (digits_bounds m) as [Hlo _]; [lia|].
  destruct (Z_le_gt_dec (Zdigits2 m) d) as [|Hgt]; [assumption|exfalso].
  assert (2 ^ d <= 2 ^ (Zdigits2 m - 1)) by (apply Z.pow_le_mono_r; lia).
  lia.
Qed.

Lemma digits_lt_pow m : 0 <= m -> m < 2 ^ Zdigits2 m.
Proof.
  intros Hm. destruct (Z.eq_dec m 0) as [->|Hne]; [simpl; lia|].
  apply digits_bounds. lia.
Qed.

(** *** Shifts and rounding *)

Lemma shr_1_m mrs :
  0 <= shr_m mrs -> shr_m (shr_1 mrs) = shr_m mrs / 2.
Proof.
  destruct mrs as [m r s]. cbn [shr_m]. intros Hm.
  destruct m as [|[p|p|]|p]; cbn [shr_1 shr_m]; try reflexivity; try lia.
  - apply Z.div_unique with 1; lia.
  - apply Z.div_unique with 0; lia.
Qed.

Lemma iter_shr_1_m n mrs :
  0 <= shr_m mrs ->
  shr_m (SpecFloat.iter_pos shr_1 n mrs) = shr_m mrs / 2 ^ Z.pos n.
Proof.
  revert mrs. induction n as [n IH|n IH|]; intros mrs Hm; cbn [SpecFloat.iter_pos].
  - assert (H1 : 0 <= shr_m (shr_1 mrs)).
    { rewrite shr_1_m by assumption. apply Z.div_pos; lia. }
    assert (H2 : 0 <= shr_m (SpecFloat.iter_pos shr_1 n (shr_1 mrs))).
    { rewrite IH by assumption. apply Z.div_pos; lia. }
    rewrite IH, IH, shr_1_m by assumption.
    rewrite !Z.div_div by lia. f_equal.
    replace (Z.pos n~1) with (1 + Z.pos n + Z.pos n) by lia.
    rewrite !Z.pow_add_r by lia. rewrite Z.pow_1_r. lia.
  - assert (H2 : 0 <= shr_m (SpecFloat.iter_pos shr_1 n mrs)).
    { rewrite IH by assumption. apply Z.div_pos; lia. }
    rewrite IH, IH by assumption.
    rewrite Z.div_div by lia. f_equal.
    replace (Z.pos n~0) with (Z.pos n + Z.pos n) by lia.
    rewrite Z.pow_add_r by lia. reflexivity.
  - rewrite shr_1_m by assumption. reflexivity.
Qed.

Lemma shr_m_of_loc m l : shr_m (shr_record_of_loc m l) = m.
Proof. destruct l as [|[]]; reflexivity. Qed.

(** [shr_fexp]: the new exponent and the shifted mantissa. *)
Lemma shr_fexp_spec m e l :
  0 <= m ->
  snd (shr_fexp Py.prec Py.emax m e l)
  = Z.max e (fexp Py.prec Py.emax (Zdigits2 m + e)) /\
  shr_m (fst (shr_fexp Py.prec Py.emax m e l))
  = m / 2 ^ (snd (shr_fexp Py.prec Py.emax m e l) - e).
Proof.
  intros Hm. unfold shr_fexp, shr.
  destruct (fexp Py.prec Py.emax (Zdigits2 m + e) - e) as [|n|n] eqn:En; cbn [fst snd].
  - rewrite Z.sub_diag, shr_m_of_loc, Z.div_1_r. split; [lia|reflexivity].
  - split; [lia|].
    rewrite iter_shr_1_m by (rewrite shr_m_of_loc; assumption).
    rewrite shr_m_of_loc. f_equal. f_equal. lia.
  - rewrite Z.sub_diag, shr_m_of_loc, Z.div_1_r. split; [lia|reflexivity].
Qed.

Lemma fexp_value x : fexp Py.prec Py.emax x = Z.max (x - 53) (-1074).
Proof. reflexivity. Qed.

Lemma digits_mono a b : 0 <= a <= b -> Zdigits2 a <= Zdigits2 b.
Proof.
  intros H. apply digits_le; [lia|apply digits_nonneg|].
  pose proof (digits_lt_pow b). lia.
Qed.

Lemma digits_succ m : 0 <= m -> Zdigits2 (m + 1) <= Zdigits2 m + 1.
Proof.
  intros H. pose proof (digits_nonneg m). apply digits_le; [lia|lia|].
  pose proof (digits_lt_pow m H). rewrite Z.pow_add_r, Z.pow_1_r by lia. lia.
Qed.

Lemma digits_div m k :
  0 <= m -> 0 <= k -> Zdigits2 (m / 2 ^ k) + k <= Z.max (Zdigits2 m) k.
Proof.
  intros Hm Hk. pose proof (digits_nonneg m) as Hd.
  assert (Hp : 0 < 2 ^ k) by (apply Z.pow_pos_nonneg; lia).
  destruct (Z_lt_le_dec (Zdigits2 m) k) as [Hlt|Hge].
  - assert (m / 2 ^ k = 0) as ->; [|simpl; lia].
    apply Z.div_small. split; [lia|].
    pose proof (digits_lt_pow m Hm).
    assert (2 ^ Zdigits2 m <= 2 ^ k) by (apply Z.pow_le_mono_r; lia). lia.
  - assert (Zdigits2 (m / 2 ^ k) <= Zdigits2 m - k); [|lia].
    apply digits_le; [apply Z.div_pos; lia|lia|].
    apply Z.div_lt_upper_bound; [lia|].
    rewrite <- Z.pow_add_r by lia. replace (k + (Zdigits2 m - k)) with (Zdigits2 m) by lia.
    now apply digits_lt_pow.
Qed.

Lemma round_nearest_even_bounds m l :
  m <= round_nearest_even m l <= m + 1.
Proof.
  destruct l as [|[]]; simpl; try lia. destruct (Z.even m); lia.
Qed.

(** A rounding whose input is below [2 ^ 1023] gives a zero or a finite
    float. *)
Lemma binary_round_aux_finite s mx ex lx :
  0 <= mx -> ex <= 971 -> Zdigits2 mx + ex <= 1023 ->
  match binary_round_aux Py.prec Py.emax s mx ex lx with
  | S754_zero _ => True
  | S754_finite _ m e =>
      e <= 971 /\ Zdigits2 (Z.pos m) + e <= Z.max (Zdigits2 mx + ex) (-1074) + 1
  | _ => False
  end.
Proof.
  intros Hm Hex HD. unfold binary_round_aux.
  destruct (shr_fexp_spec mx ex lx Hm) as [He1 Hm1].
  destruct (shr_fexp Py.prec Py.emax mx ex lx) as [mrs1 e1]. cbn [fst snd] in He1, Hm1.
  set (m1 := round_nearest_even (shr_m mrs1) (loc_of_shr_record mrs1)).
  assert (Hm1pos : 0 <= shr_m mrs1).
  { rewrite Hm1. apply Z.div_pos; [lia|]. apply Z.pow_pos_nonneg; lia. }
  assert (Hr : shr_m mrs1 <= m1 <= shr_m mrs1 + 1) by apply round_nearest_even_bounds.
  destruct (shr_fexp_spec m1 e1 loc_Exact ltac:(lia)) as [He2 Hm2].
  destruct (shr_fexp Py.prec Py.emax m1 e1 loc_Exact) as [mrs2 e2]. cbn [fst snd] in He2, Hm2.
  rewrite fexp_value in He1, He2.
  pose proof (digits_nonneg mx) as Hdx.
  assert (Hd1 : Zdigits2 (shr_m mrs1) + e1 <= Z.max (Zdigits2 mx + ex) (-1074)).
  { rewrite Hm1. pose proof (digits_div mx (e1 - ex) Hm ltac:(lia)). lia. }
  assert (Hdm1 : Zdigits2 m1 <= Zdigits2 (shr_m mrs1) + 1).
  { etransitivity; [apply digits_mono|apply digits_succ]; lia. }
  assert (Hd2 : Zdigits2 (shr_m mrs2) + e2 <= Z.max (Zdigits2 mx + ex) (-1074) + 1).
  { rewrite Hm2. pose proof (digits_div m1 (e2 - e1) ltac:(lia) ltac:(lia)). lia. }
  assert (He2' : e2 <= 971) by lia.
  destruct (shr_m mrs2) as [|m2|m2] eqn:E2.
  - exact I.
  - destruct (Z.leb_spec e2 (Py.emax - Py.prec)) as [_|Hgt].
    + split; assumption.
    + unfold Py.emax, Py.prec in Hgt. lia.
  - assert (0 <= m1 / 2 ^ (e2 - e1)); [|lia].
    apply Z.div_pos; [lia|]. apply Z.pow_pos_nonneg; lia.
Qed.

Lemma digits_mul a b :
  0 <= a -> 0 <= b -> Zdigits2 (a * b) <= Zdigits2 a + Zdigits2 b.
Proof.
  intros Ha Hb. pose proof (digits_nonneg a). pose proof (digits_nonneg b).
  apply digits_le; [lia|lia|].
  rewrite Z.pow_add_r by lia.
  pose proof (digits_lt_pow a Ha). pose proof (digits_lt_pow b Hb).
  apply Z.mul_lt_mono_nonneg; lia.
Qed.

(** [a / b] on [int]s evaluates for a dividend below [2 ^ k] and a divisor
    other than 0. *)
Lemma int_truediv_defined k a b :
  b <> 0 -> 0 <= k <= 1023 -> Z.abs a < 2 ^ k ->
  exists f, Py.int_truediv a b = Ok f /\ float_below (k + 1) f.
Proof.
  intros Hb Hk Ha. unfold Py.int_truediv.
  destruct (Z.eqb_spec b 0) as [|_]; [contradiction|].
  destruct (Z.eqb_spec a 0) as [|Hne]; [eexists; split; [reflexivity|exact I]|].
  unfold SFdiv_core_binary.
  set (d1 := Zdigits2 (Z.abs a)). set (d2 := Zdigits2 (Z.abs b)).
  set (e := Z.min (fexp Py.prec Py.emax (d1 + 0 - (d2 + 0))) (0 - 0)).
  set (m' := match 0 - 0 - e with
             | 0 => Z.abs a
             | Z.pos _ => Z.shiftl (Z.abs a) (0 - 0 - e)
             | Z.neg _ => 0
             end).
  destruct (Z.div_eucl m' (Z.abs b)) as [q r] eqn:Ediv.
  assert (Hq : q = m' / Z.abs b) by (unfold Z.div; now rewrite Ediv).
  assert (He : e <= 0) by (unfold e; lia).
  assert (Hd1 : d1 <= k).
  { apply digits_le; lia. }
  assert (Hm' : m' = Z.abs a * 2 ^ (- e)).
  { unfold m'. destruct (0 - 0 - e) as [|j|j] eqn:Ej.
    - replace (- e) with 0 by lia. lia.
    - rewrite Z.shiftl_mul_pow2 by lia. f_equal. f_equal. lia.
    - lia. }
  assert (Hp : 0 < 2 ^ (- e)) by (apply Z.pow_pos_nonneg; lia).
  assert (Hq0 : 0 <= q) by (rewrite Hq; apply Z.div_pos; nia).
  assert (Hqd : Zdigits2 q + e <= d1).
  { assert (Zdigits2 q <= d1 + - e); [|lia].
    pose proof (digits_nonneg (Z.abs a)) as Hd. fold d1 in Hd.
    apply digits_le; [lia|lia|].
    rewrite Z.pow_add_r by lia.
    pose proof (digits_lt_pow (Z.abs a) ltac:(lia)) as Hlt. fold d1 in Hlt.
    assert (q <= m').
    { rewrite Hq. apply Z.div_le_upper_bound; nia. }
    nia. }
  pose proof (binary_round_aux_finite (xorb (a <? 0) (b <? 0)) q e
                (new_location (Z.abs b) r) Hq0 ltac:(lia) ltac:(lia)) as Hfin.
  destruct (binary_round_aux _ _ _ _ _ _) as [| | |s m e'] eqn:Er; try contradiction.
  - eexists; split; [reflexivity|exact I].
  - eexists; split; [reflexivity|]. unfold float_below. lia.
Qed.

(** The product with 100 of the percent expression. *)
Lemma mul_100_defined f :
  float_below 1001 f ->
  exists g, Py.mul (Py.Float f) (Py.Int 100) = Ok (Py.Float g) /\ float_below 1010 g.
Proof.
  intros Hf. unfold Py.mul.
  change (Py.to_float (Py.Int 100)) with (Ok (S754_finite false 7036874417766400 (-46))).
  cbn [Py.to_float mbind res_bind].
  destruct f as [s| | |s m e]; try contradiction.
  - eexists; split; [reflexivity|exact I].
  - destruct Hf as [He Hd]. cbn [SFmul].
    pose proof (binary_round_aux_finite (xorb s false)
                  (Z.pos (m * 7036874417766400)) (e + -46) loc_Exact) as Hfin.
    assert (Hdm : Zdigits2 (Z.pos (m * 7036874417766400)) <= Zdigits2 (Z.pos m) + 53).
    { rewrite Pos2Z.inj_mul.
      etransitivity; [apply digits_mul; lia|]. apply Z.add_le_mono_l. reflexivity. }
    specialize (Hfin ltac:(lia) ltac:(lia) ltac:(lia)).
    destruct (binary_round_aux _ _ _ _ _ _) as [| | |s' m' e'] eqn:Er; try contradiction.
    + eexists; split; [reflexivity|exact I].
    + eexists; split; [reflexivity|]. unfold float_below. lia.
Qed.

Lemma digits_pos m : 0 < m -> 1 <= Zdigits2 m.
Proof. destruct m; simpl; lia. Qed.

Lemma digits_ge m d : 0 <= d -> 2 ^ d <= m -> d + 1 <= Zdigits2 m.
Proof.
  intros Hd Hm.
  assert (0 < 2 ^ d) by (apply Z.pow_pos_nonneg; lia).
  pose proof (digits_lt_pow m ltac:(lia)) as Hlt.
  pose proof (digits_nonneg m).
  destruct (Z_lt_le_dec d (Zdigits2 m)) as [|Hle]; [lia|exfalso].
  assert (2 ^ Zdigits2 m <= 2 ^ d) by (apply Z.pow_le_mono_r; lia). lia.
Qed.

(** Shifting right keeps at least the digits that are not shifted out. *)
Lemma digits_div_lower m k :
  0 < m -> 0 <= k -> k < Zdigits2 m -> Zdigits2 m <= Zdigits2 (m / 2 ^ k) + k.
Proof.
  intros Hm Hk Hlt.
  destruct (digits_bounds m Hm) as [Hlo _].
  assert (Hp : 0 < 2 ^ k) by (apply Z.pow_pos_nonneg; lia).
  assert (2 ^ (Zdigits2 m - 1 - k) <= m / 2 ^ k).
  { apply Z.div_le_lower_bound; [lia|].
    rewrite <- Z.pow_add_r by lia.
    replace (k + (Zdigits2 m - 1 - k)) with (Zdigits2 m - 1) by lia. assumption. }
  pose proof (digits_ge (m / 2 ^ k) (Zdigits2 m - 1 - k) ltac:(lia) H). lia.
Qed.

(** The rounding of a positive integer that neither overflows nor falls
    below the least subnormal is finite, with the magnitude kept. *)
Lemma binary_round_aux_bounds s mx ex lx :
  0 < mx -> ex <= 971 -> -1073 <= Zdigits2 mx + ex <= 1023 ->
  exists m e,
    binary_round_aux Py.prec Py.emax s mx ex lx = S754_finite s m e /\
    ex <= e <= 971 /\
    Zdigits2 mx + ex <= Zdigits2 (Z.pos m) + e <= Zdigits2 mx + ex + 1.
Proof.
  intros Hm Hex HD.
  pose proof (binary_round_aux_finite s mx ex lx ltac:(lia) Hex ltac:(lia)) as Hfin.
  unfold binary_round_aux in *.
  destruct (shr_fexp_spec mx ex lx ltac:(lia)) as [He1 Hm1].
  destruct (shr_fexp Py.prec Py.emax mx ex lx) as [mrs1 e1]. cbn [fst snd] in He1, Hm1.
  set (m1 := round_nearest_even (shr_m mrs1) (loc_of_shr_record mrs1)) in *.
  pose proof (digits_pos mx Hm) as Hdx.
  rewrite fexp_value in He1.
  assert (Hk1 : e1 - ex < Zdigits2 mx) by lia.
  pose proof (digits_div_lower mx (e1 - ex) Hm ltac:(lia) Hk1) as Hlow1.
  rewrite <- Hm1 in Hlow1.
  assert (Hm1pos : 0 < shr_m mrs1).
  { destruct (shr_m mrs1) as [|p|p] eqn:E; [simpl in Hlow1; lia|lia|].
    assert (0 <= mx / 2 ^ (e1 - ex)); [|lia].
    apply Z.div_pos; [lia|apply Z.pow_pos_nonneg; lia]. }
  assert (Hr : shr_m mrs1 <= m1 <= shr_m mrs1 + 1) by apply round_nearest_even_bounds.
  destruct (shr_fexp_spec m1 e1 loc_Exact ltac:(lia)) as [He2 Hm2].
  destruct (shr_fexp Py.prec Py.emax m1 e1 loc_Exact) as [mrs2 e2]. cbn [fst snd] in He2, Hm2.
  rewrite fexp_value in He2.
  assert (Hd1 : Zdigits2 (shr_m mrs1) <= Zdigits2 m1) by (apply digits_mono; lia).
  pose proof (digits_pos m1 ltac:(lia)) as Hdm1.
  assert (Hk2 : e2 - e1 < Zdigits2 m1) by lia.
  pose proof (digits_div_lower m1 (e2 - e1) ltac:(lia) ltac:(lia) Hk2) as Hlow2.
  rewrite <- Hm2 in Hlow2.
  destruct (shr_m mrs2) as [|m2|m2] eqn:E2.
  - simpl in Hlow2. lia.
  - destruct (Z.leb_spec e2 (Py.emax - Py.prec)) as [_|Hgt].
    + exists m2, e2. split; [reflexivity|]. lia.
    + contradiction.
  - contradiction.
Qed.

Lemma pos_iter_xO m d : Z.pos (Pos.iter xO m d) = Z.pos m * 2 ^ Z.pos d.
Proof.
  induction d as [|d IH] using Pos.peano_ind.
  - simpl. lia.
  - rewrite Pos.iter_succ, Pos2Z.inj_xO, IH, Pos2Z.inj_succ, Z.pow_succ_r by lia. lia.
Qed.

Lemma shl_align_spec mx ex ex' :
  snd (shl_align mx ex ex') = Z.min ex ex' /\
  Z.pos (fst (shl_align mx ex ex'))
  = Z.pos mx * 2 ^ (ex - snd (shl_align mx ex ex')).
Proof.
  unfold shl_align. destruct (ex' - ex) as [|d|d] eqn:E; cbn [fst snd].
  - rewrite Z.sub_diag. split; lia.
  - rewrite Z.sub_diag. split; lia.
  - split; [lia|]. rewrite pos_iter_xO. f_equal. f_equal. lia.
Qed.

Lemma digits_mul_pow2 m k :
  0 < m -> 0 <= k -> Zdigits2 (m * 2 ^ k) = Zdigits2 m + k.
Proof.
  intros Hm Hk.
  assert (Hp : 0 < 2 ^ k) by (apply Z.pow_pos_nonneg; lia).
  destruct (digits_bounds m Hm) as [Hlo Hhi].
  pose proof (digits_pos m Hm).
  apply Z.le_antisymm.
  - apply digits_le; [nia|lia|]. rewrite Z.pow_add_r by lia. nia.
  - assert (2 ^ (Zdigits2 m - 1 + k) <= m * 2 ^ k).
    { rewrite Z.pow_add_r by lia. nia. }
    pose proof (digits_ge (m * 2 ^ k) (Zdigits2 m - 1 + k) ltac:(lia) H0). lia.
Qed.

Lemma binary_round_below s mx ex :
  ex <= 971 -> Zdigits2 (Z.pos mx) + ex <= 1023 ->
  float_below (Z.max (Zdigits2 (Z.pos mx) + ex) (-1074) + 1)
    (binary_round Py.prec Py.emax s mx ex).
Proof.
  intros Hex HD. unfold binary_round.
  destruct (shl_align_spec mx ex (fexp Py.prec Py.emax (Z.pos (digits2_pos mx) + ex)))
    as [He Hm].
  destruct (shl_align mx ex _) as [mz ez]. cbn [fst snd] in He, Hm.
  assert (HDz : Zdigits2 (Z.pos mz) + ez = Zdigits2 (Z.pos mx) + ex).
  { rewrite Hm, digits_mul_pow2 by lia. lia. }
  pose proof (binary_round_aux_finite s (Z.pos mz) ez loc_Exact
                ltac:(lia) ltac:(lia) ltac:(lia)) as Hfin.
  rewrite HDz in Hfin. exact Hfin.
Qed.

Lemma binary_round_bounds s mx ex :
  ex <= 971 -> -1073 <= Zdigits2 (Z.pos mx) + ex <= 1023 ->
  exists m e,
    binary_round Py.prec Py.emax s mx ex = S754_finite s m e /\
    Z.min ex (Zdigits2 (Z.pos mx) + ex - 53) <= e <= 971 /\
    Zdigits2 (Z.pos mx) + ex <= Zdigits2 (Z.pos m) + e
    <= Zdigits2 (Z.pos mx) + ex + 1.
Proof.
  intros Hex HD. unfold binary_round.
  destruct (shl_align_spec mx ex (fexp Py.prec Py.emax (Z.pos (digits2_pos mx) + ex)))
    as [He Hm].
  destruct (shl_align mx ex _) as [mz ez]. cbn [fst snd] in He, Hm.
  change (Z.pos (digits2_pos mx)) with (Zdigits2 (Z.pos mx)) in He.
  rewrite fexp_value in He.
  assert (HDz : Zdigits2 (Z.pos mz) + ez = Zdigits2 (Z.pos mx) + ex).
  { rewrite Hm, digits_mul_pow2 by lia. lia. }
  destruct (binary_round_aux_bounds s (Z.pos mz) ez loc_Exact
              ltac:(lia) ltac:(lia) ltac:(lia)) as (m & e & Hr & He' & Hd).
  exists m, e. split; [exact Hr|]. lia.
Qed.

(** The conversion of an [int] below [2 ^ k]. *)
Lemma float_of_int_defined k z :
  0 <= k <= 1023 -> Z.abs z < 2 ^ k ->
  exists f,
    Py.float_of_int z = Ok f /\ float_below (k + 1) f /\
    (z <> 0 -> exists s m e, f = S754_finite s m e /\ -52 <= e).
Proof.
  intros Hk Hz. unfold Py.float_of_int, binary_normalize.
  assert (Hcase : forall s p, Z.pos p < 2 ^ k ->
            exists m e,
              binary_round Py.prec Py.emax s p 0 = S754_finite s m e /\
              -52 <= e <= 971 /\ Zdigits2 (Z.pos m) + e <= k + 1).
  { intros s p Hp.
    assert (Hd : Zdigits2 (Z.pos p) <= k) by (apply digits_le; lia).
    pose proof (digits_pos (Z.pos p) ltac:(lia)) as Hd1.
    destruct (binary_round_bounds s p 0 ltac:(lia) ltac:(lia)) as (m & e & Hr & He & HD).
    exists m, e. split; [exact Hr|]. lia. }
  destruct z as [|p|p].
  - eexists. split; [reflexivity|]. split; [exact I|]. congruence.
  - destruct (Hcase false p ltac:(lia)) as (m & e & -> & He & Hd).
    eexists. split; [reflexivity|]. split; [unfold float_below; lia|].
    intros _. now exists false, m, e.
  - destruct (Hcase true p ltac:(lia)) as (m & e & -> & He & Hd).
    eexists. split; [reflexivity|]. split; [unfold float_below; lia|].
    intros _. now exists true, m, e.
Qed.

Lemma float_below_mono b b' f : b <= b' -> float_below b f -> float_below b' f.
Proof. destruct f; simpl; lia. Qed.

(** *** Products, sums and quotients *)

Lemma SFmul_below a b x y :
  float_below a x -> float_below b y -> -1074 <= a + b <= 972 ->
  float_below (a + b + 1) (SFmul Py.prec Py.emax x y).
Proof.
  intros Hx Hy Hab.
  destruct x as [sx| | |sx mx ex], y as [sy| | |sy my ey]; try contradiction; try exact I.
  destruct Hx as [Hex Hdx], Hy as [Hey Hdy]. cbn [SFmul].
  pose proof (digits_mul (Z.pos mx) (Z.pos my) ltac:(lia) ltac:(lia)) as Hd.
  pose proof (digits_pos (Z.pos mx * Z.pos my) ltac:(lia)) as Hd1.
  pose proof (digits_pos (Z.pos mx) ltac:(lia)).
  pose proof (digits_pos (Z.pos my) ltac:(lia)).
  rewrite <- Pos2Z.inj_mul in Hd, Hd1.
  pose proof (binary_round_aux_finite (xorb sx sy) (Z.pos (mx * my)) (ex + ey) loc_Exact
                ltac:(lia) ltac:(lia) ltac:(lia)) as Hfin.
  destruct (binary_round_aux _ _ _ _ _ _) as [| | |s m e]; try contradiction; [exact I|].
  unfold float_below. lia.
Qed.

Lemma binary_normalize_below b z e :
  e <= 971 -> -1074 <= b <= 1022 -> Zdigits2 (Z.abs z) + e <= b ->
  float_below (b + 1) (binary_normalize Py.prec Py.emax z e false).
Proof.
  intros He Hb Hz. unfold binary_normalize.
  destruct z as [|p|p]; [exact I| |];
    (eapply float_below_mono;
     [|apply binary_round_below; [exact He|simpl in Hz |- *; lia]];
     simpl in Hz |- *; lia).
Qed.

Lemma shl_align_down mx ex ez :
  ez <= ex -> Z.pos (fst (shl_align mx ex ez)) = Z.pos mx * 2 ^ (ex - ez).
Proof.
  intros H. destruct (shl_align_spec mx ex ez) as [He Hm].
  rewrite Hm, He. f_equal. f_equal. lia.
Qed.

Lemma SFadd_below b x y :
  float_below b x -> float_below b y -> -1074 <= b <= 1021 ->
  float_below (b + 2) (SFadd Py.prec Py.emax x y).
Proof.
  intros Hx Hy Hb.
  destruct x as [sx| | |sx mx ex], y as [sy| | |sy my ey]; try contradiction.
  - cbn [SFadd]. destruct sx, sy; exact I.
  - cbn [SFadd]. eapply float_below_mono; [|exact Hy]. lia.
  - cbn [SFadd]. eapply float_below_mono; [|exact Hx]. lia.
  - destruct Hx as [Hex Hdx], Hy as [Hey Hdy]. cbn [SFadd].
    set (ez := Z.min ex ey).
    rewrite (shl_align_down mx ex ez), (shl_align_down my ey ez) by (unfold ez; lia).
    set (mx' := Z.pos mx * 2 ^ (ex - ez)). set (my' := Z.pos my * 2 ^ (ey - ez)).
    assert (Hdx' : Zdigits2 mx' = Zdigits2 (Z.pos mx) + (ex - ez))
      by (apply digits_mul_pow2; unfold ez; lia).
    assert (Hdy' : Zdigits2 my' = Zdigits2 (Z.pos my) + (ey - ez))
      by (apply digits_mul_pow2; unfold ez; lia).
    assert (Hpx : 0 < mx').
    { unfold mx'. apply Z.mul_pos_pos; [lia|apply Z.pow_pos_nonneg; unfold ez; lia]. }
    assert (Hpy : 0 < my').
    { unfold my'. apply Z.mul_pos_pos; [lia|apply Z.pow_pos_nonneg; unfold ez; lia]. }
    pose proof (digits_lt_pow mx' ltac:(lia)) as Hlx.
    pose proof (digits_lt_pow my' ltac:(lia)) as Hly.
    pose proof (digits_pos (Z.pos mx) ltac:(lia)) as H1x.
    assert (Hbz : 0 <= b - ez) by (unfold ez in *; lia).
    assert (Hpx' : 2 ^ Zdigits2 mx' <= 2 ^ (b - ez)) by (apply Z.pow_le_mono_r; lia).
    assert (Hpy' : 2 ^ Zdigits2 my' <= 2 ^ (b - ez)) by (apply Z.pow_le_mono_r; lia).
    replace (b + 2) with (b + 1 + 1) by lia.
    apply binary_normalize_below; [unfold ez; lia|lia|].
    assert (Zdigits2 (Z.abs (cond_Zopp sx mx' + cond_Zopp sy my')) <= b - ez + 1); [|lia].
    apply digits_le; [lia|lia|].
    rewrite Z.pow_add_r, Z.pow_1_r by lia.
    destruct sx, sy; unfold cond_Zopp; lia.
Qed.

(** The quotient of a float below [2 ^ a] by the float of a non-zero
    [int]. *)
Lemma SFdiv_below a x sy my ey :
  float_below a x -> 0 <= a <= 970 -> -52 <= ey ->
  float_below (a + 54) (SFdiv Py.prec Py.emax x (S754_finite sy my ey)).
Proof.
  intros Hx Ha Hey.
  destruct x as [sx| | |sx mx ex]; try contradiction; [exact I|].
  destruct Hx as [Hex Hdx]. cbn [SFdiv]. unfold SFdiv_core_binary.
  set (d1 := Zdigits2 (Z.pos mx)) in *. set (d2 := Zdigits2 (Z.pos my)).
  set (e := Z.min (fexp Py.prec Py.emax (d1 + ex - (d2 + ey))) (ex - ey)).
  set (m' := match ex - ey - e with
             | 0 => Z.pos mx
             | Z.pos _ => Z.shiftl (Z.pos mx) (ex - ey - e)
             | Z.neg _ => 0
             end).
  destruct (Z.div_eucl m' (Z.pos my)) as [q r] eqn:Ediv.
  assert (Hq : q = m' / Z.pos my) by (unfold Z.div; now rewrite Ediv).
  pose proof (digits_pos (Z.pos mx) ltac:(lia)) as H1. fold d1 in H1.
  pose proof (digits_pos (Z.pos my) ltac:(lia)) as H2. fold d2 in H2.
  assert (He : e <= ex - ey) by (unfold e; lia).
  assert (He' : e <= a - 2).
  { unfold e. rewrite fexp_value. lia. }
  assert (Hm' : m' = Z.pos mx * 2 ^ (ex - ey - e)).
  { unfold m'. destruct (ex - ey - e) as [|j|j] eqn:Ej.
    - lia.
    - rewrite Z.shiftl_mul_pow2 by lia. reflexivity.
    - lia. }
  assert (Hp : 0 < 2 ^ (ex - ey - e)) by (apply Z.pow_pos_nonneg; lia).
  assert (Hq0 : 0 <= q) by (rewrite Hq; apply Z.div_pos; nia).
  assert (Hqd : Zdigits2 q <= d1 + (ex - ey - e)).
  { apply digits_le; [lia|lia|].
    rewrite Z.pow_add_r by lia.
    pose proof (digits_lt_pow (Z.pos mx) ltac:(lia)) as Hlt. fold d1 in Hlt.
    assert (q <= m').
    { rewrite Hq. apply Z.div_le_upper_bound; nia. }
    nia. }
  pose proof (binary_round_aux_finite (xorb sx sy) q e (new_location (Z.pos my) r)
                Hq0 ltac:(lia) ltac:(lia)) as Hfin.
  destruct (binary_round_aux _ _ _ _ _ _) as [| | |s m e'']; try contradiction; [exact I|].
  unfold float_below. lia.
Qed.

Lemma div_half_even_bound x d :
  0 < d -> Z.abs (Py.div_half_even x d) * d <= Z.abs x + d.
Proof.
  intros Hd. unfold Py.div_half_even.
  pose proof (Z.div_mod x d ltac:(lia)) as Hx.
  pose proof (Z.mod_pos_bound x d Hd) as Hr.
  set (q := x / d) in *. set (r := x mod d) in *.
  assert (Hq : Z.abs q * d <= Z.abs x + d) by nia.
  assert (Hq1 : 0 < r -> Z.abs (q + 1) * d <= Z.abs x + d) by nia.
  destruct (Z.compare_spec (2 * r) d) as [He|Hl|Hg].
  - destruct (Z.even q); [exact Hq|apply Hq1; lia].
  - exact Hq.
  - apply Hq1. lia.
Qed.

(** [round(x, 2)] evaluates on a float below [2 ^ b]. *)
Lemma float_round_2_defined b f :
  float_below b f -> 0 <= b <= 1015 -> exists r, Py.float_round_2 f = Ok r.
Proof.
  intros Hf Hb.
  destruct f as [s| | |s m e]; try contradiction; [eexists; reflexivity|].
  destruct Hf as [He Hd]. unfold Py.float_round_2.
  set (n := if 0 <=? e then Py.signed s m * 2 ^ e * 100
            else Py.div_half_even (Py.signed s m * 100) (2 ^ (- e))).
  destruct (Z.eqb_spec n 0) as [|Hn]; [eexists; reflexivity|].
  assert (Hs : Z.abs (Py.signed s m) = Z.pos m) by (destruct s; reflexivity).
  pose proof (digits_lt_pow (Z.pos m) ltac:(lia)) as Hm.
  pose proof (digits_pos (Z.pos m) ltac:(lia)) as Hd1.
  assert (Hbound : Z.abs n < 2 ^ (b + 8)).
  { unfold n. destruct (Z.leb_spec 0 e) as [Hpos|Hneg].
    - rewrite !Z.abs_mul, Hs.
      assert (Hp : 0 < 2 ^ e) by (apply Z.pow_pos_nonneg; lia).
      rewrite (Z.abs_eq (2 ^ e)), (Z.abs_eq 100) by lia.
      assert (Z.pos m * 2 ^ e < 2 ^ b).
      { apply Z.lt_le_trans with (2 ^ (Zdigits2 (Z.pos m) + e)).
        - rewrite Z.pow_add_r by lia. nia.
        - apply Z.pow_le_mono_r; lia. }
      replace (b + 8) with (b + 1 + 7) by lia.
      rewrite Z.pow_add_r, Z.pow_add_r, Z.pow_1_r by lia.
      change (2 ^ 7) with 128. nia.
    - assert (Hp : 0 < 2 ^ (- e)) by (apply Z.pow_pos_nonneg; lia).
      pose proof (div_half_even_bound (Py.signed s m * 100) (2 ^ (- e)) Hp) as Hdiv.
      rewrite Z.abs_mul, Hs in Hdiv. change (Z.abs 100) with 100 in Hdiv.
      assert (Hx : Z.pos m * 100 < 2 ^ (b + 7 - e)).
      { apply Z.lt_le_trans with (2 ^ (Zdigits2 (Z.pos m) + 7)).
        - rewrite Z.pow_add_r by lia. change (2 ^ 7) with 128. lia.
        - apply Z.pow_le_mono_r; lia. }
      assert (Hy : 2 ^ (- e) <= 2 ^ (b + 7 - e)) by (apply Z.pow_le_mono_r; lia).
      assert (Hz : 2 ^ (b + 8) * 2 ^ (- e) = 2 * 2 ^ (b + 7 - e)).
      { rewrite <- Z.pow_add_r by lia.
        replace (b + 8 + - e) with (1 + (b + 7 - e)) by lia.
        rewrite Z.pow_add_r by lia. reflexivity. }
      nia. }
  destruct (int_truediv_defined (b + 8) n 100 ltac:(lia) ltac:(lia) Hbound) as (r & Hr & _).
  now exists r.
Qed.


(** ** Dicts and sums *)

Lemma dict_get_set_eq {V : Type} k (v : V) d : Dict.get k (Dict.set k v d) = Some v.
Proof.
  induction d as [|[k' v'] d IH]; simpl.
  - now rewrite String.eqb_refl.
  - destruct (String.eqb k k') eqn:E; simpl; rewrite ?String.eqb_refl, ?E; auto.
Qed.

Lemma dict_get_set_ne {V : Type} k k' (v : V) d :
  k <> k' -> Dict.get k' (Dict.set k v d) = Dict.get k' d.
Proof.
  intros Hne. induction d as [|[k0 v0] d IH]; simpl.
  - destruct (String.eqb k' k) eqn:E; auto.
    apply String.eqb_eq in E. congruence.
  - destruct (String.eqb k k0) eqn:E; simpl.
    + apply String.eqb_eq in E. subst k0.
      destruct (String.eqb k' k) eqn:E'; auto.
      apply String.eqb_eq in E'. congruence.
    + now rewrite IH.
Qed.

Lemma dict_mem_get {V : Type} k (d : dict V) :
  Dict.mem k d = false <-> Dict.get k d = None.
Proof. unfold Dict.mem. destruct (Dict.get k d); split; congruence. Qed.

Lemma fold_left_add_shift l a : fold_left Z.add l a = a + fold_left Z.add l 0.
Proof.
  revert a. induction l as [|x l IH]; intros a; simpl.
  - lia.
  - rewrite (IH (a + x)), (IH (0 + x)). lia.
Qed.

Lemma py_sum_cons x l : py_sum (x :: l) = x + py_sum l.
Proof. unfold py_sum. simpl. apply fold_left_add_shift. Qed.

(** ** The percent expression *)

Lemma percentage_positive present total :
  0 < total -> percentage present total = stated_percentage present total.
Proof.
  intros H. unfold percentage, stated_percentage.
  destruct (Z.ltb_spec 0 total); [|lia].
  destruct (Z.eqb_spec total 0); [lia|reflexivity].
Qed.

Lemma percentage_not_positive present total :
  total <= 0 -> percentage present total = Ok 0.
Proof.
  intros H. unfold percentage. destruct (Z.ltb_spec 0 total); [lia|reflexivity].
Qed.

Lemma percentage_percent_is present total value :
  percentage present total = Ok value -> percent_is present total value.
Proof.
  intros H. split; intros Ht.
  - now rewrite <- percentage_positive.
  - rewrite percentage_not_positive in H by assumption. congruence.
Qed.

(** The percent expression evaluates for every count below [2 ^ 1000]. *)
Lemma percentage_defined present total :
  Z.abs present < 2 ^ 1000 -> exists value, percentage present total = Ok value.
Proof.
  intros Hp. unfold percentage.
  destruct (Z.ltb_spec 0 total) as [Ht|_]; [|now exists 0].
  unfold Py.truediv.
  destruct (int_truediv_defined 1000 present total ltac:(lia) ltac:(lia) Hp) as (f & -> & Hf).
  cbn [mbind res_bind].
  destruct (mul_100_defined f Hf) as (g & -> & Hg).
  cbn [mbind res_bind Py.round].
  destruct g as [s| | |s m e]; try contradiction; eexists; reflexivity.
Qed.

(** ** Attendance *)

(** The run of an attendance upsert whose two percent expressions evaluate
    to [percent] and [overall]. *)
Lemma update_attendance_run
    (w : world) (att : AttendanceUpdate.t) (student : Student.t) (percent overall : Z) :
  let key := lower (AttendanceUpdate.student_key att) in
  let entry :=
    SubjectAttendance.mk (AttendanceUpdate.present att) (AttendanceUpdate.total att) percent in
  let subjects' :=
    Dict.set (AttendanceUpdate.subject att) entry
      (Attendance.subjects (Student.attendance student)) in
  Store.students (DATA w) !! key = Some student ->
  percentage (AttendanceUpdate.present att) (AttendanceUpdate.total att) = Ok percent ->
  percentage (sum_present subjects') (sum_total subjects') = Ok overall ->
  exists student',
    update_attendance att w
    = (saved (put_student key student' w),
       Ok ("Attendance updated for " +:+ AttendanceUpdate.subject att)) /\
    Student.with_attendance (Student.attendance student') student = student' /\
    Attendance.subjects (Student.attendance student') = subjects' /\
    Dict.get (AttendanceUpdate.subject att) subjects' = Some entry /\
    percent_is (AttendanceUpdate.present att) (AttendanceUpdate.total att) percent /\
    aggregates_recomputed (Student.attendance student').
Proof.
  intros key entry subjects' Hs Hp Ho.
  unfold update_attendance. fold key.
  step.
  erewrite run_bind by (rewrite run_lift, Hp; reflexivity).
  fold entry. step. step. cbv zeta.
  replace (Attendance.subjects (Student.attendance (on_subjects _ student)))
    with subjects' by reflexivity.
  fold (sum_present subjects') (sum_total subjects').
  step. step. step.
  erewrite run_bind by (rewrite run_lift, Ho; reflexivity).
  step. step.
  eexists. split; [reflexivity|].
  destruct student as [? ? ? ? ? ? ? ? ? ? ? ? [? ? ? ? subs] ? ? ? ? ? ? ?].
  simpl in *.
  refine (conj eq_refl (conj eq_refl (conj (dict_get_set_eq _ _ _)
            (conj (percentage_percent_is _ _ _ Hp) _)))).
  unfold aggregates_recomputed. simpl.
  exact (conj eq_refl (conj eq_refl (conj eq_refl (percentage_percent_is _ _ _ Ho)))).
Qed.


(** ** Grades *)

Lemma grade_point_unknown letter :
  ~ In letter letters -> grade_point letter = Py.Int 0.
Proof.
  intros H. unfold grade_point, grades_map. simpl.
  repeat match goal with
  | |- context [String.eqb letter ?k] =>
      destruct (String.eqb_spec letter k) as [->|_];
      [exfalso; apply H; simpl; tauto|]
  end.
  reflexivity.
Qed.

Lemma sgpa_loop_sums items total_points total_credits :
  sgpa_loop items total_points total_credits
  = (points ← sum_points_from total_points items;
     Ok (points, total_credits + sum_credits items)).
Proof.
  revert total_points total_credits.
  induction items as [|[subj data] items IH]; intros p c; simpl.
  - unfold sum_credits, py_sum. simpl. now rewrite Z.add_0_r.
  - fold (grade_point (Grade.grade data)).
    destruct (Py.mul _ _) as [term|e]; simpl; [|reflexivity].
    destruct (Py.add p term) as [p'|e]; simpl; [|reflexivity].
    rewrite IH. unfold sum_credits, Dict.values. simpl.
    rewrite py_sum_cons, Z.add_assoc. reflexivity.
Qed.

Lemma sgpa_of_sgpa_is items points value :
  sum_points items = Ok points ->
  sgpa_of points (sum_credits items) = Ok value ->
  sgpa_is items value.
Proof.
  intros Hp Hv. unfold sgpa_of in Hv. split; intros Hc.
  - unfold stated_sgpa. rewrite Hp. simpl.
    destruct (Z.eqb_spec (sum_credits items) 0); [lia|].
    destruct (Z.ltb_spec 0 (sum_credits items)); [assumption|lia].
  - destruct (Z.ltb_spec 0 (sum_credits items)); [lia|congruence].
Qed.

(** *** The SGPA evaluates *)

(** A grade point is an [int] from 0 to 10, or 8.5, or 6.5. *)
Lemma grade_point_cases letter :
  (exists z, 0 <= z <= 10 /\ grade_point letter = Py.Int z) \/
  grade_point letter = Py.Float Py.f8_5 \/
  grade_point letter = Py.Float Py.f6_5.
Proof.
  unfold grade_point, grades_map. simpl.
  repeat match goal with
  | |- context [String.eqb letter ?k] => destruct (String.eqb letter k)
  end; simpl; try (left; eexists; split; [|reflexivity]; lia); auto.
Qed.

Lemma to_float_defined b x :
  num_below b x -> 0 <= b <= 1023 ->
  exists f, Py.to_float x = Ok f /\ float_below (b + 1) f.
Proof.
  intros Hx Hb. destruct x as [z|f]; simpl in *.
  - destruct (float_of_int_defined b z Hb Hx) as (f & Hf & Hbelow & _). eauto.
  - exists f. split; [reflexivity|]. eapply float_below_mono; [|exact Hx]. lia.
Qed.

(** One term [point × credits] of the sum of points. *)
Lemma term_defined letter credits :
  Z.abs credits < 2 ^ 64 ->
  exists term, Py.mul (grade_point letter) (Py.Int credits) = Ok term /\ num_below 70 term.
Proof.
  intros Hc.
  assert (Hfloat : forall f, float_below 4 f ->
            exists term, Py.mul (Py.Float f) (Py.Int credits) = Ok term /\ num_below 70 term).
  { intros f Hf. unfold Py.mul. cbn [Py.to_float mbind res_bind].
    destruct (float_of_int_defined 64 credits ltac:(lia) Hc) as (fc & -> & Hfc & _).
    cbn [mbind res_bind]. eexists. split; [reflexivity|].
    apply (SFmul_below 4 65 f fc Hf Hfc). lia. }
  destruct (grade_point_cases letter) as [(z & Hz & ->)|[->| ->]].
  - eexists. split; [reflexivity|]. unfold num_below.
    rewrite Z.abs_mul. pose proof (Z.abs_nonneg credits) as Hn.
    assert (Hz10 : Z.abs z <= 10) by lia.
    apply Z.le_lt_trans with (10 * Z.abs credits); [nia|].
    change (2 ^ 70) with (64 * 2 ^ 64). lia.
  - apply Hfloat. vm_compute. split; discriminate.
  - apply Hfloat. vm_compute. split; discriminate.
Qed.

Lemma add_defined b acc term :
  num_below b acc -> num_below 70 term -> 70 <= b <= 1020 ->
  exists acc', Py.add acc term = Ok acc' /\ num_below (b + 3) acc'.
Proof.
  intros Hacc Hterm Hb.
  assert (Hgen : exists acc',
            (fx ← Py.to_float acc; fy ← Py.to_float term;
             Ok (Py.Float (SFadd Py.prec Py.emax fx fy))) = Ok acc' /\
            num_below (b + 3) acc').
  { destruct (to_float_defined b acc Hacc ltac:(lia)) as (fa & -> & Hfa).
    destruct (to_float_defined 70 term Hterm ltac:(lia)) as (ft & -> & Hft).
    cbn [mbind res_bind]. eexists. split; [reflexivity|].
    replace (b + 3) with (b + 1 + 2) by lia.
    apply SFadd_below; [exact Hfa| |lia].
    eapply float_below_mono; [|exact Hft]. lia. }
  destruct acc as [a|fa], term as [t|ft]; try exact Hgen.
  eexists. split; [reflexivity|]. simpl in *.
  assert (2 ^ 70 <= 2 ^ b) by (apply Z.pow_le_mono_r; lia).
  replace (b + 3) with (3 + b) by lia. rewrite Z.pow_add_r by lia.
  change (2 ^ 3) with 8. lia.
Qed.

Lemma sum_points_from_defined items : forall b acc,
  num_below b acc -> 70 <= b -> b + 3 * Z.of_nat (length items) <= 1023 ->
  Forall (fun item => Z.abs (Grade.credits item.2) < 2 ^ 64) items ->
  exists points,
    sum_points_from acc items = Ok points /\
    num_below (b + 3 * Z.of_nat (length items)) points.
Proof.
  induction items as [|[subj data] items IH]; intros b acc Hacc Hb Hlen Hall.
  - exists acc. split; [reflexivity|]. simpl. now rewrite Z.add_0_r.
  - apply Forall_cons in Hall. destruct Hall as [Hc Hall]. simpl in Hc.
    cbn [length] in Hlen. rewrite Nat2Z.inj_succ in Hlen.
    cbn [sum_points_from].
    destruct (term_defined (Grade.grade data) (Grade.credits data) Hc) as (term & -> & Hterm).
    cbn [mbind res_bind].
    destruct (add_defined b acc term Hacc Hterm ltac:(lia)) as (acc' & -> & Hacc').
    cbn [mbind res_bind].
    destruct (IH (b + 3) acc' Hacc' ltac:(lia) ltac:(lia) Hall) as (points & Hp & Hbelow).
    exists points. split; [exact Hp|].
    cbn [length]. rewrite Nat2Z.inj_succ.
    replace (b + 3 * Z.succ (Z.of_nat (length items)))
      with (b + 3 + 3 * Z.of_nat (length items)) by lia.
    exact Hbelow.
Qed.

Lemma py_sum_bound l c :
  Forall (fun x => Z.abs x < c) l -> Z.abs (py_sum l) <= Z.of_nat (length l) * (c - 1).
Proof.
  induction 1 as [|x l Hx Hl IH].
  - simpl. unfold py_sum. simpl. lia.
  - rewrite py_sum_cons. cbn [length]. rewrite Nat2Z.inj_succ. lia.
Qed.

(** The rounded ratio evaluates on a sum of points below [2 ^ 838]. *)
Lemma sgpa_of_defined points total_credits :
  num_below 838 points -> Z.abs total_credits < 2 ^ 72 ->
  exists sgpa, sgpa_of points total_credits = Ok sgpa.
Proof.
  intros Hp Hc. unfold sgpa_of.
  destruct (Z.ltb_spec 0 total_credits) as [Hpos|_]; [|eexists; reflexivity].
  assert (Hround : forall q, float_below 892 q -> exists sgpa, Py.round_2 (Py.Float q) = Ok sgpa).
  { intros q Hq. unfold Py.round_2.
    destruct (float_round_2_defined 892 q Hq ltac:(lia)) as (r & ->).
    eexists. reflexivity. }
  destruct points as [z|f]; simpl in Hp.
  - unfold Py.truediv.
    destruct (int_truediv_defined 838 z total_credits ltac:(lia) ltac:(lia) Hp)
      as (q & -> & Hq).
    cbn [mbind res_bind]. apply Hround. eapply float_below_mono; [|exact Hq]. lia.
  - unfold Py.truediv. cbn [Py.to_float mbind res_bind].
    destruct (float_of_int_defined 72 total_credits ltac:(lia) Hc) as (fc & -> & _ & Hfin).
    destruct (Hfin ltac:(lia)) as (s & m & e & -> & He).
    cbn [mbind res_bind Py.is_zero]. apply Hround.
    eapply float_below_mono; [|apply (SFdiv_below 838 f s m e Hp); lia]. lia.
Qed.

(** The arithmetic of the SGPA evaluates on every mapping of at most 256
    subjects whose credits are below [2 ^ 64] in magnitude. *)
Lemma sgpa_defined items :
  (length items <= 256)%nat ->
  Forall (fun item => Z.abs (Grade.credits item.2) < 2 ^ 64) items ->
  exists points sgpa,
    sum_points items = Ok points /\ sgpa_of points (sum_credits items) = Ok sgpa.
Proof.
  intros Hlen Hall. unfold sum_points.
  destruct (sum_points_from_defined items 70 (Py.Int 0) ltac:(simpl; lia) ltac:(lia)
              ltac:(lia) Hall) as (points & Hp & Hbelow).
  assert (Hb : num_below 838 points).
  { destruct points as [z|f]; simpl in *.
    - eapply Z.lt_le_trans; [exact Hbelow|]. apply Z.pow_le_mono_r; lia.
    - eapply float_below_mono; [|exact Hbelow]. lia. }
  assert (Hc : Z.abs (sum_credits items) < 2 ^ 72).
  { unfold sum_credits.
    assert (Hf : Forall (fun x => Z.abs x < 2 ^ 64) (map Grade.credits (Dict.values items))).
    { unfold Dict.values. clear -Hall.
      induction Hall as [|item items Hitem _ IH]; constructor; assumption. }
    apply py_sum_bound in Hf. unfold Dict.values in Hf at 2.
    rewrite !length_map in Hf. change (2 ^ 72) with (256 * 2 ^ 64). nia. }
  destruct (sgpa_of_defined points (sum_credits items) Hb Hc) as (sgpa & Hs).
  now exists points, sgpa.
Qed.

(** The run of a grade upsert whose sum of points and rounded ratio
    evaluate to [points] and [sgpa]. *)
Lemma update_grade_run
    (w : world) (grade : GradeUpdate.t) (student : Student.t) (points sgpa : Py.num) :
  let key := lower (GradeUpdate.student_key grade) in
  let entry :=
    Grade.mk (GradeUpdate.grade grade) (GradeUpdate.marks grade) (GradeUpdate.credits grade) in
  let semester' :=
    Dict.set (GradeUpdate.subject grade) entry
      (Grades.current_semester (Student.grades student)) in
  Store.students (DATA w) !! key = Some student ->
  sum_points semester' = Ok points ->
  sgpa_of points (sum_credits semester') = Ok sgpa ->
  exists student',
    update_grade grade w
    = (saved (put_student key student' w),
       Ok ("Grade updated for " +:+ GradeUpdate.subject grade)) /\
    Student.with_grades (Student.grades student') student = student' /\
    Grades.current_semester (Student.grades student') = semester' /\
    Dict.get (GradeUpdate.subject grade) semester' = Some entry /\
    Grades.earned_credits (Student.grades student') = sum_credits semester' /\
    sgpa_is semester' (Grades.sgpa (Student.grades student')) /\
    map grade_point letters
    = [Py.Int 10; Py.Int 9; Py.Float Py.f8_5; Py.Int 8; Py.Int 7; Py.Float Py.f6_5;
       Py.Int 6; Py.Int 5; Py.Int 4; Py.Int 0] /\
    (forall letter, ~ In letter letters -> grade_point letter = Py.Int 0).
Proof.
  intros key entry semester' Hs Hp Hv.
  unfold update_grade. fold key. fold entry.
  step. step. step.
  replace (Grades.current_semester (Student.grades (on_current_semester _ student)))
    with semester' by reflexivity.
  erewrite run_bind
    by (rewrite run_lift, sgpa_loop_sums; fold (sum_points semester'); rewrite Hp; reflexivity).
  cbn [fst snd]. rewrite Z.add_0_l.
  erewrite run_bind by (rewrite run_lift, Hv; reflexivity).
  step. step. step.
  eexists. split; [reflexivity|].
  destruct student as [? ? ? ? ? ? ? ? ? ? ? ? ? [sem ? ? ? ?] ? ? ? ? ? ?].
  simpl in *.
  refine (conj eq_refl (conj eq_refl (conj (dict_get_set_eq _ _ _)
            (conj eq_refl (conj (sgpa_of_sgpa_is _ _ _ Hp Hv) (conj eq_refl _)))))).
  exact grade_point_unknown.
Qed.


(** ** Deletions *)

(** What [delete_attendance] does when the subject is there: the entry goes
    and the four overall aggregates stay as they were. *)
Lemma delete_attendance_keeps_aggregates w student_key subject student :
  Store.students (DATA w) !! lower student_key = Some student ->
  Dict.mem subject (Attendance.subjects (Student.attendance student)) = true ->
  delete_attendance student_key subject w
  = (saved (put_student (lower student_key) (on_subjects (Dict.del subject) student) w),
     Ok ("Attendance deleted for " +:+ subject)).
Proof.
  intros Hs Hm. unfold delete_attendance.
  step. rewrite Hm.
  erewrite run_bind
    by (erewrite run_bind by (apply update_student_found; eassumption);
        apply run_save_data).
  reflexivity.
Qed.

(** What [delete_grade] does when the subject is there: the entry goes and
    the SGPA and the earned credits stay as they were. *)
Lemma delete_grade_keeps_sgpa w student_key subject student :
  Store.students (DATA w) !! lower student_key = Some student ->
  Dict.mem subject (Grades.current_semester (Student.grades student)) = true ->
  delete_grade student_key subject w
  = (saved (put_student (lower student_key) (on_current_semester (Dict.del subject) student) w),
     Ok ("Grade deleted for " +:+ subject)).
Proof.
  intros Hs Hm. unfold delete_grade.
  step. rewrite Hm.
  erewrite run_bind
    by (erewrite run_bind by (apply update_student_found; eassumption);
        apply run_save_data).
  reflexivity.
Qed.

Lemma filter_keeps_all {A : Type} (p : A -> bool) l :
  Forall (fun x => p x = true) l -> List.filter p l = l.
Proof.
  induction 1 as [|x l Hx Hl IH]; simpl; [reflexivity|].
  now rewrite Hx, IH.
Qed.

Lemma with_exams_same s : Student.with_exams (Student.exams s) s = s.
Proof. now destruct s. Qed.

(** C7: on an existing record, deleting an attendance subject or a grade
    subject that is not there returns the success message and leaves the
    whole world as it was; deleting the exams of a subject no exam entry has
    returns the success message, leaves [DATA], and so the record, as it
    was, and saves it. *)
Theorem delete_missing_changes_nothing
    (w : world) (student_key subject : string) (student : Student.t) :
  Store.students (DATA w) !! lower student_key = Some student ->
  (Dict.mem subject (Attendance.subjects (Student.attendance student)) = false ->
   delete_attendance student_key subject w
   = (w, Ok ("Attendance deleted for " +:+ subject))) /\
  (Dict.mem subject (Grades.current_semester (Student.grades student)) = false ->
   delete_grade student_key subject w
   = (w, Ok ("Grade deleted for " +:+ subject))) /\
  (Forall (fun e => Exam.subject e <> subject) (Student.exams student) ->
   delete_exam student_key subject w
   = (saved w, Ok ("Exam deleted for " +:+ subject)) /\
   DATA (saved w) = DATA w).
Proof.
  intros Hs. split; [|split].
  - intros Hm. unfold delete_attendance. step. rewrite Hm.
    erewrite run_bind by reflexivity. reflexivity.
  - intros Hm. unfold delete_grade. step. rewrite Hm.
    erewrite run_bind by reflexivity. reflexivity.
  - intros Hall. split; [|reflexivity].
    unfold delete_exam. step. step. step.
    rewrite filter_keeps_all, with_exams_same, (put_student_same _ _ _ Hs); [reflexivity|].
    eapply Forall_impl; [exact Hall|].
    intros e He. simpl. destruct (String.eqb_spec (Exam.subject e) subject); [contradiction|reflexivity].
Qed.

(** ** Fees *)


(** ** Substrings *)

Lemma append_cons c (a b : string) : String c a +:+ b = String c (a +:+ b).
Proof. reflexivity. Qed.

Lemma append_nil (b : string) : EmptyString +:+ b = b.
Proof. reflexivity. Qed.

Lemma prefix_app w t :
  String.prefix w t = true <-> exists b, t = w +:+ b.
Proof.
  revert t. induction w as [|c w IH]; intros t; simpl.
  - destruct t; split; eauto.
  - destruct t as [|c' t]; simpl.
    + split; [discriminate|]. intros [b Hb]. discriminate.
    + destruct (ascii_dec c c') as [->|Hne].
      * rewrite IH. split; intros [b Hb]; exists b.
        -- now rewrite append_cons, Hb.
        -- rewrite append_cons in Hb. now inversion Hb.
      * split; [discriminate|]. intros [b Hb].
        rewrite append_cons in Hb. congruence.
Qed.

Lemma contains_nil w : Str.contains w EmptyString = String.prefix w EmptyString.
Proof. unfold Str.contains. apply orb_false_r. Qed.

Lemma contains_cons w c t :
  Str.contains w (String c t) = String.prefix w (String c t) || Str.contains w t.
Proof. reflexivity. Qed.

Lemma contains_app w t :
  Str.contains w t = true <-> exists a b, t = a +:+ w +:+ b.
Proof.
  induction t as [|c t IH].
  - rewrite contains_nil, prefix_app. split.
    + intros [b Hb]. now exists EmptyString, b.
    + intros ([|c a] & b & H); [now exists b|].
      rewrite append_cons in H. discriminate.
  - rewrite contains_cons, orb_true_iff, IH, prefix_app. split.
    + intros [[b Hb]|(a & b & Hab)].
      * now exists EmptyString, b.
      * exists (String c a), b. now rewrite append_cons, Hab.
    + intros ([|c' a] & b & H).
      * left. now exists b.
      * right. exists a, b. rewrite append_cons in H. congruence.
Qed.

Lemma append_assoc_str (a b c : string) : (a +:+ b) +:+ c = a +:+ (b +:+ c).
Proof.
  induction a as [|x a IH]; [reflexivity|].
  now rewrite !append_cons, IH.
Qed.

Lemma contains_trans u w t :
  Str.contains u w = true -> Str.contains w t = true -> Str.contains u t = true.
Proof.
  rewrite !contains_app. intros (a1 & b1 & ->) (a2 & b2 & ->).
  exists (a2 +:+ a1), (b1 +:+ b2).
  now rewrite !append_assoc_str.
Qed.

Lemma any_in_exists words t :
  Str.any_in words t = true <-> exists word, In word words /\ Str.contains word t = true.
Proof. unfold Str.any_in. apply existsb_exists. Qed.

Lemma any_in_none words t :
  Str.any_in words t = false <-> forall word, In word words -> Str.contains word t = false.
Proof.
  unfold Str.any_in. induction words as [|x words IH]; simpl.
  - split; [intros _ ? []|reflexivity].
  - rewrite orb_false_iff, IH. split.
    + intros [Hx Hw] word [<-|Hin]; auto.
    + intros H. split; [apply H; now left|]. intros word Hin. apply H. now right.
Qed.

(** ** The classifier *)

(** C5: [detect_intent] is the first-match walk over the ordered rule list
    on the lowercased text, so it depends on the lowercased text alone; a
    text whose lowercase form has an attendance keyword is classified
    [attendance] whatever other keywords it has, and a text whose lowercase
    form has no keyword of any rule is classified [unknown]. *)
Theorem detect_intent_first_match (text : string) :
  detect_intent text = first_match rules (lower text) /\
  (forall text', lower text' = lower text -> detect_intent text' = detect_intent text) /\
  ((exists word, In word ["attendance"; "present"; "absent"] /\
                 Str.contains word (lower text) = true) ->
   detect_intent text = Intent.attendance) /\
  ((forall keywords tag word,
      In (keywords, tag) rules -> In word keywords ->
      Str.contains word (lower text) = false) ->
   detect_intent text = Intent.unknown).
Proof.
  assert (Hfm : forall s, detect_intent s = first_match rules (lower s)) by reflexivity.
  split; [apply Hfm|]. split; [|split].
  - intros text' H. now rewrite !Hfm, H.
  - intros H. apply any_in_exists in H. unfold detect_intent. now rewrite H.
  - intros H. rewrite Hfm.
    assert (Hall : forall rs, incl rs rules -> first_match rs (lower text) = Intent.unknown).
    { induction rs as [|[keywords tag] rs IH]; intros Hincl; simpl; [reflexivity|].
      assert (Hno : Str.any_in keywords (lower text) = false).
      { apply any_in_none. intros word Hin.
        apply (H keywords tag word); [apply Hincl; now left|assumption]. }
      rewrite Hno. apply IH. intros r Hr. apply Hincl. now right. }
    apply Hall. apply incl_refl.
Qed.

(** C6: no text is classified [cgpa_calc]: every keyword of that rule has
    [gpa] inside, a keyword of the earlier grades rule, so a text that
    reaches and matches the [cgpa_calc] rule has matched the grades rule
    before. *)
Theorem detect_intent_never_cgpa_calc (text : string) :
  detect_intent text <> Intent.cgpa_calc /\
  Forall (fun word => Str.contains "gpa" word = true)
    ["predict cgpa"; "calculate cgpa"; "target cgpa"; "gpa calculator"] /\
  In "gpa" ["grade"; "result"; "marks"; "cgpa"; "sgpa"; "gpa"; "score"].
Proof.
  assert (Hkw : Forall (fun word => Str.contains "gpa" word = true)
                  ["predict cgpa"; "calculate cgpa"; "target cgpa"; "gpa calculator"]).
  { repeat constructor. }
  split; [|split; [exact Hkw|simpl; tauto]].
  unfold detect_intent.
  repeat match goal with
  | |- (if ?b then _ else _) <> _ =>
      let E := fresh "E" in destruct b eqn:E; [discriminate|]
  end.
  match goal with
  | |- (if ?b then _ else _) <> _ => destruct b eqn:Ec; [|discriminate]
  end.
  exfalso.
  apply any_in_exists in Ec. destruct Ec as (word & Hin & Hword).
  assert (Hgpa : Str.contains "gpa" (lower text) = true).
  { apply contains_trans with word; [|assumption].
    rewrite Forall_forall in Hkw. now apply Hkw, list_elem_of_In. }
  match goal with
  | H : Str.any_in ["grade"; _; _; _; _; _; _] _ = false |- _ =>
      rewrite any_in_none in H; rewrite (H "gpa") in Hgpa; [discriminate|simpl; tauto]
  end.
Qed.

(** ** The day resolver *)

Lemma lower_full_name d : lower (Weekday.full_name d) = Weekday.key d.
Proof. rewrite lower_ascii; destruct d; reflexivity. Qed.

Lemma day_after_index d :
  nth (Z.to_nat ((Weekday.index d + 1) mod 7)) days EmptyString
  = Weekday.key (Weekday.next d).
Proof. destruct d; reflexivity. Qed.

Lemma find_first {A : Type} (p : A -> bool) earlier x later :
  p x = true -> (forall y, In y earlier -> p y = false) ->
  List.find p (earlier ++ x :: later) = Some x.
Proof.
  intros Hx. induction earlier as [|y earlier IH]; intros Hno; simpl.
  - now rewrite Hx.
  - rewrite (Hno y) by now left. apply IH. intros z Hz. apply Hno. now right.
Qed.

Lemma find_nothing {A : Type} (p : A -> bool) l :
  (forall y, In y l -> p y = false) -> List.find p l = None.
Proof.
  induction l as [|y l IH]; intros Hno; simpl; [reflexivity|].
  rewrite (Hno y) by now left. apply IH. intros z Hz. apply Hno. now right.
Qed.

(** C8: on the lowercased text, [get_day_from_text] gives the current
    weekday when [today] occurs; else the weekday after the current one when
    [tomorrow] occurs; else the first name of monday..sunday, in that order,
    that occurs; else the current weekday. *)
Theorem get_day_from_text_resolves (now : Clock.t) (text : string) :
  let t := lower text in
  let today := Weekday.key (Clock.weekday now) in
  (Str.contains "today" t = true -> get_day_from_text now text = today) /\
  (Str.contains "today" t = false -> Str.contains "tomorrow" t = true ->
   get_day_from_text now text = Weekday.key (Weekday.next (Clock.weekday now))) /\
  (Str.contains "today" t = false -> Str.contains "tomorrow" t = false ->
   forall earlier day later,
     days = earlier ++ day :: later ->
     Str.contains day t = true ->
     (forall d, In d earlier -> Str.contains d t = false) ->
     get_day_from_text now text = day) /\
  (Str.contains "today" t = false -> Str.contains "tomorrow" t = false ->
   (forall d, In d days -> Str.contains d t = false) ->
   get_day_from_text now text = today).
Proof.
  intros t today. unfold get_day_from_text. fold t.
  split; [|split; [|split]].
  - intros ->. apply lower_full_name.
  - intros -> ->. apply day_after_index.
  - intros -> -> earlier day later Hdays Hday Hearlier.
    rewrite Hdays, (find_first _ earlier day later); auto.
  - intros -> -> Hno. rewrite find_nothing by assumption. apply lower_full_name.
Qed.

(** ** The query handler *)

Lemma append_empty_r (s : string) : s +:+ EmptyString = s.
Proof.
  induction s as [|c s IH]; [reflexivity|]. now rewrite append_cons, IH.
Qed.

Lemma append_cancel_l (s a b : string) : s +:+ a = s +:+ b -> a = b.
Proof.
  induction s as [|c s IH]; [auto|].
  rewrite !append_cons. intros H. apply IH. congruence.
Qed.

Lemma remarks_differ :
  low_attendance_warning <> commendation /\
  low_attendance_warning <> EmptyString /\
  commendation <> EmptyString.
Proof. repeat split; apply String.eqb_neq; reflexivity. Qed.



(** * Further properties of the handlers *)

(** ** Relations every run keeps *)

Section Always.

Context (R : world -> world -> Prop).
Hypothesis R_refl : forall w, R w w.
Hypothesis R_trans : forall w1 w2 w3, R w1 w2 -> R w2 w3 -> R w1 w3.

Lemma always_ret {A : Type} (a : A) : always R (mret a).
Proof. intros w. apply R_refl. Qed.

Lemma always_raise {A : Type} (e : exn) : always R (raise (A:=A) e).
Proof. intros w. apply R_refl. Qed.

Lemma always_lift {A : Type} (r : res A) : always R (lift r).
Proof. intros w. apply R_refl. Qed.

Lemma always_read_DATA : always R read_DATA.
Proof. intros w. apply R_refl. Qed.

Lemma always_bind {A B : Type} (m : handler A) (k : A -> handler B) :
  always R m -> (forall a, always R (k a)) -> always R (m ≫= k).
Proof.
  intros Hm Hk w. specialize (Hm w). unfold mbind, handler_bind.
  destruct (m w) as [w1 [a|e]]; simpl in *.
  - eapply R_trans; [exact Hm|]. apply Hk.
  - exact Hm.
Qed.

Lemma always_find_student key : always R (find_student key).
Proof.
  unfold find_student. apply always_bind; [apply always_read_DATA|].
  intros d. destruct (Store.students d !! key); [apply always_ret|apply always_raise].
Qed.

End Always.

Lemma same_but_refl key w : same_but key w w.
Proof. unfold same_but. repeat split; auto. Qed.

Lemma same_but_trans key w1 w2 w3 :
  same_but key w1 w2 -> same_but key w2 w3 -> same_but key w1 w3.
Proof.
  intros (H1 & H2 & H3 & H4 & H5 & H6 & H7 & H8) (G1 & G2 & G3 & G4 & G5 & G6 & G7 & G8).
  unfold same_but. repeat split; try congruence.
  - intros key' Hne. rewrite G1, H1; auto.
  - intros H. apply H2, G2, H.
  - intros H. apply G2, H2, H.
Qed.

Lemma update_student_same_but key f : always (same_but key) (update_student key f).
Proof.
  intros w. unfold update_student, same_but. simpl.
  split; [|split; [|repeat split]].
  - intros key' Hne. apply lookup_alter_ne. congruence.
  - intros key'. destruct (decide (key = key')) as [->|Hne].
    + rewrite lookup_alter_eq. apply fmap_is_Some.
    + now rewrite lookup_alter_ne.
Qed.

Lemma save_data_same_but key : always (same_but key) save_data.
Proof.
  intros w. unfold same_but. simpl.
  split; [auto|]. split; [intros; reflexivity|repeat split].
Qed.

(** Decompose a handler into its statements, for a relation every one of
    them keeps. *)
Ltac frame key :=
  cbv zeta;
  repeat first
    [ apply update_student_same_but
    | apply save_data_same_but
    | apply (always_find_student _ (same_but_refl key) (same_but_trans key))
    | apply (always_ret _ (same_but_refl key))
    | apply (always_raise _ (same_but_refl key))
    | apply (always_lift _ (same_but_refl key))
    | apply (always_read_DATA _ (same_but_refl key))
    | apply (always_bind _ (same_but_trans key)); [|intros ?; cbv beta zeta]
    | match goal with
      | |- always _ (if ?b then _ else _) => destruct b
      | |- always _ (match ?x with _ => _ end) => destruct x
      end ].

(** Every handler that works on the record of one student leaves, on every
    input and whether it returns or raises, the records of all other
    students, the set of keys, the notices, the timetable and the rest of
    the document as they were. *)
Theorem student_handlers_keep_the_rest :
  (forall student_key student,
     always (same_but (lower student_key)) (update_student_basic student_key student)) /\
  (forall att,
     always (same_but (lower (AttendanceUpdate.student_key att))) (update_attendance att)) /\
  (forall student_key subject,
     always (same_but (lower student_key)) (delete_attendance student_key subject)) /\
  (forall grade,
     always (same_but (lower (GradeUpdate.student_key grade))) (update_grade grade)) /\
  (forall student_key subject,
     always (same_but (lower student_key)) (delete_grade student_key subject)) /\
  (forall exam,
     always (same_but (lower (ExamUpdate.student_key exam))) (add_exam exam)) /\
  (forall student_key subject,
     always (same_but (lower student_key)) (delete_exam student_key subject)) /\
  (forall fee,
     always (same_but (lower (FeeUpdate.student_key fee))) (update_fees fee)) /\
  (forall now student_key amount mode,
     always (same_but (lower student_key)) (add_payment now student_key amount mode)) /\
  (forall book,
     always (same_but (lower (LibraryBookAdd.student_key book))) (add_library_book book)) /\
  (forall student_key title,
     always (same_but (lower student_key)) (return_book student_key title)) /\
  (forall student_key course,
     always (same_but (lower student_key)) (add_course_to_student student_key course)) /\
  (forall student_key course_code,
     always (same_but (lower student_key)) (remove_course student_key course_code)) /\
  (forall appt,
     always (same_but (lower (AppointmentBook.student_key appt))) (book_appointment appt)) /\
  (forall now minute_second order,
     always (same_but (lower (CafeteriaOrder.student_key order)))
       (place_order now minute_second order)).
Proof.
  repeat match goal with |- _ /\ _ => split end; intros.
  - unfold update_student_basic. frame (lower student_key).
  - unfold update_attendance. frame (lower (AttendanceUpdate.student_key att)).
  - unfold delete_attendance. frame (lower student_key).
  - unfold update_grade. frame (lower (GradeUpdate.student_key grade)).
  - unfold delete_grade. frame (lower student_key).
  - unfold add_exam. frame (lower (ExamUpdate.student_key exam)).
  - unfold delete_exam. frame (lower student_key).
  - unfold update_fees. frame (lower (FeeUpdate.student_key fee)).
  - unfold add_payment. frame (lower student_key).
  - unfold add_library_book. frame (lower (LibraryBookAdd.student_key book)).
  - unfold return_book. frame (lower student_key).
  - unfold add_course_to_student. frame (lower student_key).
  - unfold remove_course. frame (lower student_key).
  - unfold book_appointment. frame (lower (AppointmentBook.student_key appt)).
  - unfold place_order. frame (lower (CafeteriaOrder.student_key order)).
Qed.

(** ** When the file is written *)

Lemma file_kept_refl w : file_kept w w.
Proof. reflexivity. Qed.

Lemma file_kept_trans w1 w2 w3 : file_kept w1 w2 -> file_kept w2 w3 -> file_kept w1 w3.
Proof. unfold file_kept. congruence. Qed.

Lemma write_DATA_file_kept d : always file_kept (write_DATA d).
Proof. intros w. reflexivity. Qed.

Lemma update_student_file_kept key f : always file_kept (update_student key f).
Proof. intros w. reflexivity. Qed.

Lemma written_save {A : Type} (a : A) : written_on_success (save_data;; mret a).
Proof. intros w. reflexivity. Qed.

Lemma written_raise {A : Type} (e : exn) : written_on_success (raise (A:=A) e).
Proof. intros w. reflexivity. Qed.

Lemma written_bind {A B : Type} (m : handler A) (k : A -> handler B) :
  always file_kept m -> (forall a, written_on_success (k a)) ->
  written_on_success (m ≫= k).
Proof.
  intros Hm Hk w. specialize (Hm w). unfold file_kept in Hm.
  unfold mbind, handler_bind.
  destruct (m w) as [w1 [a|e]]; simpl in *; [|exact Hm].
  specialize (Hk a w1). destruct (k a w1) as [w2 [b|e]]; simpl in *; congruence.
Qed.

Lemma written_if_changed_bind {A B : Type} (m : handler A) (k : A -> handler B) :
  (forall w, (m w).1 = w) -> (forall a, written_if_changed (k a)) ->
  written_if_changed (m ≫= k).
Proof.
  intros Hm Hk w. specialize (Hm w). unfold mbind, handler_bind.
  destruct (m w) as [w1 [a|e]]; simpl in *; subst w1.
  - apply Hk.
  - reflexivity.
Qed.

Lemma find_student_world key w : (find_student key w).1 = w.
Proof.
  unfold find_student, mbind, handler_bind, read_DATA.
  now destruct (Store.students (DATA w) !! key).
Qed.

Ltac kept :=
  cbv zeta;
  repeat first
    [ apply update_student_file_kept
    | apply write_DATA_file_kept
    | apply (always_find_student _ file_kept_refl file_kept_trans)
    | apply (always_ret _ file_kept_refl)
    | apply (always_raise _ file_kept_refl)
    | apply (always_lift _ file_kept_refl)
    | apply (always_read_DATA _ file_kept_refl)
    | apply (always_bind _ file_kept_trans); [|intros ?; cbv beta zeta]
    | match goal with
      | |- always _ (if ?b then _ else _) => destruct b
      | |- always _ (match ?x with _ => _ end) => destruct x
      end ].

Ltac written :=
  cbv zeta;
  repeat first
    [ apply written_save
    | apply written_raise
    | apply written_bind; [solve [kept]|intros ?; cbv beta zeta]
    | match goal with
      | |- written_on_success (match ?x with _ => _ end) => destruct x
      end ].


(** ** Unknown students *)

Ltac missing :=
  cbv zeta;
  erewrite run_bind_raise by (apply find_student_missing; eassumption);
  reflexivity.

(** A key that has no record: every handler that works on one record
    raises the 404 [Student not found] and leaves [DATA] and the file as
    they were; [get_my_orders] alone returns, with an empty list. *)
Theorem unknown_student_not_found (w : world) (student_key : string) :
  Store.students (DATA w) !! lower student_key = None ->
  get_student student_key w = not_found w /\
  (forall student, update_student_basic student_key student w = not_found w) /\
  delete_student student_key w = not_found w /\
  (forall subject present total,
     update_attendance (AttendanceUpdate.mk student_key subject present total) w
     = not_found w) /\
  (forall subject, delete_attendance student_key subject w = not_found w) /\
  (forall subject grade marks credits,
     update_grade (GradeUpdate.mk student_key subject grade marks credits) w
     = not_found w) /\
  (forall subject, delete_grade student_key subject w = not_found w) /\
  (forall subject date time venue exam_type days_left,
     add_exam (ExamUpdate.mk student_key subject date time venue exam_type days_left) w
     = not_found w) /\
  (forall subject, delete_exam student_key subject w = not_found w) /\
  (forall total_fee paid due_date,
     update_fees (FeeUpdate.mk student_key total_fee paid due_date) w = not_found w) /\
  (forall now amount mode, add_payment now student_key amount mode w = not_found w) /\
  (forall title author issue_date due_date,
     add_library_book (LibraryBookAdd.mk student_key title author issue_date due_date) w
     = not_found w) /\
  (forall title, return_book student_key title w = not_found w) /\
  (forall course, add_course_to_student student_key course w = not_found w) /\
  (forall course_code, remove_course student_key course_code w = not_found w) /\
  (forall professor_name date time purpose,
     book_appointment (AppointmentBook.mk student_key professor_name date time purpose) w
     = not_found w) /\
  (forall now minute_second items total_amount,
     place_order now minute_second (CafeteriaOrder.mk student_key items total_amount) w
     = not_found w) /\
  get_my_orders student_key w = (w, Ok []).
Proof.
  intros Hs.
  repeat match goal with |- _ /\ _ => split end; intros.
  - unfold get_student. missing.
  - unfold update_student_basic. missing.
  - unfold delete_student. missing.
  - unfold update_attendance. missing.
  - unfold delete_attendance. missing.
  - unfold update_grade. missing.
  - unfold delete_grade. missing.
  - unfold add_exam. missing.
  - unfold delete_exam. missing.
  - unfold update_fees. missing.
  - unfold add_payment. missing.
  - unfold add_library_book. missing.
  - unfold return_book. missing.
  - unfold add_course_to_student. missing.
  - unfold remove_course. missing.
  - unfold book_appointment. missing.
  - unfold place_order. missing.
  - unfold get_my_orders. cbv zeta.
    rewrite (run_bind _ _ w w (DATA w)) by reflexivity. now rewrite Hs.
Qed.

(** ** Student records *)

Lemma delete_student_found key_text w student :
  Store.students (DATA w) !! lower key_text = Some student ->
  delete_student key_text w
  = (saved (drop_student (lower key_text) w),
     Ok ("Student " +:+ Student.name student +:+ " deleted successfully")).
Proof.
  intros Hs. unfold delete_student. cbv zeta. step.
  rewrite (run_bind _ _ w w (DATA w)) by reflexivity.
  reflexivity.
Qed.

Lemma drop_put_student key s w :
  Store.students (DATA w) !! key = None -> drop_student key (put_student key s w) = w.
Proof.
  intros H. destruct w as [[st no ti ca pl ev fa] f].
  unfold drop_student, put_student, Store.with_students. simpl in *.
  now rewrite delete_insert_id.
Qed.

Lemma drop_student_saved key w : drop_student key (saved w) = World (DATA (drop_student key w)) (DATA w).
Proof. reflexivity. Qed.

Lemma create_student_new now student w :
  Store.students (DATA w) !! lower (StudentBasic.name student) = None ->
  exists record,
    create_student now student w
    = (saved (put_student (lower (StudentBasic.name student)) record w),
       Ok ("Student " +:+ StudentBasic.name student +:+ " added successfully")) /\
    Student.name record = StudentBasic.name student.
Proof.
  intros Hs. eexists. split.
  - unfold create_student.
    rewrite (run_bind _ _ w w (DATA w)) by reflexivity. rewrite Hs. reflexivity.
  - reflexivity.
Qed.


(** A student is deleted under the lowercased key: the record is gone, so
    that [get_student] raises the 404, every other record stays, the store
    is saved, and the message carries the name stored in the record. *)
Theorem delete_student_removes (w : world) (student_key : string) (student : Student.t) :
  let key := lower student_key in
  let w' := saved (drop_student key w) in
  Store.students (DATA w) !! key = Some student ->
  delete_student student_key w
  = (w', Ok ("Student " +:+ Student.name student +:+ " deleted successfully")) /\
  get_student student_key w' = not_found w' /\
  delete_student student_key w' = not_found w' /\
  (forall key', key' <> key ->
     Store.students (DATA w') !! key' = Store.students (DATA w) !! key') /\
  size (Store.students (DATA w')) = Nat.pred (size (Store.students (DATA w))).
Proof.
  intros key w' Hs.
  assert (Hgone : Store.students (DATA w') !! key = None) by apply lookup_delete_eq.
  split; [now apply delete_student_found|].
  split; [unfold get_student; missing|].
  split; [unfold delete_student; missing|].
  split.
  - intros key' Hne. apply lookup_delete_ne. congruence.
  - unfold w', drop_student. simpl.
    apply map_size_delete_Some. rewrite Hs. eauto.
Qed.

(** Creating a student whose key is new and deleting it again gives back
    the store as it was, saved. *)
Theorem create_then_delete_student (now : Clock.t) (student : StudentBasic.t) (w : world) :
  Store.students (DATA w) !! lower (StudentBasic.name student) = None ->
  delete_student (StudentBasic.name student) (create_student now student w).1
  = (saved w, Ok ("Student " +:+ StudentBasic.name student +:+ " deleted successfully")).
Proof.
  intros Hs.
  destruct (create_student_new now student w Hs) as (record & Hrun & Hname).
  rewrite Hrun. cbn [fst].
  rewrite (delete_student_found _ _ record) by apply lookup_put_student.
  rewrite Hname. f_equal.
  rewrite drop_student_saved, (drop_put_student _ _ _ Hs). reflexivity.
Qed.

(** The id of a new record counts the records of the store, so ids come
    back: after two new students are created and the first is deleted,
    creating the first again gives it the id of the second. *)
Theorem student_ids_are_reused (now : Clock.t) (a b : StudentBasic.t) (w : world) :
  let key_a := lower (StudentBasic.name a) in
  let key_b := lower (StudentBasic.name b) in
  let w1 := (create_student now a w).1 in
  let w2 := (create_student now b w1).1 in
  let w3 := (delete_student (StudentBasic.name a) w2).1 in
  let w4 := (create_student now a w3).1 in
  key_a <> key_b ->
  Store.students (DATA w) !! key_a = None ->
  Store.students (DATA w) !! key_b = None ->
  exists record_a record_b,
    Store.students (DATA w4) !! key_a = Some record_a /\
    Store.students (DATA w4) !! key_b = Some record_b /\
    Student.id record_a = Student.id record_b.
Proof.
  intros key_a key_b w1 w2 w3 w4 Hne Ha Hb.
  set (n := size (Store.students (DATA w))).
  assert (Hcreate : forall s v, Store.students (DATA v) !! lower (StudentBasic.name s) = None ->
            exists record,
              (create_student now s v).1 = saved (put_student (lower (StudentBasic.name s)) record v) /\
              Student.id record
              = "CSE" +:+ Clock.year_Y now +:+ "A" +:+
                Str.format_0d 2 (Z.of_nat (size (Store.students (DATA v))) + 1)).
  { intros s v Hv. eexists. split.
    - unfold create_student.
      rewrite (run_bind _ _ v v (DATA v)) by reflexivity. rewrite Hv. reflexivity.
    - reflexivity. }
  destruct (Hcreate a w Ha) as (ra & Hw1 & _). fold w1 in Hw1.
  assert (Hb1 : Store.students (DATA w1) !! key_b = None).
  { rewrite Hw1. simpl. rewrite lookup_insert_ne by exact Hne. exact Hb. }
  assert (Hn1 : size (Store.students (DATA w1)) = S n).
  { rewrite Hw1. simpl. now apply map_size_insert_None. }
  destruct (Hcreate b w1 Hb1) as (rb & Hw2 & Hidb). fold w2 in Hw2.
  assert (Ha2 : Store.students (DATA w2) !! key_a = Some ra).
  { rewrite Hw2. simpl. rewrite lookup_insert_ne by (intros E; apply Hne; symmetry; exact E).
    rewrite Hw1. simpl. apply lookup_insert_eq. }
  assert (Hn2 : size (Store.students (DATA w2)) = S (S n)).
  { rewrite Hw2. simpl. rewrite map_size_insert_None by exact Hb1. now rewrite Hn1. }
  assert (Hw3 : w3 = saved (drop_student key_a w2)).
  { unfold w3. now rewrite (delete_student_found _ _ ra). }
  assert (Ha3 : Store.students (DATA w3) !! key_a = None).
  { rewrite Hw3. simpl. apply lookup_delete_eq. }
  assert (Hn3 : size (Store.students (DATA w3)) = S n).
  { rewrite Hw3. simpl. rewrite map_size_delete_Some by (rewrite Ha2; eauto). now rewrite Hn2. }
  destruct (Hcreate a w3 Ha3) as (ra' & Hw4 & Hida). fold w4 in Hw4.
  exists ra', rb. split; [|split].
  - rewrite Hw4. simpl. apply lookup_insert_eq.
  - rewrite Hw4. simpl. rewrite lookup_insert_ne by exact Hne.
    rewrite Hw3. simpl. rewrite lookup_delete_ne by exact Hne.
    rewrite Hw2. simpl. apply lookup_insert_eq.
  - rewrite Hida, Hidb, Hn3, Hn1. reflexivity.
Qed.


(** ** Library, courses and exams *)

Lemma saved_put_saved key s w :
  saved (put_student key s (saved w)) = saved (put_student key s w).
Proof. reflexivity. Qed.

Lemma filter_app_one {A : Type} (p : A -> bool) l x :
  List.filter p (l ++ [x]) = List.filter p l ++ (if p x then [x] else []).
Proof. rewrite List.filter_app. reflexivity. Qed.

Lemma with_courses_same s : Student.with_courses (Student.courses s) s = s.
Proof. now destruct s. Qed.

(** The book the request [book] adds. *)
Lemma add_library_book_found w book student :
  Store.students (DATA w) !! lower (LibraryBookAdd.student_key book) = Some student ->
  let books :=
    Library.books_borrowed (Student.library student) ++
      [Book.mk (LibraryBookAdd.title book) (LibraryBookAdd.author book)
         (LibraryBookAdd.issue_date book) (LibraryBookAdd.due_date book) 0 "Active"] in
  add_library_book book w
  = (saved (put_student (lower (LibraryBookAdd.student_key book))
              (on_library
                 (fun l => Library.with_total_borrowed (Z.of_nat (length books))
                             (Library.with_books_borrowed books l))
                 student) w),
     Ok ("Book '" +:+ LibraryBookAdd.title book +:+ "' added")).
Proof.
  intros Hs books. unfold add_library_book. cbv zeta. do 4 step. reflexivity.
Qed.

Lemma return_book_found w student_key title student :
  Store.students (DATA w) !! lower student_key = Some student ->
  let books :=
    List.filter (fun b => negb (String.eqb (Book.title b) title))
      (Library.books_borrowed (Student.library student)) in
  return_book student_key title w
  = (saved (put_student (lower student_key)
              (on_library
                 (fun l => Library.with_total_borrowed (Z.of_nat (length books))
                             (Library.with_books_borrowed books l))
                 student) w),
     Ok ("Book '" +:+ title +:+ "' returned")).
Proof.
  intros Hs books. unfold return_book. cbv zeta. do 4 step. reflexivity.
Qed.

(** On an existing record, [add_library_book] appends one active book with
    no fine, whatever [max_books] is and however many books are out, and
    [return_book] removes every book of the title and keeps the others in
    their order; after either, [total_borrowed] is the length of the list,
    and the fine total and [max_books] are as before. Both are saved. *)
Theorem library_total_recounted
    (w : world) (student : Student.t) (book : LibraryBookAdd.t) (student_key title : string) :
  (Store.students (DATA w) !! lower (LibraryBookAdd.student_key book) = Some student ->
   exists student',
     add_library_book book w
     = (saved (put_student (lower (LibraryBookAdd.student_key book)) student' w),
        Ok ("Book '" +:+ LibraryBookAdd.title book +:+ "' added")) /\
     Student.with_library (Student.library student') student = student' /\
     Library.books_borrowed (Student.library student')
     = Library.books_borrowed (Student.library student) ++
       [Book.mk (LibraryBookAdd.title book) (LibraryBookAdd.author book)
          (LibraryBookAdd.issue_date book) (LibraryBookAdd.due_date book) 0 "Active"] /\
     Library.total_borrowed (Student.library student')
     = Z.of_nat (length (Library.books_borrowed (Student.library student'))) /\
     Library.total_fine (Student.library student')
     = Library.total_fine (Student.library student) /\
     Library.max_books (Student.library student')
     = Library.max_books (Student.library student)) /\
  (Store.students (DATA w) !! lower student_key = Some student ->
   exists student',
     return_book student_key title w
     = (saved (put_student (lower student_key) student' w),
        Ok ("Book '" +:+ title +:+ "' returned")) /\
     Student.with_library (Student.library student') student = student' /\
     Library.books_borrowed (Student.library student')
     = List.filter (fun b => negb (String.eqb (Book.title b) title))
         (Library.books_borrowed (Student.library student)) /\
     Forall (fun b => Book.title b <> title)
       (Library.books_borrowed (Student.library student')) /\
     Library.total_borrowed (Student.library student')
     = Z.of_nat (length (Library.books_borrowed (Student.library student'))) /\
     Library.total_fine (Student.library student')
     = Library.total_fine (Student.library student) /\
     Library.max_books (Student.library student')
     = Library.max_books (Student.library student)).
Proof.
  split; intros Hs.
  - eexists. split; [apply (add_library_book_found _ _ _ Hs)|].
    destruct student as [? ? ? ? ? ? ? ? ? ? ? ? ? ? ? [books tb tf mb] ? ? ? ?].
    simpl. repeat split.
  - eexists. split; [apply (return_book_found _ _ _ _ Hs)|].
    destruct student as [? ? ? ? ? ? ? ? ? ? ? ? ? ? ? [books tb tf mb] ? ? ? ?].
    simpl. split; [reflexivity|]. split; [reflexivity|]. split; [|repeat split].
    apply Forall_forall. intros b Hb. apply list_elem_of_In, List.filter_In in Hb.
    destruct Hb as [_ Hb]. destruct (String.eqb_spec (Book.title b) title); [discriminate|assumption].
Qed.

(** Borrowing a title the student does not hold and returning it gives back
    the record as it was, when the count of the record was right; [DATA] is
    then as before the two calls, and saved. *)
Theorem add_then_return_book
    (w : world) (student : Student.t) (student_key title author issue_date due_date : string) :
  let book := LibraryBookAdd.mk student_key title author issue_date due_date in
  Store.students (DATA w) !! lower student_key = Some student ->
  Forall (fun b => Book.title b <> title) (Library.books_borrowed (Student.library student)) ->
  Library.total_borrowed (Student.library student)
  = Z.of_nat (length (Library.books_borrowed (Student.library student))) ->
  return_book student_key title (add_library_book book w).1
  = (saved w, Ok ("Book '" +:+ title +:+ "' returned")).
Proof.
  intros book Hs Hnone Htotal.
  rewrite (add_library_book_found w book student Hs). cbn [fst].
  erewrite return_book_found by apply lookup_put_student.
  rewrite saved_put_saved, put_student_twice.
  replace (on_library _ (on_library _ student)) with student;
    [now rewrite (put_student_same (lower (LibraryBookAdd.student_key book)) student w Hs)|].
  destruct student as [? ? ? ? ? ? ? ? ? ? ? ? ? ? ? [books tb tf mb] ? ? ? ?].
  unfold on_library. simpl in *.
  rewrite filter_app_one. simpl. rewrite String.eqb_refl. simpl.
  rewrite app_nil_r, filter_keeps_all.
  - now rewrite Htotal.
  - eapply Forall_impl; [exact Hnone|]. intros b Hb. simpl.
    destruct (String.eqb_spec (Book.title b) title); [contradiction|reflexivity].
Qed.

(** ** Courses *)

Lemma add_course_found w student_key course student :
  Store.students (DATA w) !! lower student_key = Some student ->
  add_course_to_student student_key course w
  = (saved (put_student (lower student_key)
              (Student.with_courses
                 (Student.courses student ++
                    [Course.mk (CourseCreate.code course) (CourseCreate.name course)
                       (CourseCreate.credits course) (CourseCreate.professor course)
                       (CourseCreate.schedule course)])
                 student) w),
     Ok ("Course " +:+ CourseCreate.name course +:+ " added")).
Proof. intros Hs. unfold add_course_to_student. cbv zeta. do 3 step. reflexivity. Qed.

Lemma remove_course_found w student_key course_code student :
  Store.students (DATA w) !! lower student_key = Some student ->
  remove_course student_key course_code w
  = (saved (put_student (lower student_key)
              (Student.with_courses
                 (List.filter (fun c => negb (String.eqb (Course.code c) course_code))
                    (Student.courses student))
                 student) w),
     Ok ("Course " +:+ course_code +:+ " removed")).
Proof. intros Hs. unfold remove_course. cbv zeta. do 3 step. reflexivity. Qed.

(** On an existing record, [add_course_to_student] appends the course, also
    when its code is already there; [remove_course] removes every course of
    the code, keeps the others in their order, and changes nothing but the
    saved file when no course has the code; and removing a code that was
    new when it was added gives back the record as it was. *)
Theorem courses_added_and_removed
    (w : world) (student : Student.t) (student_key : string) (course : CourseCreate.t)
    (course_code : string) :
  Store.students (DATA w) !! lower student_key = Some student ->
  let key := lower student_key in
  let added :=
    Course.mk (CourseCreate.code course) (CourseCreate.name course)
      (CourseCreate.credits course) (CourseCreate.professor course)
      (CourseCreate.schedule course) in
  let kept :=
    List.filter (fun c => negb (String.eqb (Course.code c) course_code))
      (Student.courses student) in
  add_course_to_student student_key course w
  = (saved (put_student key (Student.with_courses (Student.courses student ++ [added]) student) w),
     Ok ("Course " +:+ CourseCreate.name course +:+ " added")) /\
  remove_course student_key course_code w
  = (saved (put_student key (Student.with_courses kept student) w),
     Ok ("Course " +:+ course_code +:+ " removed")) /\
  Forall (fun c => Course.code c <> course_code) kept /\
  (Forall (fun c => Course.code c <> course_code) (Student.courses student) ->
   remove_course student_key course_code w
   = (saved w, Ok ("Course " +:+ course_code +:+ " removed"))) /\
  (Forall (fun c => Course.code c <> CourseCreate.code course) (Student.courses student) ->
   remove_course student_key (CourseCreate.code course)
     (add_course_to_student student_key course w).1
   = (saved w, Ok ("Course " +:+ CourseCreate.code course +:+ " removed"))).
Proof.
  intros Hs key added kept.
  assert (Hkeep : forall code,
            Forall (fun c => Course.code c <> code) (Student.courses student) ->
            List.filter (fun c => negb (String.eqb (Course.code c) code)) (Student.courses student)
            = Student.courses student).
  { intros code Hall. apply filter_keeps_all.
    eapply Forall_impl; [exact Hall|]. intros c Hc. simpl.
    destruct (String.eqb_spec (Course.code c) code); [contradiction|reflexivity]. }
  split; [now apply add_course_found|].
  split; [now apply remove_course_found|].
  split.
  { apply Forall_forall. intros c Hc. apply list_elem_of_In, List.filter_In in Hc.
    destruct Hc as [_ Hc].
    destruct (String.eqb_spec (Course.code c) course_code); [discriminate|assumption]. }
  split.
  - intros Hall. rewrite (remove_course_found _ _ _ _ Hs), (Hkeep _ Hall).
    now rewrite with_courses_same, (put_student_same _ _ _ Hs).
  - intros Hall. rewrite (add_course_found _ _ _ _ Hs). cbn [fst].
    erewrite remove_course_found by apply lookup_put_student.
    rewrite saved_put_saved, put_student_twice.
    replace (Student.with_courses _ (Student.with_courses _ student)) with student;
      [now rewrite (put_student_same _ _ _ Hs)|].
    destruct student as [? ? ? ? ? ? ? ? ? ? ? ? ? ? ? ? ? courses ? ?].
    unfold Student.with_courses. simpl in *.
    rewrite filter_app_one. simpl. rewrite String.eqb_refl. simpl.
    now rewrite app_nil_r, (Hkeep _ Hall).
Qed.

(** ** Exams *)

Lemma add_exam_found w exam student :
  Store.students (DATA w) !! lower (ExamUpdate.student_key exam) = Some student ->
  add_exam exam w
  = (saved (put_student (lower (ExamUpdate.student_key exam))
              (Student.with_exams
                 (Student.exams student ++
                    [Exam.mk (ExamUpdate.subject exam) (ExamUpdate.date exam)
                       (ExamUpdate.time exam) (ExamUpdate.venue exam)
                       (ExamUpdate.exam_type exam) (ExamUpdate.days_left exam)])
                 student) w),
     Ok ("Exam added for " +:+ ExamUpdate.subject exam)).
Proof. intros Hs. unfold add_exam. cbv zeta. do 3 step. reflexivity. Qed.

Lemma delete_exam_found w student_key subject student :
  Store.students (DATA w) !! lower student_key = Some student ->
  delete_exam student_key subject w
  = (saved (put_student (lower student_key)
              (Student.with_exams
                 (List.filter (fun e => negb (String.eqb (Exam.subject e) subject))
                    (Student.exams student))
                 student) w),
     Ok ("Exam deleted for " +:+ subject)).
Proof. intros Hs. unfold delete_exam. cbv zeta. do 3 step. reflexivity. Qed.

(** An exam added for a subject and the delete for that subject: the delete
    removes the new exam together with every exam the student already had
    in the subject, and leaves the other exams in their order; the record is
    then as a delete alone would have left it. *)
Theorem add_then_delete_exam (w : world) (exam : ExamUpdate.t) (student : Student.t) :
  Store.students (DATA w) !! lower (ExamUpdate.student_key exam) = Some student ->
  delete_exam (ExamUpdate.student_key exam) (ExamUpdate.subject exam) (add_exam exam w).1
  = delete_exam (ExamUpdate.student_key exam) (ExamUpdate.subject exam) w /\
  exists student',
    delete_exam (ExamUpdate.student_key exam) (ExamUpdate.subject exam) (add_exam exam w).1
    = (saved (put_student (lower (ExamUpdate.student_key exam)) student' w),
       Ok ("Exam deleted for " +:+ ExamUpdate.subject exam)) /\
    Student.with_exams (Student.exams student') student = student' /\
    Student.exams student'
    = List.filter (fun e => negb (String.eqb (Exam.subject e) (ExamUpdate.subject exam)))
        (Student.exams student) /\
    Forall (fun e => Exam.subject e <> ExamUpdate.subject exam) (Student.exams student').
Proof.
  intros Hs.
  assert (Hrun : delete_exam (ExamUpdate.student_key exam) (ExamUpdate.subject exam)
                   (add_exam exam w).1
                 = delete_exam (ExamUpdate.student_key exam) (ExamUpdate.subject exam) w).
  { rewrite (add_exam_found _ _ _ Hs). cbn [fst].
    erewrite delete_exam_found by apply lookup_put_student.
    rewrite (delete_exam_found _ _ _ _ Hs), saved_put_saved, put_student_twice.
    do 3 f_equal.
    destruct student as [? ? ? ? ? ? ? ? ? ? ? ? ? ? exams ? ? ? ? ?].
    unfold Student.with_exams. simpl. f_equal.
    rewrite filter_app_one. simpl. rewrite String.eqb_refl. simpl. apply app_nil_r. }
  split; [exact Hrun|].
  rewrite Hrun, (delete_exam_found _ _ _ _ Hs).
  eexists. split; [reflexivity|].
  destruct student as [? ? ? ? ? ? ? ? ? ? ? ? ? ? exams ? ? ? ? ?]. simpl.
  split; [reflexivity|]. split; [reflexivity|].
  apply Forall_forall. intros e He. apply list_elem_of_In, List.filter_In in He.
  destruct He as [_ He].
  destruct (String.eqb_spec (Exam.subject e) (ExamUpdate.subject exam)); [discriminate|assumption].
Qed.

(** ** Upserts made twice *)

Lemma dict_set_set {V : Type} k (v v' : V) d :
  Dict.set k v (Dict.set k v' d) = Dict.set k v d.
Proof.
  induction d as [|[k0 v0] d IH]; simpl.
  - now rewrite String.eqb_refl.
  - destruct (String.eqb k k0) eqn:E; simpl.
    + now rewrite String.eqb_refl.
    + now rewrite E, IH.
Qed.

(** The record an attendance upsert leaves, for the percents [percent] and
    [overall]. *)
Lemma update_attendance_result w att student percent overall :
  let key := lower (AttendanceUpdate.student_key att) in
  let subjects' :=
    Dict.set (AttendanceUpdate.subject att)
      (SubjectAttendance.mk (AttendanceUpdate.present att) (AttendanceUpdate.total att) percent)
      (Attendance.subjects (Student.attendance student)) in
  Store.students (DATA w) !! key = Some student ->
  percentage (AttendanceUpdate.present att) (AttendanceUpdate.total att) = Ok percent ->
  percentage (sum_present subjects') (sum_total subjects') = Ok overall ->
  update_attendance att w
  = (saved (put_student key
              (Student.with_attendance
                 (Attendance.mk overall (sum_total subjects') (sum_present subjects')
                    (sum_total subjects' - sum_present subjects') subjects')
                 student) w),
     Ok ("Attendance updated for " +:+ AttendanceUpdate.subject att)).
Proof.
  intros key subjects' Hs Hp Ho.
  unfold update_attendance. fold key.
  step.
  erewrite run_bind by (rewrite run_lift, Hp; reflexivity).
  step. step. cbv zeta.
  replace (Attendance.subjects (Student.attendance (on_subjects _ student)))
    with subjects' by reflexivity.
  fold (sum_present subjects') (sum_total subjects').
  step. step. step.
  erewrite run_bind by (rewrite run_lift, Ho; reflexivity).
  step. step.
  destruct student as [? ? ? ? ? ? ? ? ? ? ? ? [? ? ? ? subs] ? ? ? ? ? ? ?].
  reflexivity.
Qed.

(** An attendance upsert that returns has evaluated its two percents. *)
Lemma update_attendance_returns w att w' msg :
  update_attendance att w = (w', Ok msg) ->
  exists student percent overall,
    Store.students (DATA w) !! lower (AttendanceUpdate.student_key att) = Some student /\
    percentage (AttendanceUpdate.present att) (AttendanceUpdate.total att) = Ok percent /\
    percentage
      (sum_present
         (Dict.set (AttendanceUpdate.subject att)
            (SubjectAttendance.mk (AttendanceUpdate.present att)
               (AttendanceUpdate.total att) percent)
            (Attendance.subjects (Student.attendance student))))
      (sum_total
         (Dict.set (AttendanceUpdate.subject att)
            (SubjectAttendance.mk (AttendanceUpdate.present att)
               (AttendanceUpdate.total att) percent)
            (Attendance.subjects (Student.attendance student))))
    = Ok overall.
Proof.
  intros H.
  destruct (Store.students (DATA w) !! lower (AttendanceUpdate.student_key att))
    as [student|] eqn:Hs.
  2:{ exfalso. revert H. unfold update_attendance. cbv zeta.
      erewrite run_bind_raise by (apply find_student_missing; eassumption). discriminate. }
  destruct (percentage (AttendanceUpdate.present att) (AttendanceUpdate.total att))
    as [percent|e] eqn:Hp.
  2:{ exfalso. revert H. unfold update_attendance. cbv zeta. step.
      erewrite run_bind_raise by (rewrite run_lift, Hp; reflexivity). discriminate. }
  exists student, percent.
  match goal with |- exists overall, _ /\ _ /\ ?c = _ => destruct c as [overall|e] eqn:Ho end.
  - exists overall. auto.
  - exfalso. revert H. unfold update_attendance. cbv zeta. step.
    erewrite run_bind by (rewrite run_lift, Hp; reflexivity).
    step. step. cbv zeta. step. step. step.
    erewrite run_bind_raise; [discriminate|].
    rewrite run_lift. f_equal.
    destruct student as [? ? ? ? ? ? ? ? ? ? ? ? [? ? ? ? subs] ? ? ? ? ? ? ?].
    exact Ho.
Qed.

(** The record a grade upsert leaves, for the sum of points [points] and
    the rounded ratio [sgpa]. *)
Lemma update_grade_result w grade student points sgpa :
  let key := lower (GradeUpdate.student_key grade) in
  let semester' :=
    Dict.set (GradeUpdate.subject grade)
      (Grade.mk (GradeUpdate.grade grade) (GradeUpdate.marks grade) (GradeUpdate.credits grade))
      (Grades.current_semester (Student.grades student)) in
  Store.students (DATA w) !! key = Some student ->
  sum_points semester' = Ok points ->
  sgpa_of points (sum_credits semester') = Ok sgpa ->
  update_grade grade w
  = (saved (put_student key
              (Student.with_grades
                 (Grades.mk semester' sgpa (Grades.cgpa (Student.grades student))
                    (Grades.total_credits (Student.grades student)) (sum_credits semester'))
                 student) w),
     Ok ("Grade updated for " +:+ GradeUpdate.subject grade)).
Proof.
  intros key semester' Hs Hp Hv.
  unfold update_grade. fold key.
  step. step. step.
  replace (Grades.current_semester (Student.grades (on_current_semester _ student)))
    with semester' by reflexivity.
  erewrite run_bind
    by (rewrite run_lift, sgpa_loop_sums; fold (sum_points semester'); rewrite Hp; reflexivity).
  cbn [fst snd]. rewrite Z.add_0_l.
  erewrite run_bind by (rewrite run_lift, Hv; reflexivity).
  step. step. step.
  destruct student as [? ? ? ? ? ? ? ? ? ? ? ? ? [sem ? ? ? ?] ? ? ? ? ? ?].
  reflexivity.
Qed.

(** A grade upsert that returns has evaluated the sum and the ratio. *)
Lemma update_grade_returns w grade w' msg :
  update_grade grade w = (w', Ok msg) ->
  exists student points sgpa,
    Store.students (DATA w) !! lower (GradeUpdate.student_key grade) = Some student /\
    sum_points
      (Dict.set (GradeUpdate.subject grade)
         (Grade.mk (GradeUpdate.grade grade) (GradeUpdate.marks grade)
            (GradeUpdate.credits grade))
         (Grades.current_semester (Student.grades student))) = Ok points /\
    sgpa_of points
      (sum_credits
         (Dict.set (GradeUpdate.subject grade)
            (Grade.mk (GradeUpdate.grade grade) (GradeUpdate.marks grade)
               (GradeUpdate.credits grade))
            (Grades.current_semester (Student.grades student)))) = Ok sgpa.
Proof.
  intros H.
  destruct (Store.students (DATA w) !! lower (GradeUpdate.student_key grade))
    as [student|] eqn:Hs.
  2:{ exfalso. revert H. unfold update_grade. cbv zeta.
      erewrite run_bind_raise by (apply find_student_missing; eassumption). discriminate. }
  exists student.
  set (semester' :=
         Dict.set (GradeUpdate.subject grade)
           (Grade.mk (GradeUpdate.grade grade) (GradeUpdate.marks grade)
              (GradeUpdate.credits grade))
           (Grades.current_semester (Student.grades student))).
  destruct (sum_points semester') as [points|e] eqn:Hp.
  2:{ exfalso. revert H. unfold update_grade. cbv zeta. step. step. step.
      replace (Grades.current_semester (Student.grades (on_current_semester _ student)))
        with semester' by reflexivity.
      erewrite run_bind_raise; [discriminate|].
      rewrite run_lift, sgpa_loop_sums. fold (sum_points semester'). rewrite Hp. reflexivity. }
  exists points.
  destruct (sgpa_of points (sum_credits semester')) as [sgpa|e] eqn:Hv.
  - exists sgpa. auto.
  - exfalso. revert H. unfold update_grade. cbv zeta. step. step. step.
    replace (Grades.current_semester (Student.grades (on_current_semester _ student)))
      with semester' by reflexivity.
    erewrite run_bind
      by (rewrite run_lift, sgpa_loop_sums; fold (sum_points semester'); rewrite Hp; reflexivity).
    cbn [fst snd]. rewrite Z.add_0_l.
    erewrite run_bind_raise; [discriminate|].
    rewrite run_lift, Hv. reflexivity.
Qed.

Lemma update_fees_found w fee student :
  Store.students (DATA w) !! lower (FeeUpdate.student_key fee) = Some student ->
  update_fees fee w
  = (saved (put_student (lower (FeeUpdate.student_key fee))
              (Student.with_fees
                 (Fees.mk (FeeUpdate.total_fee fee) (FeeUpdate.paid fee)
                    (FeeUpdate.total_fee fee - FeeUpdate.paid fee) (FeeUpdate.due_date fee)
                    (Fees.payment_history (Student.fees student))
                    (Fees.breakdown (Student.fees student)))
                 student) w),
     Ok "Fees updated successfully").
Proof.
  intros Hs. unfold update_fees. cbv zeta. do 6 step.
  destruct student as [? ? ? ? ? ? ? ? ? ? ? ? ? ? ? ? [? ? ? ? ? ?] ? ? ?].
  reflexivity.
Qed.

(** An upsert that returned changes nothing when it is made again: the
    same attendance, grade or fee request on the world it left returns the
    same message and leaves that world as it is. *)
Theorem upserts_idempotent (w w' : world) (msg : string) :
  (forall att,
     update_attendance att w = (w', Ok msg) -> update_attendance att w' = (w', Ok msg)) /\
  (forall grade,
     update_grade grade w = (w', Ok msg) -> update_grade grade w' = (w', Ok msg)) /\
  (forall fee,
     update_fees fee w = (w', Ok msg) -> update_fees fee w' = (w', Ok msg)).
Proof.
  split; [|split].
  - intros att H.
    destruct (update_attendance_returns _ _ _ _ H) as (student & percent & overall & Hs & Hp & Ho).
    rewrite (update_attendance_result w att student percent overall Hs Hp Ho) in H.
    injection H as <- <-.
    erewrite (update_attendance_result _ att _ percent overall);
      [|apply lookup_put_student|exact Hp|].
    + rewrite saved_put_saved, put_student_twice.
      destruct student as [? ? ? ? ? ? ? ? ? ? ? ? [? ? ? ? subs] ? ? ? ? ? ? ?].
      unfold Student.with_attendance. simpl. now rewrite dict_set_set.
    + destruct student as [? ? ? ? ? ? ? ? ? ? ? ? [? ? ? ? subs] ? ? ? ? ? ? ?].
      simpl in *. rewrite dict_set_set. exact Ho.
  - intros grade H.
    destruct (update_grade_returns _ _ _ _ H) as (student & points & sgpa & Hs & Hp & Hv).
    rewrite (update_grade_result w grade student points sgpa Hs Hp Hv) in H.
    injection H as <- <-.
    erewrite (update_grade_result _ grade _ points sgpa);
      [|apply lookup_put_student| |].
    + rewrite saved_put_saved, put_student_twice.
      destruct student as [? ? ? ? ? ? ? ? ? ? ? ? ? [sem ? ? ? ?] ? ? ? ? ? ?].
      unfold Student.with_grades. simpl. now rewrite dict_set_set.
    + destruct student as [? ? ? ? ? ? ? ? ? ? ? ? ? [sem ? ? ? ?] ? ? ? ? ? ?].
      simpl in *. rewrite dict_set_set. exact Hp.
    + destruct student as [? ? ? ? ? ? ? ? ? ? ? ? ? [sem ? ? ? ?] ? ? ? ? ? ?].
      simpl in *. rewrite dict_set_set. exact Hv.
  - intros fee H.
    destruct (Store.students (DATA w) !! lower (FeeUpdate.student_key fee))
      as [student|] eqn:Hs.
    2:{ exfalso. revert H. unfold update_fees. cbv zeta.
        erewrite run_bind_raise by (apply find_student_missing; eassumption). discriminate. }
    rewrite (update_fees_found _ _ _ Hs) in H. injection H as <- <-.
    erewrite update_fees_found by apply lookup_put_student.
    rewrite saved_put_saved, put_student_twice.
    destruct student as [? ? ? ? ? ? ? ? ? ? ? ? ? ? ? ? [? ? ? ? ? ?] ? ? ?].
    reflexivity.
Qed.

(** ** Payments in a row *)

Lemma add_payment_found now w student_key amount mode student :
  Store.students (DATA w) !! lower student_key = Some student ->
  let fees := Student.fees student in
  (add_payment now student_key amount mode w).1
  = saved (put_student (lower student_key)
             (Student.with_fees
                 (Fees.mk (Fees.total_fee fees) (Fees.paid fees + amount)
                    (Fees.total_fee fees - (Fees.paid fees + amount)) (Fees.due_date fees)
                    (Fees.payment_history fees ++
                       [Payment.mk (Clock.date_d_b_Y now) amount mode
                          ("REC" +:+
                             Str.format_0d 3
                               (Z.of_nat (length (Fees.payment_history fees)) + 1))])
                    (Fees.breakdown fees))
                 student) w).
Proof.
  intros Hs fees. unfold add_payment. cbv zeta. do 5 step.
  destruct student as [? ? ? ? ? ? ? ? ? ? ? ? ? ? ? ? [? ? ? ? ? ?] ? ? ?].
  reflexivity.
Qed.

Lemma payments_from (now : Clock.t) (student_key mode : string) (amounts : list Z) :
  forall (w : world) (student : Student.t),
    Store.students (DATA w) !! lower student_key = Some student ->
    exists student',
      Store.students
        (DATA (after_calls (map (fun amount => add_payment now student_key amount mode) amounts) w))
        !! lower student_key = Some student' /\
      Fees.total_fee (Student.fees student') = Fees.total_fee (Student.fees student) /\
      Fees.paid (Student.fees student') = Fees.paid (Student.fees student) + py_sum amounts /\
      map Payment.amount (Fees.payment_history (Student.fees student'))
      = map Payment.amount (Fees.payment_history (Student.fees student)) ++ amounts /\
      map Payment.receipt (Fees.payment_history (Student.fees student'))
      = map Payment.receipt (Fees.payment_history (Student.fees student)) ++
        map (fun i => "REC" +:+ Str.format_0d 3 (Z.of_nat i))
          (seq (S (length (Fees.payment_history (Student.fees student)))) (length amounts)) /\
      (amounts <> [] \/
       Fees.pending (Student.fees student)
       = Fees.total_fee (Student.fees student) - Fees.paid (Student.fees student) ->
       Fees.pending (Student.fees student')
       = Fees.total_fee (Student.fees student') - Fees.paid (Student.fees student')).
Proof.
  induction amounts as [|amount amounts IH]; intros w student Hs.
  - exists student. simpl. rewrite !app_nil_r. unfold py_sum. simpl.
    repeat split; try assumption; try lia. intros [H|H]; congruence.
  - unfold after_calls. cbn [map fold_left].
    rewrite (add_payment_found now w student_key amount mode student Hs).
    match goal with
    | |- context [put_student _ ?s w] => set (student1 := s)
    end.
    destruct (IH (saved (put_student (lower student_key) student1 w)) student1
                (lookup_put_student _ _ _)) as (student' & Hl & Ht & Hp & Ha & Hr & Hpend).
    exists student'. split; [exact Hl|].
    specialize (Hpend (or_intror eq_refl)).
    destruct student as [? ? ? ? ? ? ? ? ? ? ? ? ? ? ? ? [tf pd pn dd hist bd] ? ? ?].
    simpl in Ht, Hp, Ha, Hr, Hpend |- *.
    rewrite Ht, Hp, Ha, Hr.
    rewrite !map_app, !length_app, py_sum_cons, <- !app_assoc. simpl.
    rewrite Nat.add_1_r.
    split; [reflexivity|]. split; [lia|]. split; [reflexivity|]. split.
    + do 4 f_equal. lia.
    + intros _. rewrite Hpend, Ht, Hp. reflexivity.
Qed.

(** Payments made one after the other on an existing record add up: [paid]
    grows by their sum, [total_fee] stays, the history grows by one entry
    for each payment, in their order, with receipts numbered on from the
    length the history had, and after at least one payment [pending] is
    [total_fee - paid]. *)
Theorem payments_add_up
    (now : Clock.t) (student_key mode : string) (amounts : list Z)
    (w : world) (student : Student.t) :
  Store.students (DATA w) !! lower student_key = Some student ->
  let calls := map (fun amount => add_payment now student_key amount mode) amounts in
  exists student',
    Store.students (DATA (after_calls calls w)) !! lower student_key = Some student' /\
    Fees.total_fee (Student.fees student') = Fees.total_fee (Student.fees student) /\
    Fees.paid (Student.fees student') = Fees.paid (Student.fees student) + py_sum amounts /\
    map Payment.amount (Fees.payment_history (Student.fees student'))
    = map Payment.amount (Fees.payment_history (Student.fees student)) ++ amounts /\
    map Payment.receipt (Fees.payment_history (Student.fees student'))
    = map Payment.receipt (Fees.payment_history (Student.fees student)) ++
      map (fun i => "REC" +:+ Str.format_0d 3 (Z.of_nat i))
        (seq (S (length (Fees.payment_history (Student.fees student)))) (length amounts)) /\
    (amounts <> [] ->
     Fees.pending (Student.fees student')
     = Fees.total_fee (Student.fees student') - Fees.paid (Student.fees student')).
Proof.
  intros Hs calls.
  destruct (payments_from now student_key mode amounts w student Hs)
    as (student' & Hl & Ht & Hp & Ha & Hr & Hpend).
  exists student'. repeat (split; [assumption|]). intros Hne. apply Hpend. now left.
Qed.

(** ** The voice path and the timetable *)

(** [get_day_from_text] answers, for every text and clock, with the key of
    a weekday, one of the seven names of [days], and the capitalized form
    the replies print is that weekday's name. *)
Theorem get_day_from_text_is_a_day (now : Clock.t) (text : string) :
  exists d,
    get_day_from_text now text = Weekday.key d /\
    In (Weekday.key d) days /\
    Str.capitalize (Weekday.key d) = Weekday.full_name d.
Proof.
  assert (Hkey : forall d, In (Weekday.key d) days /\
                           Str.capitalize (Weekday.key d) = Weekday.full_name d).
  { intros d. split; [|destruct d; reflexivity]. destruct d; simpl; tauto. }
  unfold get_day_from_text.
  destruct (Str.contains "today" (lower text)).
  { exists (Clock.weekday now). split; [apply lower_full_name|apply Hkey]. }
  destruct (Str.contains "tomorrow" (lower text)).
  { exists (Weekday.next (Clock.weekday now)). split; [apply day_after_index|apply Hkey]. }
  destruct (List.find _ days) as [day|] eqn:Hfind.
  - apply List.find_some in Hfind. destruct Hfind as [Hin _].
    assert (Hd : exists d, day = Weekday.key d).
    { simpl in Hin.
      destruct Hin as [<-|[<-|[<-|[<-|[<-|[<-|[<-|[]]]]]]]];
        [exists Weekday.Monday|exists Weekday.Tuesday|exists Weekday.Wednesday
        |exists Weekday.Thursday|exists Weekday.Friday|exists Weekday.Saturday
        |exists Weekday.Sunday]; reflexivity. }
    destruct Hd as [d ->]. exists d. split; [reflexivity|apply Hkey].
  - exists (Clock.weekday now). split; [apply lower_full_name|apply Hkey].
Qed.

(** [process] never writes: for every query, whatever it returns, it
    leaves the file as it was and [DATA] as the document of the file; and
    for a caller without a record, or a text classified as attendance,
    timetable, help, greeting or unknown, it returns a reply. *)
Theorem process_only_reloads (now : Clock.t) (query : UserQuery.t) (w : world) :
  (process now query w).1 = reloaded w /\
  (Store.students (file w) !! lower (UserQuery.user query) = None \/
   In (detect_intent (lower (UserQuery.text query)))
     [Intent.attendance; Intent.timetable; Intent.help; Intent.greet; Intent.unknown] ->
   exists reply, process now query w = (reloaded w, Ok reply)).
Proof.
  unfold process.
  erewrite run_bind by reflexivity.
  erewrite run_bind by reflexivity.
  erewrite run_bind by reflexivity.
  cbn [DATA].
  destruct (Store.students (file w) !! lower (UserQuery.user query)) as [student|].
  2:{ split; [reflexivity|]. intros _. eexists. reflexivity. }
  split.
  - destruct (detect_intent _); try reflexivity.
    destruct (Dict.get _ _); reflexivity.
  - intros [Hnone|Hin]; [discriminate|].
    destruct (detect_intent _); simpl in Hin;
      try (exfalso; intuition discriminate); try (eexists; reflexivity).
    destruct (Dict.get _ _); eexists; reflexivity.
Qed.

Lemma add_class_run w day time course room professor class_type :
  let key := lower day in
  let classes := default [] (Dict.get key (Store.timetable (DATA w))) in
  add_class day time course room professor class_type w
  = (saved
       (World
          (Store.with_timetable
             (Dict.set key (classes ++ [ClassSlot.mk time course room professor class_type])
                (Store.timetable (DATA w)))
             (DATA w))
          (file w)),
     Ok ("Class added to " +:+ key)).
Proof.
  intros key classes. unfold add_class. fold key.
  rewrite (run_bind _ _ w w (DATA w)) by reflexivity.
  unfold classes, Dict.mem.
  destruct (Dict.get key (Store.timetable (DATA w))) as [old|] eqn:Hget.
  - erewrite run_bind by reflexivity.
    erewrite run_bind by reflexivity.
    rewrite Hget. reflexivity.
  - erewrite run_bind by reflexivity.
    erewrite run_bind by reflexivity.
    cbn [DATA Store.timetable Store.with_timetable].
    rewrite dict_get_set_eq, dict_set_set. reflexivity.
Qed.

(** [add_class] takes any text as a day: the class goes to the end of the
    list under the lowercased day, which is created when the day had none;
    the other days and the student records stay, and the timetable is
    saved. A timetable query that resolves to that day is then answered
    with the listing of the list, the new class last. *)
Theorem add_class_is_listed
    (w : world) (day time course room professor class_type : string) :
  let key := lower day in
  let classes :=
    default [] (Dict.get key (Store.timetable (DATA w))) ++
      [ClassSlot.mk time course room professor class_type] in
  exists w',
    add_class day time course room professor class_type w
    = (w', Ok ("Class added to " +:+ key)) /\
    file w' = DATA w' /\
    Dict.get key (Store.timetable (DATA w')) = Some classes /\
    (forall day', day' <> key ->
       Dict.get day' (Store.timetable (DATA w'))
       = Dict.get day' (Store.timetable (DATA w))) /\
    Store.students (DATA w') = Store.students (DATA w) /\
    Store.notices (DATA w') = Store.notices (DATA w) /\
    (forall now query student,
       Store.students (DATA w) !! lower (UserQuery.user query) = Some student ->
       detect_intent (lower (UserQuery.text query)) = Intent.timetable ->
       get_day_from_text now (lower (UserQuery.text query)) = key ->
       process now query w' = (w', Ok (strip (timetable_listing key classes)))).
Proof.
  intros key classes. eexists. split; [apply add_class_run|].
  fold key. split; [reflexivity|]. split; [apply dict_get_set_eq|].
  split; [intros day' Hne; apply dict_get_set_ne; congruence|].
  split; [reflexivity|]. split; [reflexivity|].
  intros now query student Hs Hi Hd. unfold process.
  erewrite run_bind by reflexivity.
  erewrite run_bind by reflexivity.
  erewrite run_bind by reflexivity.
  cbn [DATA file saved Store.students Store.with_timetable Store.timetable].
  rewrite Hs, Hi, Hd, dict_get_set_eq. reflexivity.
Qed.

(** A day whose key the timetable does not have is answered with the
    sentence that no classes are scheduled, under the name of the day; a
    day whose list is empty is answered with the bare heading. *)
Theorem timetable_reply_without_classes
    (now : Clock.t) (query : UserQuery.t) (w : world) (student : Student.t) :
  let day := get_day_from_text now (lower (UserQuery.text query)) in
  Store.students (file w) !! lower (UserQuery.user query) = Some student ->
  detect_intent (lower (UserQuery.text query)) = Intent.timetable ->
  (Dict.get day (Store.timetable (file w)) = None ->
   process now query w
   = (reloaded w, Ok ("ğŸ“… No classes scheduled for " +:+ Str.capitalize day +:+ "."))) /\
  (Dict.get day (Store.timetable (file w)) = Some [] ->
   process now query w
   = (reloaded w,
      Ok (strip ("ğŸ“… Timetable for " +:+ Str.capitalize day +:+ ":" +:+
                 Str.nl +:+ Str.nl)))).
Proof.
  intros day Hs Hi. unfold process.
  erewrite run_bind by reflexivity.
  erewrite run_bind by reflexivity.
  erewrite run_bind by reflexivity.
  cbn [DATA]. rewrite Hs, Hi. fold day.
  split; intros ->; reflexivity.
Qed.

(** ** Orders *)

Lemma place_order_found now minute_second order w student :
  Store.students (DATA w) !! lower (CafeteriaOrder.student_key order) = Some student ->
  let new_order :=
    JDict
      [("id", JStr ("ORD" +:+ minute_second));
       ("items", JList (map JStr (CafeteriaOrder.items order)));
       ("total", JNum (Py.Int (CafeteriaOrder.total_amount order)));
       ("status", JStr "Preparing");
       ("date", JStr (Clock.date_d_b_Y now))] in
  place_order now minute_second order w
  = (saved (put_student (lower (CafeteriaOrder.student_key order))
              (Student.with_cafeteria_orders
                 (Some (new_order :: default [] (Student.cafeteria_orders student)))
                 student) w),
     Ok ("Order placed successfully", new_order)).
Proof.
  intros Hs new_order. unfold place_order. cbv zeta. step. step.
  destruct (Student.cafeteria_orders student) as [orders|] eqn:Ho.
  - erewrite run_bind by reflexivity. step. step.
    destruct student. simpl in *. subst. reflexivity.
  - step. step. step.
    destruct student. simpl in *. subst. reflexivity.
Qed.

(** An order placed for an existing student is stored first in the list of
    the student's orders, with the status [Preparing] and the id [ORD] and
    the minute and second of the clock, and [get_my_orders] then returns it
    ahead of the orders the student had; a student without the list gets
    one. The record is saved. *)
Theorem placed_order_comes_first
    (now : Clock.t) (minute_second : string) (order : CafeteriaOrder.t)
    (w : world) (student : Student.t) :
  Store.students (DATA w) !! lower (CafeteriaOrder.student_key order) = Some student ->
  exists new_order student' w',
    place_order now minute_second order w = (w', Ok ("Order placed successfully", new_order)) /\
    w' = saved (put_student (lower (CafeteriaOrder.student_key order)) student' w) /\
    Student.with_cafeteria_orders (Student.cafeteria_orders student') student = student' /\
    Student.cafeteria_orders student'
    = Some (new_order :: default [] (Student.cafeteria_orders student)) /\
    get_my_orders (CafeteriaOrder.student_key order) w'
    = (w', Ok (new_order :: default [] (Student.cafeteria_orders student))) /\
    Dict.get "id" (match new_order with JDict d => d | _ => [] end)
    = Some (JStr ("ORD" +:+ minute_second)) /\
    Dict.get "status" (match new_order with JDict d => d | _ => [] end)
    = Some (JStr "Preparing") /\
    Dict.get "total" (match new_order with JDict d => d | _ => [] end)
    = Some (JNum (Py.Int (CafeteriaOrder.total_amount order))).
Proof.
  intros Hs. eexists. eexists. eexists.
  split; [apply (place_order_found _ _ _ _ _ Hs)|].
  split; [reflexivity|].
  split; [destruct student; reflexivity|].
  split; [destruct student; reflexivity|].
  split; [|repeat split].
  unfold get_my_orders. cbv zeta.
  erewrite run_bind by reflexivity.
  cbn [DATA saved]. rewrite lookup_put_student.
  destruct student; reflexivity.
Qed.

(** ** Admin sessions *)

(** [admin_login] succeeds for the user [admin] with the password
    [admin123], and for nothing else: it then records a session under the
    drawn token and returns that token; any other pair of texts raises the
    401 and leaves the sessions as they were. *)
Theorem admin_login_checks_credentials
    (token login_time : string) (credentials : AdminLogin.t) (sessions : admin_sessions) :
  (AdminLogin.username credentials = "admin" /\ AdminLogin.password credentials = "admin123" ->
   admin_login token login_time credentials sessions
   = (<[token := Session.mk "admin" login_time]> sessions,
      Ok (LoginReply.mk true "Login successful" token "admin"))) /\
  (~ (AdminLogin.username credentials = "admin" /\
      AdminLogin.password credentials = "admin123") ->
   admin_login token login_time credentials sessions
   = (sessions, Raise (HTTPException 401 "Invalid username or password"))).
Proof.
  destruct credentials as [username password]. unfold admin_login. simpl. split.
  - intros [-> ->]. reflexivity.
  - intros Hno. destruct (String.eqb_spec username "admin") as [->|Hu]; [|reflexivity].
    destruct (String.eqb_spec "admin123" password) as [<-|Hp]; [|reflexivity].
    exfalso. apply Hno. split; reflexivity.
Qed.

(** After a login that succeeded, the token it returned verifies as the
    user who logged in, until [admin_logout] is called with it; login and
    logout change the verdict on no other token, and a logout with a token
    that has no session changes nothing and still reports success. *)
Theorem admin_session_lifecycle
    (token login_time : string) (credentials : AdminLogin.t)
    (sessions sessions' : admin_sessions) (reply : LoginReply.t) :
  admin_login token login_time credentials sessions = (sessions', Ok reply) ->
  LoginReply.token reply = token /\
  verify_admin token sessions' = Verified.valid (AdminLogin.username credentials) /\
  verify_admin token (admin_logout token sessions').1 = Verified.invalid /\
  (admin_logout token sessions').2 = (true, "Logged out successfully") /\
  (forall other, other <> token ->
     verify_admin other sessions' = verify_admin other sessions /\
     verify_admin other (admin_logout token sessions').1 = verify_admin other sessions) /\
  (forall other, sessions' !! other = None ->
     admin_logout other sessions' = (sessions', (true, "Logged out successfully"))).
Proof.
  intros H. unfold admin_login in H.
  destruct (Dict.get _ ADMIN_CREDENTIALS) as [password|]; [|discriminate].
  destruct (String.eqb password _); [|discriminate].
  injection H as <- <-.
  unfold verify_admin, admin_logout, admin_sessions in *. cbn [fst snd LoginReply.token].
  rewrite lookup_insert_eq. cbn [Session.username].
  rewrite lookup_delete_eq.
  split; [reflexivity|]. split; [reflexivity|]. split; [reflexivity|]. split; [reflexivity|].
  split.
  - intros other Hne.
    rewrite lookup_delete_ne, lookup_insert_ne by congruence. split; reflexivity.
  - intros other ->. reflexivity.
Qed.

(** ** Keywords behind earlier rules *)

Ltac earlier_rule word :=
  repeat match goal with
  | |- In (if ?b then _ else _) _ =>
      let E := fresh "E" in
      destruct b eqn:E; [simpl; tauto|];
      try (exfalso; rewrite any_in_none in E;
           match goal with
           | H : Str.contains word _ = true |- _ =>
               rewrite (E word) in H; [discriminate|simpl; tauto]
           end)
  end.

(** The rules are tried in order, so a keyword also decides for the texts
    that hold a keyword of a later rule: a text with [book] in it, such as
    the [Book an appointment] the faculty reply suggests, is classified by
    the library rule or an earlier one, never as faculty; so is a text with
    [due] in it, so that [dues] never leads to the fees; and a text with
    [professor] or [teacher] in it is classified by the courses rule or an
    earlier one, never as faculty. *)
Theorem earlier_rules_take_the_text (text : string) :
  let t := lower text in
  let to_library :=
    [Intent.attendance; Intent.timetable; Intent.exams; Intent.grades; Intent.library] in
  let to_courses := to_library ++ [Intent.fees; Intent.notices; Intent.courses] in
  (Str.contains "book" t = true -> In (detect_intent text) to_library) /\
  (Str.contains "due" t = true -> In (detect_intent text) to_library) /\
  (Str.contains "dues" t = true -> In (detect_intent text) to_library) /\
  (Str.contains "professor" t = true -> In (detect_intent text) to_courses) /\
  (Str.contains "teacher" t = true -> In (detect_intent text) to_courses).
Proof.
  intros t to_library to_courses.
  assert (Hdues : Str.contains "dues" t = true -> Str.contains "due" t = true).
  { apply contains_trans. reflexivity. }
  unfold to_courses, to_library, detect_intent. fold t.
  split; [|split; [|split; [|split]]].
  - intros H. earlier_rule "book".
  - intros H. earlier_rule "due".
  - intros H. apply Hdues in H. earlier_rule "due".
  - intros H. earlier_rule "professor".
  - intros H. earlier_rule "teacher".
Qed.

(** ** Notices *)

Lemma create_notice_run now notice w :
  let new_notice :=
    JDict
      [("id", JNum (Py.Int (Z.of_nat (length (Store.notices (DATA w))) + 1)));
       ("title", JStr (NoticeCreate.title notice));
       ("content", JStr (NoticeCreate.content notice));
       ("type", JStr (NoticeCreate.notice_type notice));
       ("date", JStr (Clock.date_d_b_Y now));
       ("author", JStr (NoticeCreate.author notice));
       ("time_ago", JStr "Just now")] in
  create_notice now notice w
  = (saved (World (Store.with_notices (new_notice :: Store.notices (DATA w)) (DATA w)) (file w)),
     Ok ("Notice created", new_notice)).
Proof.
  intros new_notice. unfold create_notice.
  rewrite (run_bind _ _ w w (DATA w)) by reflexivity. reflexivity.
Qed.

Lemma keep_notices_all notice_id notices :
  Forall (fun n => notice_id_differs n notice_id = inr true) notices ->
  keep_notices notice_id notices = inr notices.
Proof.
  induction 1 as [|n notices Hn _ IH]; simpl; [reflexivity|].
  now rewrite Hn, IH.
Qed.

Lemma keep_notices_kept notice_id notices kept :
  keep_notices notice_id notices = inr kept ->
  Forall (fun n => notice_id_differs n notice_id = inr true) kept /\
  (length kept <= length notices)%nat.
Proof.
  revert kept. induction notices as [|n notices IH]; simpl; intros kept H.
  - injection H as <-. split; [constructor|reflexivity].
  - destruct (notice_id_differs n notice_id) as [e|keep] eqn:Hn; [discriminate|].
    destruct (keep_notices notice_id notices) as [e|kept'] eqn:Hk; [discriminate|].
    destruct (IH kept' eq_refl) as [Hall Hlen].
    injection H as <-. destruct keep; simpl.
    + split; [constructor; assumption|lia].
    + split; [assumption|lia].
Qed.


(** The id of a new notice counts the notices, so ids come back: when a
    notice is created, then a second, then the first is deleted by its id,
    the next notice created gets the id of the second, and both are in the
    list. *)
Theorem notice_ids_are_reused (now : Clock.t) (a b c : NoticeCreate.t) (w : world) :
  let notices := Store.notices (DATA w) in
  let n := Z.of_nat (length notices) in
  let w1 := (create_notice now a w).1 in
  let w2 := (create_notice now b w1).1 in
  let w3 := (delete_notice (n + 1) w2).1 in
  let w4 := (create_notice now c w3).1 in
  Forall (fun x => notice_id_differs x (n + 1) = inr true) notices ->
  exists notice_c notice_b,
    (delete_notice (n + 1) w2).2 = inr "Notice deleted" /\
    Store.notices (DATA w4) = notice_c :: notice_b :: notices /\
    notice_id notice_c = Some (n + 2) /\
    notice_id notice_b = Some (n + 2) /\
    (match notice_c with JDict d => Dict.get "title" d | _ => None end)
    = Some (JStr (NoticeCreate.title c)) /\
    (match notice_b with JDict d => Dict.get "title" d | _ => None end)
    = Some (JStr (NoticeCreate.title b)).
Proof.
  intros notices n w1 w2 w3 w4 Hold.
  assert (H1 : Store.notices (DATA w1) = _ :: notices)
    by (unfold w1; rewrite create_notice_run; reflexivity).
  assert (H2 : Store.notices (DATA w2) = _ :: Store.notices (DATA w1))
    by (unfold w2; rewrite create_notice_run; reflexivity).
  set (notice_b :=
         JDict
           [("id", JNum (Py.Int (n + 2)));
            ("title", JStr (NoticeCreate.title b));
            ("content", JStr (NoticeCreate.content b));
            ("type", JStr (NoticeCreate.notice_type b));
            ("date", JStr (Clock.date_d_b_Y now));
            ("author", JStr (NoticeCreate.author b));
            ("time_ago", JStr "Just now")]).
  assert (Hkeep : keep_notices (n + 1) (Store.notices (DATA w2)) = inr (notice_b :: notices)).
  { rewrite H2, H1. cbn [keep_notices notice_id_differs Dict.get String.eqb Ascii.eqb
                         Bool.eqb json_eq_int length].
    rewrite (keep_notices_all _ _ Hold). fold notices.
    rewrite Nat2Z.inj_succ. fold n.
    replace (Z.succ n + 1 =? n + 1) with false by (symmetry; apply Z.eqb_neq; lia).
    replace (n + 1 =? n + 1) with true by (symmetry; apply Z.eqb_refl).
    cbn [negb]. replace (Z.succ n + 1) with (n + 2) by lia. reflexivity. }
  assert (H3 : Store.notices (DATA w3) = notice_b :: notices /\
               (delete_notice (n + 1) w2).2 = inr "Notice deleted").
  { unfold w3, delete_notice. rewrite Hkeep. split; reflexivity. }
  destruct H3 as [H3 Hmsg].
  set (notice_c :=
         JDict
           [("id", JNum (Py.Int (n + 2)));
            ("title", JStr (NoticeCreate.title c));
            ("content", JStr (NoticeCreate.content c));
            ("type", JStr (NoticeCreate.notice_type c));
            ("date", JStr (Clock.date_d_b_Y now));
            ("author", JStr (NoticeCreate.author c));
            ("time_ago", JStr "Just now")]).
  assert (H4 : Store.notices (DATA w4) = notice_c :: notice_b :: notices).
  { unfold w4. rewrite create_notice_run.
    cbn [fst saved DATA Store.notices Store.with_notices]. rewrite H3.
    cbn [length]. rewrite Nat2Z.inj_succ. fold n.
    replace (Z.succ n + 1) with (n + 2) by lia. reflexivity. }
  exists notice_c, notice_b. repeat split; assumption || reflexivity.
Qed.

(** ** Binary64 arithmetic below a bound *)

Lemma shr_1_even k :
  0 <= k -> shr_1 (Build_shr_record (2 * k) false false) = Build_shr_record k false false.
Proof. intros Hk. destruct k as [|p|p]; [reflexivity|reflexivity|lia]. Qed.

(** A shift that drops zero bits only stays exact. *)
Lemma iter_shr_1_exact n : forall k,
  0 <= k ->
  SpecFloat.iter_pos shr_1 n (Build_shr_record (2 ^ Z.pos n * k) false false)
  = Build_shr_record k false false.
Proof.
  induction n as [n IH|n IH|]; intros k Hk; cbn [SpecFloat.iter_pos].
  - replace (2 ^ Z.pos n~1 * k) with (2 * (2 ^ Z.pos n * (2 ^ Z.pos n * k))).
    + assert (0 <= 2 ^ Z.pos n * k) by (apply Z.mul_nonneg_nonneg; [apply Z.pow_nonneg|]; lia).
      rewrite shr_1_even by (apply Z.mul_nonneg_nonneg; [apply Z.pow_nonneg|]; lia).
      rewrite IH by assumption. now apply IH.
    + replace (Z.pos n~1) with (1 + Z.pos n + Z.pos n) by lia.
      rewrite !Z.pow_add_r by lia. rewrite Z.pow_1_r. ring.
  - replace (2 ^ Z.pos n~0 * k) with (2 ^ Z.pos n * (2 ^ Z.pos n * k)).
    + assert (0 <= 2 ^ Z.pos n * k) by (apply Z.mul_nonneg_nonneg; [apply Z.pow_nonneg|]; lia).
      rewrite IH by assumption. now apply IH.
    + replace (Z.pos n~0) with (Z.pos n + Z.pos n) by lia.
      rewrite Z.pow_add_r by lia. ring.
  - rewrite Z.pow_1_r. now apply shr_1_even.
Qed.

(** [shr_fexp] on an exact mantissa whose dropped bits are zeros. *)
Lemma shr_fexp_exact m e k :
  0 <= k ->
  snd (shr_fexp Py.prec Py.emax m e loc_Exact) = e + k ->
  (exists b, 0 <= b /\ m = 2 ^ k * b) ->
  loc_of_shr_record (fst (shr_fexp Py.prec Py.emax m e loc_Exact)) = loc_Exact.
Proof.
  intros Hk He (b & Hb & ->). unfold shr_fexp, shr in *.
  destruct (fexp Py.prec Py.emax (Zdigits2 (2 ^ k * b) + e) - e) as [|n|n] eqn:En;
    cbn [fst snd] in *; try reflexivity.
  assert (k = Z.pos n) by lia. subst k.
  cbn [shr_record_of_loc]. now rewrite iter_shr_1_exact.
Qed.

Lemma pow2_split a b : 0 <= a -> 0 <= b -> 2 ^ (a + b) = 2 ^ a * 2 ^ b.
Proof. intros. now apply Z.pow_add_r. Qed.

(** A rounding is monotone at a bound it can represent: an integer [N] of
    at most 53 digits that the value, with what its location adds, does
    not exceed is not exceeded by the rounded float either, and the
    rounding is a zero or finite. *)
Lemma binary_round_aux_le s mx ex lx N :
  0 <= mx -> ex <= 0 -> 0 < N -> Zdigits2 N <= 53 ->
  mx <= N * 2 ^ (- ex) ->
  (lx <> loc_Exact -> mx < N * 2 ^ (- ex)) ->
  match binary_round_aux Py.prec Py.emax s mx ex lx with
  | S754_zero s' => s' = s
  | S754_finite s' m e => s' = s /\ e <= 0 /\ Z.pos m <= N * 2 ^ (- e)
  | _ => False
  end.
Proof.
  intros Hm Hex HN HdN Hle Hstrict. unfold binary_round_aux.
  destruct (shr_fexp_spec mx ex lx Hm) as [He1 Hm1].
  assert (Hdx : Zdigits2 mx + ex <= Zdigits2 N).
  { assert (Zdigits2 mx <= Zdigits2 (N * 2 ^ (- ex))) by (apply digits_mono; lia).
    rewrite digits_mul_pow2 in H by lia. lia. }
  destruct (shr_fexp Py.prec Py.emax mx ex lx) as [mrs1 e1] eqn:E1.
  cbn [fst snd] in He1, Hm1. rewrite fexp_value in He1.
  assert (He1' : ex <= e1 <= 0) by lia.
  set (k := e1 - ex) in *.
  set (B1 := N * 2 ^ (- e1)).
  assert (Hpk : 0 < 2 ^ k) by (apply Z.pow_pos_nonneg; lia).
  assert (Hp1 : 0 < 2 ^ (- e1)) by (apply Z.pow_pos_nonneg; lia).
  assert (HB : N * 2 ^ (- ex) = 2 ^ k * B1).
  { unfold B1, k. replace (- ex) with (- e1 + (e1 - ex)) by lia.
    rewrite pow2_split by lia. ring. }
  assert (Hm1pos : 0 <= shr_m mrs1) by (rewrite Hm1; apply Z.div_pos; lia).
  assert (Hm1le : shr_m mrs1 <= B1).
  { rewrite Hm1. apply Z.div_le_upper_bound; lia. }
  set (m1 := round_nearest_even (shr_m mrs1) (loc_of_shr_record mrs1)).
  assert (Hr : shr_m mrs1 <= m1 <= shr_m mrs1 + 1) by apply round_nearest_even_bounds.
  assert (Hm1B : m1 <= B1).
  { destruct (Z.eq_dec (shr_m mrs1) B1) as [Heq|Hne]; [|lia].
    assert (Hmx : mx = 2 ^ k * B1).
    { pose proof (Z.mul_div_le mx (2 ^ k) Hpk) as Hd. rewrite <- Hm1, Heq in Hd. lia. }
    destruct lx as [|c]; [|exfalso; specialize (Hstrict ltac:(discriminate)); lia].
    pose proof (shr_fexp_exact mx ex k ltac:(lia)) as Hloc.
    rewrite E1 in Hloc. cbn [fst snd] in Hloc.
    unfold m1. rewrite Hloc; [simpl; lia|unfold k; lia|].
    exists B1. split; [unfold B1; lia|exact Hmx]. }
  destruct (shr_fexp_spec m1 e1 loc_Exact ltac:(lia)) as [He2 Hm2].
  assert (Hd1 : Zdigits2 m1 + e1 <= Zdigits2 N).
  { assert (Zdigits2 m1 <= Zdigits2 B1) by (apply digits_mono; lia).
    unfold B1 in H. rewrite digits_mul_pow2 in H by lia. lia. }
  destruct (shr_fexp Py.prec Py.emax m1 e1 loc_Exact) as [mrs2 e2].
  cbn [fst snd] in He2, Hm2. rewrite fexp_value in He2.
  assert (He2' : e1 <= e2 <= 0) by lia.
  assert (Hp2 : 0 < 2 ^ (e2 - e1)) by (apply Z.pow_pos_nonneg; lia).
  assert (HB2 : B1 = 2 ^ (e2 - e1) * (N * 2 ^ (- e2))).
  { unfold B1. replace (- e1) with (- e2 + (e2 - e1)) by lia.
    rewrite pow2_split by lia. ring. }
  assert (Hm2le : shr_m mrs2 <= N * 2 ^ (- e2)).
  { rewrite Hm2. apply Z.div_le_upper_bound; lia. }
  assert (Hm2pos : 0 <= shr_m mrs2) by (rewrite Hm2; apply Z.div_pos; lia).
  destruct (shr_m mrs2) as [|m2|m2]; [reflexivity| |lia].
  destruct (Z.leb_spec e2 (Py.emax - Py.prec)) as [_|Hgt].
  - repeat split; lia.
  - unfold Py.emax, Py.prec in Hgt. lia.
Qed.

Lemma new_location_exact nb_steps r :
  new_location nb_steps r <> loc_Exact -> r <> 0.
Proof.
  intros H ->. apply H. unfold new_location, new_location_even, new_location_odd.
  destruct (Z.even nb_steps); reflexivity.
Qed.

(** The quotient of two [int]s, the first not above the second, is a float
    from 0 to 1. *)
Lemma int_truediv_le_1 present total :
  0 <= present <= total -> 0 < total ->
  exists f,
    Py.int_truediv present total = Ok f /\
    match f with
    | S754_zero _ => True
    | S754_finite s m e => s = false /\ e <= 0 /\ Z.pos m <= 1 * 2 ^ (- e)
    | _ => False
    end.
Proof.
  intros Hp Ht. unfold Py.int_truediv.
  destruct (Z.eqb_spec total 0) as [|_]; [lia|].
  destruct (Z.eqb_spec present 0) as [|Hne]; [eexists; split; [reflexivity|exact I]|].
  replace (present <? 0) with false by (symmetry; apply Z.ltb_ge; lia).
  replace (total <? 0) with false by (symmetry; apply Z.ltb_ge; lia).
  rewrite (Z.abs_eq present), (Z.abs_eq total) by lia.
  unfold SFdiv_core_binary.
  set (e := Z.min (fexp Py.prec Py.emax (Zdigits2 present + 0 - (Zdigits2 total + 0))) (0 - 0)).
  set (m' := match 0 - 0 - e with
             | 0 => present
             | Z.pos _ => Z.shiftl present (0 - 0 - e)
             | Z.neg _ => 0
             end).
  destruct (Z.div_eucl m' total) as [q r] eqn:Ediv.
  assert (He : e <= 0) by (unfold e; lia).
  assert (Hm' : m' = present * 2 ^ (- e)).
  { unfold m'. destruct (0 - 0 - e) as [|j|j] eqn:Ej.
    - replace (- e) with 0 by lia. lia.
    - rewrite Z.shiftl_mul_pow2 by lia. f_equal. f_equal. lia.
    - lia. }
  assert (Hpe : 0 < 2 ^ (- e)) by (apply Z.pow_pos_nonneg; lia).
  pose proof (Z_div_mod m' total ltac:(lia)) as Hdm. rewrite Ediv in Hdm.
  destruct Hdm as [Hdm Hr].
  assert (Hq0 : 0 <= q) by nia.
  assert (Hqle : q <= 1 * 2 ^ (- e)) by nia.
  assert (Hstrict : new_location total r <> loc_Exact -> q < 1 * 2 ^ (- e)).
  { intros Hl. apply new_location_exact in Hl. nia. }
  pose proof (binary_round_aux_le (xorb false false) q e (new_location total r) 1
                Hq0 He ltac:(lia) ltac:(simpl; lia) Hqle Hstrict) as Hround.
  destruct (binary_round_aux _ _ _ _ _ _) as [s| | |s m e1]; try contradiction.
  - eexists. split; [reflexivity|exact I].
  - eexists. split; [reflexivity|]. exact Hround.
Qed.

(** Times 100, the float is from 0 to 100. *)
Lemma mul_100_le f :
  match f with
  | S754_zero _ => True
  | S754_finite s m e => s = false /\ e <= 0 /\ Z.pos m <= 1 * 2 ^ (- e)
  | _ => False
  end ->
  exists g,
    Py.mul (Py.Float f) (Py.Int 100) = Ok (Py.Float g) /\
    match g with
    | S754_zero _ => True
    | S754_finite s m e => s = false /\ e <= 0 /\ Z.pos m <= 100 * 2 ^ (- e)
    | _ => False
    end.
Proof.
  intros Hf. unfold Py.mul.
  change (Py.to_float (Py.Int 100)) with (Ok (S754_finite false 7036874417766400 (-46))).
  cbn [Py.to_float mbind res_bind].
  destruct f as [s| | |s m e]; try contradiction.
  - eexists. split; [reflexivity|exact I].
  - destruct Hf as (-> & He & Hm). cbn [SFmul].
    assert (Hpe : 0 < 2 ^ (- e)) by (apply Z.pow_pos_nonneg; lia).
    assert (Hle : Z.pos (m * 7036874417766400) <= 100 * 2 ^ (- (e + -46))).
    { rewrite Pos2Z.inj_mul. replace (- (e + -46)) with (- e + 46) by lia.
      rewrite pow2_split by lia. change (2 ^ 46) with 70368744177664. nia. }
    pose proof (binary_round_aux_le (xorb false false) (Z.pos (m * 7036874417766400))
                  (e + -46) loc_Exact 100 ltac:(lia) ltac:(lia) ltac:(lia)
                  ltac:(simpl; lia) Hle ltac:(congruence)) as Hround.
    destruct (binary_round_aux _ _ _ _ _ _) as [s'| | |s' m' e']; try contradiction.
    + eexists. split; [reflexivity|exact I].
    + eexists. split; [reflexivity|exact Hround].
Qed.

(** [round] of a float from 0 to 100 is an [int] from 0 to 100. *)
Lemma round_le_100 g :
  match g with
  | S754_zero _ => True
  | S754_finite s m e => s = false /\ e <= 0 /\ Z.pos m <= 100 * 2 ^ (- e)
  | _ => False
  end ->
  exists value, Py.round (Py.Float g) = Ok value /\ 0 <= value <= 100.
Proof.
  intros Hg. destruct g as [s| | |s m e]; try contradiction; cbn [Py.round Py.float_round].
  - exists 0. split; [reflexivity|lia].
  - destruct Hg as (-> & He & Hm). eexists. split; [reflexivity|].
    cbn [Py.signed].
    destruct (Z.leb_spec 0 e) as [H0|Hneg].
    + replace e with 0 in * by lia. simpl in Hm. rewrite Z.pow_0_r. lia.
    + set (d := 2 ^ (- e)) in *.
      assert (Hd : 0 < d) by (apply Z.pow_pos_nonneg; lia).
      unfold Py.div_half_even.
      pose proof (Z.div_mod (Z.pos m) d ltac:(lia)) as Hdm.
      pose proof (Z.mod_pos_bound (Z.pos m) d Hd) as Hr.
      set (q := Z.pos m / d) in *. set (r := Z.pos m mod d) in *.
      assert (Hq : 0 <= q <= 100) by nia.
      destruct (Z.eq_dec q 100) as [Hq100|Hlt].
      * assert (r = 0) by nia.
        replace (2 * r ?= d) with Lt by (symmetry; apply Z.compare_lt_iff; lia). lia.
      * destruct (2 * r ?= d); [destruct (Z.even q)| |]; lia.
Qed.

(** For counts [0 <= present <= total] the percent expression evaluates,
    whatever their size, to an [int] from 0 to 100. *)
Lemma percentage_within present total :
  0 <= present <= total ->
  exists value, percentage present total = Ok value /\ 0 <= value <= 100.
Proof.
  intros Hp. unfold percentage.
  destruct (Z.ltb_spec 0 total) as [Ht|_]; [|exists 0; split; [reflexivity|lia]].
  unfold Py.truediv.
  destruct (int_truediv_le_1 present total Hp Ht) as (f & -> & Hf).
  cbn [mbind res_bind].
  destruct (mul_100_le f Hf) as (g & -> & Hg).
  cbn [mbind res_bind].
  apply round_le_100, Hg.
Qed.

(** A value the format holds exactly is rounded to itself. *)
Lemma binary_round_aux_exact s ex N :
  ex <= 0 -> 0 < N -> Zdigits2 N <= 53 ->
  exists m e,
    binary_round_aux Py.prec Py.emax s (N * 2 ^ (- ex)) ex loc_Exact = S754_finite s m e /\
    e <= 0 /\ Z.pos m = N * 2 ^ (- e).
Proof.
  intros Hex HN HdN. unfold binary_round_aux.
  assert (Hpx : 0 < 2 ^ (- ex)) by (apply Z.pow_pos_nonneg; lia).
  set (mx := N * 2 ^ (- ex)).
  assert (Hm : 0 <= mx) by (unfold mx; lia).
  destruct (shr_fexp_spec mx ex loc_Exact Hm) as [He1 Hm1].
  assert (Hdx : Zdigits2 mx + ex = Zdigits2 N).
  { unfold mx. rewrite digits_mul_pow2 by lia. lia. }
  pose proof (shr_fexp_exact mx ex) as Hloc.
  destruct (shr_fexp Py.prec Py.emax mx ex loc_Exact) as [mrs1 e1].
  cbn [fst snd] in He1, Hm1, Hloc. rewrite fexp_value in He1.
  assert (He1' : ex <= e1 <= 0) by lia.
  set (B1 := N * 2 ^ (- e1)).
  assert (Hp1 : 0 < 2 ^ (- e1)) by (apply Z.pow_pos_nonneg; lia).
  assert (Hpk : 0 < 2 ^ (e1 - ex)) by (apply Z.pow_pos_nonneg; lia).
  assert (HB : mx = 2 ^ (e1 - ex) * B1).
  { unfold mx, B1. replace (- ex) with (- e1 + (e1 - ex)) by lia.
    rewrite pow2_split by lia. ring. }
  assert (Hm1' : shr_m mrs1 = B1).
  { rewrite Hm1, HB, Z.mul_comm. apply Z.div_mul. lia. }
  rewrite (Hloc (e1 - ex)); [|lia|lia|exists B1; split; [unfold B1; lia|exact HB]].
  cbn [round_nearest_even]. rewrite Hm1'.
  assert (HB1 : 0 <= B1) by (unfold B1; lia).
  destruct (shr_fexp_spec B1 e1 loc_Exact HB1) as [He2 Hm2].
  assert (Hd1 : Zdigits2 B1 + e1 = Zdigits2 N).
  { unfold B1. rewrite digits_mul_pow2 by lia. lia. }
  destruct (shr_fexp Py.prec Py.emax B1 e1 loc_Exact) as [mrs2 e2].
  cbn [fst snd] in He2, Hm2. rewrite fexp_value in He2.
  assert (He2' : e1 <= e2 <= 0) by lia.
  assert (Hp2 : 0 < 2 ^ (e2 - e1)) by (apply Z.pow_pos_nonneg; lia).
  assert (Hp3 : 0 < 2 ^ (- e2)) by (apply Z.pow_pos_nonneg; lia).
  assert (HB2 : B1 = 2 ^ (e2 - e1) * (N * 2 ^ (- e2))).
  { unfold B1. replace (- e1) with (- e2 + (e2 - e1)) by lia.
    rewrite pow2_split by lia. ring. }
  assert (Hm2' : shr_m mrs2 = N * 2 ^ (- e2)).
  { rewrite Hm2. rewrite HB2 at 1. rewrite Z.mul_comm. apply Z.div_mul. lia. }
  destruct (shr_m mrs2) as [|m2|m2]; [lia| |lia].
  destruct (Z.leb_spec e2 (Py.emax - Py.prec)) as [_|Hgt].
  - exists m2, e2. repeat split; lia.
  - unfold Py.emax, Py.prec in Hgt. lia.
Qed.

(** A subject attended in full has the percent 100. *)
Lemma percentage_full total : 0 < total -> percentage total total = Ok 100.
Proof.
  intros Ht. unfold percentage.
  destruct (Z.ltb_spec 0 total) as [_|]; [|lia].
  unfold Py.truediv, Py.int_truediv.
  destruct (Z.eqb_spec total 0) as [|_]; [lia|].
  replace (total <? 0) with false by (symmetry; apply Z.ltb_ge; lia).
  rewrite (Z.abs_eq total) by lia.
  unfold SFdiv_core_binary.
  set (e := Z.min (fexp Py.prec Py.emax (Zdigits2 total + 0 - (Zdigits2 total + 0))) (0 - 0)).
  set (m' := match 0 - 0 - e with
             | 0 => total
             | Z.pos _ => Z.shiftl total (0 - 0 - e)
             | Z.neg _ => 0
             end).
  assert (He : e <= 0) by (unfold e; lia).
  assert (Hm' : m' = 2 ^ (- e) * total).
  { unfold m'. destruct (0 - 0 - e) as [|j|j] eqn:Ej.
    - replace (- e) with 0 by lia. lia.
    - rewrite Z.shiftl_mul_pow2 by lia. rewrite Z.mul_comm. f_equal. f_equal. lia.
    - lia. }
  assert (Hdiv : Z.div_eucl m' total = (1 * 2 ^ (- e), 0)).
  { pose proof (Z_div_mod m' total ltac:(lia)) as Hdm.
    destruct (Z.div_eucl m' total) as [q r]. destruct Hdm as [Hdm Hr].
    assert (Hp : 0 < 2 ^ (- e)) by (apply Z.pow_pos_nonneg; lia).
    assert (q = 2 ^ (- e)) by nia. assert (r = 0) by nia. subst. f_equal. lia. }
  rewrite Hdiv.
  replace (new_location total 0) with loc_Exact
    by (unfold new_location, new_location_even, new_location_odd;
        destruct (Z.even total); reflexivity).
  destruct (binary_round_aux_exact (xorb false false) e 1 He ltac:(lia) ltac:(simpl; lia))
    as (m & e1 & -> & He1 & Hm).
  cbn [mbind res_bind]. unfold Py.mul.
  change (Py.to_float (Py.Int 100)) with (Ok (S754_finite false 7036874417766400 (-46))).
  cbn [Py.to_float mbind res_bind SFmul].
  replace (Z.pos (m * 7036874417766400)) with (100 * 2 ^ (- (e1 + -46))).
  2:{ rewrite Pos2Z.inj_mul, Hm. replace (- (e1 + -46)) with (- e1 + 46) by lia.
      rewrite pow2_split by lia. change (2 ^ 46) with 70368744177664. lia. }
  match goal with
  | |- context [binary_round_aux _ _ ?s _ _ _] =>
      destruct (binary_round_aux_exact s (e1 + -46) 100 ltac:(lia) ltac:(lia)
                  ltac:(simpl; lia)) as (m2 & e2 & -> & He2 & Hm2)
  end.
  cbn [mbind res_bind Py.round Py.float_round xorb Py.signed]. f_equal.
  destruct (Z.leb_spec 0 e2) as [H0|Hneg].
  - replace e2 with 0 in * by lia. simpl in Hm2. rewrite Z.pow_0_r. lia.
  - rewrite Hm2. unfold Py.div_half_even.
    assert (Hd : 0 < 2 ^ (- e2)) by (apply Z.pow_pos_nonneg; lia).
    rewrite Z.mod_mul, Z.div_mul by lia.
    replace (2 * 0 ?= 2 ^ (- e2)) with Lt by (symmetry; apply Z.compare_lt_iff; lia).
    reflexivity.
Qed.

(** A subject never attended has the percent 0. *)
Lemma percentage_none total : percentage 0 total = Ok 0.
Proof.
  unfold percentage. destruct (Z.ltb_spec 0 total) as [Ht|_]; [|reflexivity].
  unfold Py.truediv, Py.int_truediv.
  destruct (Z.eqb_spec total 0) as [|_]; [lia|]. reflexivity.
Qed.

Lemma values_set_forall {V : Type} (P : V -> Prop) k v (d : dict V) :
  Forall P (Dict.values d) -> P v -> Forall P (Dict.values (Dict.set k v d)).
Proof.
  intros Hd Hv. unfold Dict.values in *.
  induction d as [|[k0 v0] d IH]; simpl in *.
  - constructor; [assumption|constructor].
  - apply Forall_cons in Hd. destruct Hd as [H0 Hd].
    destruct (String.eqb k k0); simpl; constructor; auto.
Qed.

Lemma sums_in_order subjects :
  Forall counts_in_order (Dict.values subjects) ->
  0 <= sum_present subjects <= sum_total subjects.
Proof.
  unfold sum_present, sum_total.
  induction 1 as [|entry entries Hentry _ IH]; simpl.
  - unfold py_sum. simpl. lia.
  - rewrite !py_sum_cons. unfold counts_in_order in Hentry. lia.
Qed.


(** ** The status of an order *)

Lemma set_first_status_none order_id status orders :
  Forall (fun order => order_id_is order order_id = inr false) orders ->
  set_first_status order_id status orders = inr None.
Proof.
  induction 1 as [|order rest Hid _ IH]; simpl; [reflexivity|].
  now rewrite Hid, IH.
Qed.

Lemma set_first_status_some order_id status orders orders' :
  set_first_status order_id status orders = inr (Some orders') ->
  exists before d after,
    orders = before ++ JDict d :: after /\
    orders' = before ++ JDict (Dict.set "status" (JStr status) d) :: after /\
    Dict.get "id" d = Some (JStr order_id) /\
    Forall (fun order => order_id_is order order_id = inr false) before.
Proof.
  revert orders'. induction orders as [|order rest IH]; intros orders' H; simpl in H.
  - discriminate.
  - destruct (order_id_is order order_id) as [e|[|]] eqn:Hid; [discriminate| |].
    + destruct order as [| | | | |d]; try discriminate.
      injection H as <-. exists [], d, rest.
      split; [reflexivity|]. split; [reflexivity|]. split; [|constructor].
      simpl in Hid. destruct (Dict.get "id" d) as [[| | |s| |]|]; try discriminate.
      injection Hid as Hid. apply String.eqb_eq in Hid. now subst.
    + destruct (set_first_status order_id status rest) as [e|[rest'|]]; try discriminate.
      injection H as <-.
      destruct (IH rest' eq_refl) as (before & d & after & -> & -> & Hd & Hbefore).
      exists (order :: before), d, after.
      split; [reflexivity|]. split; [reflexivity|]. split; [exact Hd|].
      constructor; assumption.
Qed.

(** [update_order_status] changes one order or nothing. When it answers
    that the status is updated, the student exists and the order it wrote
    to is the first one in the student's list whose id is the requested
    text: that order has the new status under [status] and every other
    order, those with the same id further on included, is as it was; the
    record is saved. In every other case, a 404 or an order that cannot be
    read, nothing was changed. *)
Theorem update_order_status_changes_one_order
    (update : OrderStatusUpdate.t) (w w' : world) (r : json_exn + res string) :
  update_order_status update w = (w', r) ->
  let key := lower (OrderStatusUpdate.student_key update) in
  let order_id := OrderStatusUpdate.order_id update in
  (r = inr (Ok "Order status updated") /\
   exists student before d after,
     Store.students (DATA w) !! key = Some student /\
     Student.cafeteria_orders student = Some (before ++ JDict d :: after) /\
     Forall (fun order => order_id_is order order_id = inr false) before /\
     Dict.get "id" d = Some (JStr order_id) /\
     w' = saved
            (put_student key
               (Student.with_cafeteria_orders
                  (Some
                     (before
                      ++ JDict (Dict.set "status" (JStr (OrderStatusUpdate.status update)) d)
                      :: after))
                  student) w)) \/
  (r <> inr (Ok "Order status updated") /\ w' = w).
Proof.
  intros H key order_id. unfold update_order_status in H. cbv zeta in H.
  fold key in H. fold order_id in H.
  destruct (Store.students (DATA w) !! key) as [student|] eqn:Hs;
    [|injection H as <- <-; right; split; [discriminate|reflexivity]].
  destruct (Student.cafeteria_orders student) as [orders|] eqn:Ho;
    [|injection H as <- <-; right; split; [discriminate|reflexivity]].
  destruct (set_first_status order_id (OrderStatusUpdate.status update) orders)
    as [e|[orders'|]] eqn:Hset;
    injection H as <- <-; try (right; split; [discriminate|reflexivity]).
  left. split; [reflexivity|].
  destruct (set_first_status_some _ _ _ _ Hset) as (before & d & after & -> & -> & Hd & Hbefore).
  exists student, before, d, after. repeat split; assumption.
Qed.

(** An order whose id is not among those of the student's orders is not
    found: when the student exists and every stored order carries an id
    that differs from the requested text, [update_order_status] raises the
    404 [Order not found] and changes nothing; a student without a list of
    orders gets the same answer, and an unknown student the 404
    [Student not found]. *)
Theorem unknown_order_not_found
    (update : OrderStatusUpdate.t) (w : world) :
  let key := lower (OrderStatusUpdate.student_key update) in
  (Store.students (DATA w) !! key = None ->
   update_order_status update w = (w, inr (Raise (HTTPException 404 "Student not found")))) /\
  (forall student,
     Store.students (DATA w) !! key = Some student ->
     Forall (fun order => order_id_is order (OrderStatusUpdate.order_id update) = inr false)
       (default [] (Student.cafeteria_orders student)) ->
     update_order_status update w = (w, inr (Raise (HTTPException 404 "Order not found")))).
Proof.
  intros key. unfold update_order_status. cbv zeta. fold key. split.
  - intros ->. reflexivity.
  - intros student -> Hall.
    destruct (Student.cafeteria_orders student) as [orders|]; [|reflexivity].
    simpl in Hall. now rewrite (set_first_status_none _ _ _ Hall).
Qed.

(** The status of an order just placed can be updated under the id that
    [place_order] gave it: [update_order_status] then succeeds, and
    [get_my_orders] returns the order first with the new status, its id,
    items, total and date as placed, ahead of the orders the student had,
    which are untouched even when one of them carries the same id. The
    record is saved. *)
Theorem placed_order_status_updated
    (now : Clock.t) (minute_second status : string) (order : CafeteriaOrder.t)
    (w : world) (student : Student.t) :
  Store.students (DATA w) !! lower (CafeteriaOrder.student_key order) = Some student ->
  let w1 := (place_order now minute_second order w).1 in
  let update :=
    OrderStatusUpdate.mk (CafeteriaOrder.student_key order) ("ORD" +:+ minute_second) status in
  let updated :=
    JDict
      [("id", JStr ("ORD" +:+ minute_second));
       ("items", JList (map JStr (CafeteriaOrder.items order)));
       ("total", JNum (Py.Int (CafeteriaOrder.total_amount order)));
       ("status", JStr status);
       ("date", JStr (Clock.date_d_b_Y now))] in
  exists w2,
    update_order_status update w1 = (w2, inr (Ok "Order status updated")) /\
    file w2 = DATA w2 /\
    get_my_orders (CafeteriaOrder.student_key order) w2
    = (w2, Ok (updated :: default [] (Student.cafeteria_orders student))).
Proof.
  intros Hs w1 update updated. subst w1.
  rewrite (place_order_found now minute_second order w student Hs). cbn [fst].
  unfold update_order_status. cbv zeta. subst update. cbn [OrderStatusUpdate.student_key
    OrderStatusUpdate.order_id OrderStatusUpdate.status].
  cbn [DATA saved]. rewrite lookup_put_student.
  replace (Student.cafeteria_orders
             (Student.with_cafeteria_orders
                (Some (JDict
                   [("id", JStr ("ORD" +:+ minute_second));
                    ("items", JList (map JStr (CafeteriaOrder.items order)));
                    ("total", JNum (Py.Int (CafeteriaOrder.total_amount order)));
                    ("status", JStr "Preparing");
                    ("date", JStr (Clock.date_d_b_Y now))]
                   :: default [] (Student.cafeteria_orders student))) student))
    with (Some (JDict
                   [("id", JStr ("ORD" +:+ minute_second));
                    ("items", JList (map JStr (CafeteriaOrder.items order)));
                    ("total", JNum (Py.Int (CafeteriaOrder.total_amount order)));
                    ("status", JStr "Preparing");
                    ("date", JStr (Clock.date_d_b_Y now))]
                   :: default [] (Student.cafeteria_orders student)))
    by (destruct student; reflexivity).
  cbn [set_first_status order_id_is Dict.get String.eqb Ascii.eqb Bool.eqb].
  rewrite String.eqb_refl.
  cbn [Dict.set String.eqb Ascii.eqb Bool.eqb].
  eexists. split; [reflexivity|]. split; [reflexivity|].
  unfold get_my_orders. cbv zeta.
  erewrite run_bind by reflexivity.
  cbn [DATA saved]. rewrite lookup_put_student.
  destruct student; reflexivity.
Qed.

(** ** Appointments *)

Lemma book_appointment_found appt w student :
  Store.students (DATA w) !! lower (AppointmentBook.student_key appt) = Some student ->
  let new_appt :=
    JDict
      [("professor", JStr (AppointmentBook.professor_name appt));
       ("date", JStr (AppointmentBook.date appt));
       ("time", JStr (AppointmentBook.time appt));
       ("purpose", JStr (AppointmentBook.purpose appt));
       ("status", JStr "Pending Approval")] in
  book_appointment appt w
  = (saved (put_student (lower (AppointmentBook.student_key appt))
              (Student.with_faculty_appointments
                 (Some (default [] (Student.faculty_appointments student) ++ [new_appt]))
                 student) w),
     Ok ("Appointment request sent", new_appt)).
Proof.
  intros Hs new_appt. unfold book_appointment. cbv zeta. step. step.
  destruct (Student.faculty_appointments student) as [appts|] eqn:Ha.
  - erewrite run_bind by reflexivity. step. step.
    destruct student. simpl in *. subst. reflexivity.
  - step. step. step.
    destruct student. simpl in *. subst. reflexivity.
Qed.

(** Appointments are kept in the order they are booked, after those the
    student had, each with the status [Pending Approval]; nothing is
    checked against the ones already there, so booking the same slot twice
    stores it twice. Two bookings for an existing student leave the record
    with exactly the two new entries at the end of the list, everything
    else of the record as it was, and the record saved. *)
Theorem appointments_kept_in_booking_order
    (a b : AppointmentBook.t) (w : world) (student : Student.t) :
  let key := lower (AppointmentBook.student_key a) in
  let entry appt :=
    JDict
      [("professor", JStr (AppointmentBook.professor_name appt));
       ("date", JStr (AppointmentBook.date appt));
       ("time", JStr (AppointmentBook.time appt));
       ("purpose", JStr (AppointmentBook.purpose appt));
       ("status", JStr "Pending Approval")] in
  Store.students (DATA w) !! key = Some student ->
  lower (AppointmentBook.student_key b) = key ->
  book_appointment a w
  = (saved (put_student key
              (Student.with_faculty_appointments
                 (Some (default [] (Student.faculty_appointments student) ++ [entry a]))
                 student) w),
     Ok ("Appointment request sent", entry a)) /\
  book_appointment b (book_appointment a w).1
  = (saved (put_student key
              (Student.with_faculty_appointments
                 (Some (default [] (Student.faculty_appointments student) ++ [entry a; entry b]))
                 student) w),
     Ok ("Appointment request sent", entry b)).
Proof.
  intros key entry Hs Hb.
  pose proof (book_appointment_found a w student Hs) as Ha. cbv zeta in Ha. fold key in Ha.
  split; [exact Ha|].
  rewrite Ha. cbn [fst].
  rewrite (book_appointment_found b _
             (Student.with_faculty_appointments
                (Some (default [] (Student.faculty_appointments student) ++ [entry a]))
                student))
    by (rewrite Hb; cbn [DATA saved]; apply lookup_put_student).
  rewrite Hb. f_equal.
  rewrite saved_put_saved, put_student_twice.
  destruct student. cbn. rewrite <- app_assoc. reflexivity.
Qed.

End Backend.

(** * The properties at sample inputs *)

Lemma ascii_lower_on_ascii :
  forall s, Str.is_ascii s = true -> Str.ascii_lower s = Str.ascii_lower s.
Proof. reflexivity. Defined.

(** ** Attendance *)



(** C3 at a record with 18 of 20 classes of Maths: after the delete no
    subject is left, and the overall aggregates still read 90 percent, 20
    classes, 18 present and 2 absent, where the sums over the remaining
    entries are 0. *)
Theorem delete_attendance_stale_aggregates :
  let w := Sample.world_of Sample.with_maths in
  exists student',
    delete_attendance Str.ascii_lower "Ada Lovelace" "Maths" w
    = (saved (put_student "ada lovelace" student' w), Ok "Attendance deleted for Maths") /\
    Attendance.subjects (Student.attendance student') = [] /\
    Attendance.overall_percent (Student.attendance student') = 90 /\
    Attendance.total_classes (Student.attendance student') = 20 /\
    Attendance.present (Student.attendance student') = 18 /\
    Attendance.absent (Student.attendance student') = 2 /\
    sum_present (Attendance.subjects (Student.attendance student')) = 0 /\
    sum_total (Attendance.subjects (Student.attendance student')) = 0 /\
    ~ aggregates_recomputed (Student.attendance student').
Proof.
  intros w. exists (on_subjects (Dict.del "Maths") Sample.with_maths). split.
  - rewrite (delete_attendance_keeps_aggregates Str.ascii_lower w "Ada Lovelace" "Maths"
               Sample.with_maths) by (vm_compute; reflexivity).
    reflexivity.
  - repeat (split; [reflexivity|]).
    intros (Hpresent & _). vm_compute in Hpresent. discriminate Hpresent.
Qed.

(** ** Grades *)



(** At a record whose only grade is an A on 4 credits, [delete_grade]
    leaves no grade and keeps the SGPA of 9.0 and the 4 earned credits. *)
Lemma delete_grade_stale_sgpa :
  let w := Sample.world_of Sample.with_dsa in
  exists student',
    delete_grade Str.ascii_lower "Ada Lovelace" "DSA" w
    = (saved (put_student "ada lovelace" student' w), Ok "Grade deleted for DSA") /\
    Grades.current_semester (Student.grades student') = [] /\
    Grades.sgpa (Student.grades student') = Grades.sgpa (Student.grades Sample.with_dsa) /\
    Grades.earned_credits (Student.grades student') = 4 /\
    ~ sgpa_is (Grades.current_semester (Student.grades student'))
        (Grades.sgpa (Student.grades student')).
Proof.
  intros w. exists (on_current_semester (Dict.del "DSA") Sample.with_dsa). split.
  - rewrite (delete_grade_keeps_sgpa Str.ascii_lower w "Ada Lovelace" "DSA"
               Sample.with_dsa) by (vm_compute; reflexivity).
    reflexivity.
  - repeat (split; [reflexivity|]).
    intros (_ & Hzero). specialize (Hzero ltac:(vm_compute; discriminate)).
    vm_compute in Hzero. discriminate Hzero.
Qed.

(** ** Deletions of what is not there *)

Lemma delete_missing_changes_nothing_witness :
  let w := Sample.world_of Sample.with_maths in
  delete_attendance Str.ascii_lower "Ada Lovelace" "Physics" w
  = (w, Ok "Attendance deleted for Physics") /\
  delete_grade Str.ascii_lower "Ada Lovelace" "Physics" w
  = (w, Ok "Grade deleted for Physics") /\
  delete_exam Str.ascii_lower "Ada Lovelace" "Physics" w
  = (saved w, Ok "Exam deleted for Physics").
Proof.
  intros w.
  destruct (delete_missing_changes_nothing Str.ascii_lower w "Ada Lovelace" "Physics"
              Sample.with_maths ltac:(vm_compute; reflexivity))
    as (Hatt & Hgrade & Hexam).
  split; [apply Hatt; vm_compute; reflexivity|].
  split; [apply Hgrade; vm_compute; reflexivity|].
  apply Hexam. constructor.
Defined.

(** ** Fees *)


(** ** The classifier and the day resolver *)

Lemma detect_intent_first_match_witness :
  detect_intent Str.ascii_lower "Is my CGPA safe with 3 Absent days?" = Intent.attendance /\
  detect_intent Str.ascii_lower "xyzzy" = Intent.unknown.
Proof.
  split.
  - apply (detect_intent_first_match Str.ascii_lower "Is my CGPA safe with 3 Absent days?").
    exists "absent". split; [simpl; tauto|vm_compute; reflexivity].
  - apply (detect_intent_first_match Str.ascii_lower "xyzzy").
    intros keywords tag word Hrule Hword.
    assert (Hall : forallb (fun r => negb (Str.any_in r.1 (Str.ascii_lower "xyzzy"))) rules = true)
      by (vm_compute; reflexivity).
    rewrite forallb_forall in Hall. specialize (Hall _ Hrule).
    apply negb_true_iff in Hall. simpl in Hall.
    rewrite any_in_none in Hall. now apply Hall.
Defined.

Lemma get_day_from_text_resolves_witness :
  get_day_from_text Str.ascii_lower Sample.clock "Classes TOMORROW or friday?" = "monday" /\
  get_day_from_text Str.ascii_lower Sample.clock "friday then tuesday" = "tuesday".
Proof.
  split.
  - apply (get_day_from_text_resolves Str.ascii_lower ascii_lower_on_ascii
             Sample.clock "Classes TOMORROW or friday?");
      vm_compute; reflexivity.
  - apply (proj1 (proj2 (proj2
             (get_day_from_text_resolves Str.ascii_lower ascii_lower_on_ascii
                Sample.clock "friday then tuesday")))
             ltac:(vm_compute; reflexivity) ltac:(vm_compute; reflexivity)
             ["monday"] "tuesday"
             ["wednesday"; "thursday"; "friday"; "saturday"; "sunday"]).
    + reflexivity.
    + vm_compute; reflexivity.
    + intros d [<-|[]]. vm_compute; reflexivity.
Defined.

(** ** The query handler *)



(** * The further properties at sample inputs *)

Lemma unknown_student_not_found_witness :
  let w := Sample.world_of Sample.fresh in
  get_student Str.ascii_lower "Grace Hopper" w = not_found w /\
  delete_exam Str.ascii_lower "Grace Hopper" "Maths" w = not_found w /\
  get_my_orders Str.ascii_lower "Grace Hopper" w = (w, Ok []).
Proof.
  intros w.
  destruct (unknown_student_not_found Str.ascii_lower w "Grace Hopper")
    as (Hget & _ & _ & _ & _ & _ & _ & _ & Hexam & _ & _ & _ & _ & _ & _ & _ & _ & Horders);
    [vm_compute; reflexivity|].
  split; [exact Hget|]. split; [apply Hexam|exact Horders].
Defined.


Lemma delete_student_removes_witness :
  let w := Sample.world_of Sample.fresh in
  let w' := saved (drop_student "ada lovelace" w) in
  delete_student Str.ascii_lower "Ada LOVELACE" w
  = (w', Ok "Student Ada Lovelace deleted successfully") /\
  get_student Str.ascii_lower "Ada LOVELACE" w' = not_found w'.
Proof.
  intros w w'.
  destruct (delete_student_removes Str.ascii_lower w "Ada LOVELACE" Sample.fresh)
    as (Hrun & Hget & _); [vm_compute; reflexivity|].
  split; [exact Hrun|exact Hget].
Defined.

Lemma create_then_delete_student_witness :
  let w := Sample.world_of Sample.fresh in
  delete_student Str.ascii_lower "Grace Hopper"
    (create_student Str.ascii_lower Sample.clock Sample.grace w).1
  = (w, Ok "Student Grace Hopper deleted successfully").
Proof.
  intros w.
  apply (create_then_delete_student Str.ascii_lower Sample.clock Sample.grace w).
  vm_compute. reflexivity.
Defined.

Lemma student_ids_are_reused_witness :
  let w := Sample.world_of Sample.fresh in
  let w1 := (create_student Str.ascii_lower Sample.clock Sample.grace w).1 in
  let w2 := (create_student Str.ascii_lower Sample.clock Sample.alan w1).1 in
  let w3 := (delete_student Str.ascii_lower "Grace Hopper" w2).1 in
  let w4 := (create_student Str.ascii_lower Sample.clock Sample.grace w3).1 in
  exists grace alan,
    Store.students (DATA w4) !! "grace hopper" = Some grace /\
    Store.students (DATA w4) !! "alan turing" = Some alan /\
    Student.id grace = Student.id alan.
Proof.
  intros w w1 w2 w3 w4.
  apply (student_ids_are_reused Str.ascii_lower Sample.clock Sample.grace Sample.alan w).
  - vm_compute. discriminate.
  - vm_compute. reflexivity.
  - vm_compute. reflexivity.
Defined.


Lemma library_total_recounted_witness :
  let w := Sample.world_of Sample.fresh in
  let book := LibraryBookAdd.mk "Ada Lovelace" "Sketch of the Analytical Engine" "L. F. Menabrea"
                "01 Nov 2026" "15 Nov 2026" in
  (exists student',
     add_library_book Str.ascii_lower book w
     = (saved (put_student "ada lovelace" student' w),
        Ok "Book 'Sketch of the Analytical Engine' added") /\
     Library.total_borrowed (Student.library student') = 1) /\
  (exists student',
     return_book Str.ascii_lower "Ada Lovelace" "Principia" w
     = (saved (put_student "ada lovelace" student' w), Ok "Book 'Principia' returned") /\
     Library.total_borrowed (Student.library student') = 0).
Proof.
  intros w book.
  destruct (library_total_recounted Str.ascii_lower w Sample.fresh book "Ada Lovelace" "Principia")
    as (Hadd & Hreturn).
  split.
  - destruct Hadd as (student' & Hrun & _ & Hbooks & Htotal & _); [vm_compute; reflexivity|].
    exists student'. split; [exact Hrun|]. now rewrite Htotal, Hbooks.
  - destruct Hreturn as (student' & Hrun & _ & Hbooks & _ & Htotal & _);
      [vm_compute; reflexivity|].
    exists student'. split; [exact Hrun|]. now rewrite Htotal, Hbooks.
Defined.

Lemma add_then_return_book_witness :
  let w := Sample.world_of Sample.fresh in
  return_book Str.ascii_lower "Ada Lovelace" "Principia"
    (add_library_book Str.ascii_lower
       (LibraryBookAdd.mk "Ada Lovelace" "Principia" "I. Newton" "01 Nov 2026" "15 Nov 2026")
       w).1
  = (w, Ok "Book 'Principia' returned").
Proof.
  intros w.
  apply (add_then_return_book Str.ascii_lower w Sample.fresh "Ada Lovelace" "Principia"
           "I. Newton" "01 Nov 2026" "15 Nov 2026").
  - vm_compute. reflexivity.
  - constructor.
  - reflexivity.
Defined.

Lemma courses_added_and_removed_witness :
  let w := Sample.world_of Sample.fresh in
  let course := CourseCreate.mk "CS201" "Data Structures" 4 "Prof. Hopper" "Mon 10:00" in
  remove_course Str.ascii_lower "Ada Lovelace" "CS201"
    (add_course_to_student Str.ascii_lower "Ada Lovelace" course w).1
  = (w, Ok "Course CS201 removed") /\
  remove_course Str.ascii_lower "Ada Lovelace" "CS999" w = (w, Ok "Course CS999 removed").
Proof.
  intros w course.
  destruct (courses_added_and_removed Str.ascii_lower w Sample.fresh "Ada Lovelace" course
              "CS999") as (_ & _ & _ & Hnone & Hback); [vm_compute; reflexivity|].
  split; [apply Hback; constructor|apply Hnone; constructor].
Defined.

Lemma add_then_delete_exam_witness :
  let w := Sample.world_of Sample.fresh in
  let exam := ExamUpdate.mk "Ada Lovelace" "Maths" "20 Nov 2026" "10:00" "Hall 1" "Mid-Sem" 16 in
  delete_exam Str.ascii_lower "Ada Lovelace" "Maths" (add_exam Str.ascii_lower exam w).1
  = (w, Ok "Exam deleted for Maths").
Proof.
  intros w exam.
  destruct (add_then_delete_exam Str.ascii_lower w exam Sample.fresh) as (Hrun & _);
    [vm_compute; reflexivity|].
  refine (eq_trans Hrun _). vm_compute. reflexivity.
Defined.

Lemma upserts_idempotent_witness :
  let w := Sample.world_of Sample.fresh in
  let att := AttendanceUpdate.mk "Ada Lovelace" "Maths" 18 20 in
  let grade := GradeUpdate.mk "Ada Lovelace" "OS" "B+" 80 3 in
  let fee := FeeUpdate.mk "Ada Lovelace" 90000 30000 "30 Nov 2026" in
  let w1 := (update_attendance Str.ascii_lower att w).1 in
  let w2 := (update_grade Str.ascii_lower grade w).1 in
  let w3 := (update_fees Str.ascii_lower fee w).1 in
  update_attendance Str.ascii_lower att w1 = (w1, Ok "Attendance updated for Maths") /\
  update_grade Str.ascii_lower grade w2 = (w2, Ok "Grade updated for OS") /\
  update_fees Str.ascii_lower fee w3 = (w3, Ok "Fees updated successfully").
Proof.
  intros w att grade fee w1 w2 w3.
  split; [|split].
  - apply (proj1 (upserts_idempotent Str.ascii_lower w w1 "Attendance updated for Maths")).
    vm_compute. reflexivity.
  - apply (proj1 (proj2 (upserts_idempotent Str.ascii_lower w w2 "Grade updated for OS"))).
    vm_compute. reflexivity.
  - apply (proj2 (proj2 (upserts_idempotent Str.ascii_lower w w3 "Fees updated successfully"))).
    vm_compute. reflexivity.
Defined.

Lemma payments_add_up_witness :
  let w := Sample.world_of Sample.fresh in
  let calls :=
    map (fun amount => add_payment Str.ascii_lower Sample.clock "Ada Lovelace" amount "UPI")
      [10000; 5000; 2500] in
  exists student',
    Store.students (DATA (after_calls calls w)) !! "ada lovelace" = Some student' /\
    Fees.paid (Student.fees student') = 17500 /\
    map Payment.receipt (Fees.payment_history (Student.fees student'))
    = ["REC001"; "REC002"; "REC003"].
Proof.
  intros w calls.
  destruct (payments_add_up Str.ascii_lower Sample.clock "Ada Lovelace" "UPI"
              [10000; 5000; 2500] w Sample.fresh)
    as (student' & Hl & _ & Hpaid & _ & Hreceipts & _); [vm_compute; reflexivity|].
  exists student'. split; [exact Hl|]. split.
  - rewrite Hpaid. vm_compute. reflexivity.
  - rewrite Hreceipts. vm_compute. reflexivity.
Defined.

Lemma get_day_from_text_is_a_day_witness :
  In (get_day_from_text Str.ascii_lower Sample.clock "Classes at the weekend?") days.
Proof.
  destruct (get_day_from_text_is_a_day Str.ascii_lower Sample.no_strip ascii_lower_on_ascii
              Sample.clock "Classes at the weekend?") as (d & Hd & Hin & _).
  rewrite Hd. exact Hin.
Defined.

Lemma process_only_reloads_witness :
  let w := Sample.world_of Sample.fresh in
  exists reply,
    process Str.ascii_lower Sample.no_strip Sample.no_render Sample.clock
      (UserQuery.mk "Hello there" "Ada Lovelace") w
    = (w, Ok reply).
Proof.
  intros w.
  destruct (process_only_reloads Str.ascii_lower Sample.no_strip Sample.no_render Sample.clock
              (UserQuery.mk "Hello there" "Ada Lovelace") w) as (_ & Hreply).
  apply Hreply. right. vm_compute. tauto.
Defined.

Lemma add_class_is_listed_witness :
  let w := Sample.world_of Sample.fresh in
  exists w',
    add_class Str.ascii_lower "Sunday" "09:00" "Algorithms" "R-12" "Prof. Hopper" "Lecture" w
    = (w', Ok "Class added to sunday") /\
    process Str.ascii_lower Sample.no_strip Sample.no_render Sample.clock
      (UserQuery.mk "Timetable for today" "Ada Lovelace") w'
    = (w',
       Ok (timetable_listing "sunday"
             [ClassSlot.mk "09:00" "Algorithms" "R-12" "Prof. Hopper" "Lecture"])).
Proof.
  intros w.
  destruct (add_class_is_listed Str.ascii_lower Sample.no_strip Sample.no_render w
              "Sunday" "09:00" "Algorithms" "R-12" "Prof. Hopper" "Lecture")
    as (w' & Hrun & _ & _ & _ & _ & _ & Hlisted).
  exists w'. split; [exact Hrun|].
  apply (Hlisted Sample.clock (UserQuery.mk "Timetable for today" "Ada Lovelace") Sample.fresh);
    vm_compute; reflexivity.
Defined.

Lemma timetable_reply_without_classes_witness :
  let w := Sample.world_of Sample.fresh in
  process Str.ascii_lower Sample.no_strip Sample.no_render Sample.clock
    (UserQuery.mk "Timetable for Monday" "Ada Lovelace") w
  = (w, Ok ("ğŸ“… No classes scheduled for Monday.")).
Proof.
  intros w.
  destruct (timetable_reply_without_classes Str.ascii_lower Sample.no_strip Sample.no_render
              Sample.clock (UserQuery.mk "Timetable for Monday" "Ada Lovelace") w Sample.fresh)
    as (Hnone & _); [vm_compute; reflexivity|vm_compute; reflexivity|].
  refine (eq_trans (Hnone _) _); vm_compute; reflexivity.
Defined.

Lemma placed_order_comes_first_witness :
  let w := Sample.world_of Sample.fresh in
  let order := CafeteriaOrder.mk "Ada Lovelace" ["Tea"; "Samosa"] 45 in
  exists new_order w',
    place_order Str.ascii_lower Sample.clock "0512" order w
    = (w', Ok ("Order placed successfully", new_order)) /\
    get_my_orders Str.ascii_lower "Ada Lovelace" w' = (w', Ok [new_order]).
Proof.
  intros w order.
  destruct (placed_order_comes_first Str.ascii_lower Sample.clock "0512" order w Sample.fresh)
    as (new_order & student' & w' & Hrun & _ & _ & _ & Hget & _); [vm_compute; reflexivity|].
  exists new_order, w'. split; [exact Hrun|exact Hget].
Defined.

Lemma admin_login_checks_credentials_witness :
  admin_login "5f2c" "2026-11-04T09:00:00" (AdminLogin.mk "admin" "admin123") ∅
  = ({[ "5f2c" := Session.mk "admin" "2026-11-04T09:00:00" ]},
     Ok (LoginReply.mk true "Login successful" "5f2c" "admin")) /\
  admin_login "5f2c" "2026-11-04T09:00:00" (AdminLogin.mk "admin" "Admin123") ∅
  = (∅, Raise (HTTPException 401 "Invalid username or password")).
Proof.
  split.
  - apply (proj1 (admin_login_checks_credentials "5f2c" "2026-11-04T09:00:00"
                    (AdminLogin.mk "admin" "admin123") ∅)).
    split; reflexivity.
  - apply (proj2 (admin_login_checks_credentials "5f2c" "2026-11-04T09:00:00"
                    (AdminLogin.mk "admin" "Admin123") ∅)).
    intros [_ H]. discriminate H.
Defined.

Lemma admin_session_lifecycle_witness :
  let sessions :=
    (admin_login "5f2c" "2026-11-04T09:00:00" (AdminLogin.mk "admin" "admin123") ∅).1 in
  verify_admin "5f2c" sessions = Verified.valid "admin" /\
  verify_admin "5f2c" (admin_logout "5f2c" sessions).1 = Verified.invalid.
Proof.
  intros sessions.
  destruct (admin_session_lifecycle "5f2c" "2026-11-04T09:00:00"
              (AdminLogin.mk "admin" "admin123") ∅ sessions
              (LoginReply.mk true "Login successful" "5f2c" "admin") eq_refl)
    as (_ & Hvalid & Hinvalid & _).
  split; [exact Hvalid|exact Hinvalid].
Defined.

Lemma earlier_rules_take_the_text_witness :
  In (detect_intent Str.ascii_lower "Book an appointment")
    [Intent.attendance; Intent.timetable; Intent.exams; Intent.grades; Intent.library] /\
  In (detect_intent Str.ascii_lower "Pending fee dues")
    [Intent.attendance; Intent.timetable; Intent.exams; Intent.grades; Intent.library].
Proof.
  split.
  - apply (proj1 (earlier_rules_take_the_text Str.ascii_lower Sample.no_strip
                    "Book an appointment")).
    vm_compute. reflexivity.
  - apply (proj1 (proj2 (earlier_rules_take_the_text Str.ascii_lower Sample.no_strip
                    "Pending fee dues"))).
    vm_compute. reflexivity.
Defined.


Lemma notice_ids_are_reused_witness :
  let w := Sample.world_of Sample.fresh in
  let a := NoticeCreate.mk "Holiday" "No classes on Friday" "info" "Dean" in
  let b := NoticeCreate.mk "Fees" "Fees are due" "warning" "Accounts" in
  let c := NoticeCreate.mk "Exams" "Dates are out" "urgent" "Registrar" in
  let w1 := (create_notice Sample.clock a w).1 in
  let w2 := (create_notice Sample.clock b w1).1 in
  let w3 := (delete_notice 1 w2).1 in
  let w4 := (create_notice Sample.clock c w3).1 in
  map notice_id (Store.notices (DATA w4)) = [Some 2; Some 2].
Proof.
  intros w a b c w1 w2 w3 w4.
  destruct (notice_ids_are_reused Sample.clock a b c w)
    as (notice_c & notice_b & _ & Hnotices & Hc & Hb & _); [constructor|].
  change (Store.notices (DATA w4) = [notice_c; notice_b]) in Hnotices.
  rewrite Hnotices. simpl map. now rewrite Hc, Hb.
Defined.


Lemma update_order_status_changes_one_order_witness :
  let w :=
    (place_order Str.ascii_lower Sample.clock "0512"
       (CafeteriaOrder.mk "Ada Lovelace" ["Tea"; "Samosa"] 45)
       (Sample.world_of Sample.fresh)).1 in
  let update := OrderStatusUpdate.mk "Ada Lovelace" "ORD0512" "Ready" in
  let run := update_order_status Str.ascii_lower update w in
  run.2 = inr (Ok "Order status updated") /\
  exists student before d after,
    Store.students (DATA w) !! "ada lovelace" = Some student /\
    Student.cafeteria_orders student = Some (before ++ JDict d :: after) /\
    Forall (fun order => order_id_is order "ORD0512" = inr false) before /\
    Dict.get "id" d = Some (JStr "ORD0512") /\
    run.1
    = saved
        (put_student "ada lovelace"
           (Student.with_cafeteria_orders
              (Some (before ++ JDict (Dict.set "status" (JStr "Ready") d) :: after))
              student) w).
Proof.
  intros w update run.
  destruct (update_order_status_changes_one_order Str.ascii_lower update w run.1 run.2
              (surjective_pairing run)) as [H|[Hr _]].
  - exact H.
  - exfalso. apply Hr. vm_compute. reflexivity.
Defined.

Lemma unknown_order_not_found_witness :
  let w := Sample.world_of Sample.fresh in
  update_order_status Str.ascii_lower (OrderStatusUpdate.mk "Grace Hopper" "ORD0512" "Ready") w
  = (w, inr (Raise (HTTPException 404 "Student not found"))) /\
  update_order_status Str.ascii_lower (OrderStatusUpdate.mk "Ada Lovelace" "ORD0512" "Ready") w
  = (w, inr (Raise (HTTPException 404 "Order not found"))).
Proof.
  intros w. split.
  - apply (proj1 (unknown_order_not_found Str.ascii_lower
                    (OrderStatusUpdate.mk "Grace Hopper" "ORD0512" "Ready") w)).
    vm_compute. reflexivity.
  - apply (proj2 (unknown_order_not_found Str.ascii_lower
                    (OrderStatusUpdate.mk "Ada Lovelace" "ORD0512" "Ready") w) Sample.fresh).
    + vm_compute. reflexivity.
    + vm_compute. constructor.
Defined.

Lemma placed_order_status_updated_witness :
  let w := Sample.world_of Sample.fresh in
  let order := CafeteriaOrder.mk "Ada Lovelace" ["Tea"; "Samosa"] 45 in
  let w1 := (place_order Str.ascii_lower Sample.clock "0512" order w).1 in
  exists w2,
    update_order_status Str.ascii_lower
      (OrderStatusUpdate.mk "Ada Lovelace" "ORD0512" "Ready") w1
    = (w2, inr (Ok "Order status updated")) /\
    get_my_orders Str.ascii_lower "Ada Lovelace" w2
    = (w2,
       Ok [JDict
             [("id", JStr "ORD0512");
              ("items", JList [JStr "Tea"; JStr "Samosa"]);
              ("total", JNum (Py.Int 45));
              ("status", JStr "Ready");
              ("date", JStr "04 Nov 2026")]]).
Proof.
  intros w order w1.
  destruct (placed_order_status_updated Str.ascii_lower Sample.clock "0512" "Ready" order w
              Sample.fresh) as (w2 & Hrun & _ & Hget); [vm_compute; reflexivity|].
  exists w2. split; [exact Hrun|exact Hget].
Defined.

Lemma appointments_kept_in_booking_order_witness :
  let w := Sample.world_of Sample.fresh in
  let a := AppointmentBook.mk "Ada Lovelace" "Prof. Hopper" "05 Nov 2026" "10:00" "Project" in
  let entry :=
    JDict
      [("professor", JStr "Prof. Hopper");
       ("date", JStr "05 Nov 2026");
       ("time", JStr "10:00");
       ("purpose", JStr "Project");
       ("status", JStr "Pending Approval")] in
  exists w2,
    book_appointment Str.ascii_lower a (book_appointment Str.ascii_lower a w).1
    = (w2, Ok ("Appointment request sent", entry)) /\
    Student.faculty_appointments <$> Store.students (DATA w2) !! "ada lovelace"
    = Some (Some [entry; entry]).
Proof.
  intros w a entry.
  destruct (appointments_kept_in_booking_order Str.ascii_lower a a w Sample.fresh)
    as (_ & Hrun); [vm_compute; reflexivity|reflexivity|].
  eexists. split; [exact Hrun|]. vm_compute. reflexivity.
Defined.
